(** * Guided-workflow state machines: pizza ordering and medical triage

    A shallow embedding of [pizza_guide.py] (class [PizzaOrderGuide]) and
    [triage_guide.py] (class [MedicalTriageGuide]), of the tools of
    [fake_tools.py] whose results the triage guide is told, and of the two
    callers of the pizza guide, [server.py] and [demo.py].

    Conventions of the embedding.
    - [self.sessions] is a [gmap string _]; the session objects it holds are
      mutable and shared with the handler that receives them, which is
      modelled by the frame of the handler monad below.
    - Python [str] values are [string]s whose characters are read as the
      code points 0..255; [lower], [strip] and [in] follow CPython on that
      range.
    - Agent reports and returned payloads are JSON-like values ([Py.value]):
      [None], booleans, integers, strings, lists and dicts; floating-point
      numbers are not represented.  A report is a dict, as the signature of
      [continue_triage] says; what its entries hold is unconstrained.
    - Reports and payloads are values: the guide neither copies the dicts
      it is handed nor the lists it hands out, and a caller that mutates
      one of them afterwards is outside the embedding.
    - A Python exception escaping a method is an explicit [Raise] outcome;
      mutations made before it are kept, as they are on the Python heap.
    - Wall-clock readings ([created_at], the [timestamp] of an audit entry)
      and the display text of a payload ([prompt], [instructions_for_ai],
      [instructions_for_agent], [protocol], [order_summary],
      [emergency_message], the formatted completion [message]) are left out
      of the modelled records; where evaluating such a text can raise, the
      raise is modelled. *)

From Stdlib Require Import ZArith Ascii String.
From stdpp Require Import gmap strings list pretty.

(* ===================================================================== *)
(** * Python primitives used by the two guides *)
(* ===================================================================== *)

Module Py.

(** ** Strings *)

(** [str.isspace] on one character of the range 0..255. *)
Definition isspace (c : ascii) : bool :=
  let n := N_of_ascii c in
  (((9 <=? n) && (n <=? 13)) || ((28 <=? n) && (n <=? 32))
   || (n =? 133) || (n =? 160))%N.

(** [str.lower] on one character of the range 0..255. *)
Definition lower_char (c : ascii) : ascii :=
  let n := N_of_ascii c in
  if (((65 <=? n) && (n <=? 90))
      || ((192 <=? n) && (n <=? 222) && negb (n =? 215)))%N
  then ascii_of_N (n + 32) else c.

Fixpoint lower (s : string) : string :=
  match s with
  | EmptyString => EmptyString
  | String c s' => String (lower_char c) (lower s')
  end.

Fixpoint lstrip (s : string) : string :=
  match s with
  | EmptyString => EmptyString
  | String c s' => if isspace c then lstrip s' else s
  end.

Fixpoint rstrip (s : string) : string :=
  match s with
  | EmptyString => EmptyString
  | String c s' =>
      match rstrip s' with
      | EmptyString => if isspace c then EmptyString else String c EmptyString
      | r => String c r
      end
  end.

(** [s.strip()] *)
Definition strip (s : string) : string := rstrip (lstrip s).

(** [needle in hay] *)
Fixpoint contains (needle hay : string) : bool :=
  String.prefix needle hay
  || match hay with
     | EmptyString => false
     | String _ hay' => contains needle hay'
     end.

(** [s.replace(old, new)] for a non-empty [old]: occurrences are replaced
    from the left and do not overlap.  [skip] counts the characters of a
    matched occurrence that are still to be dropped. *)
Fixpoint replace_from (skip : nat) (old new s : string) : string :=
  match s with
  | EmptyString => EmptyString
  | String c s' =>
      match skip with
      | S k => replace_from k old new s'
      | O =>
          if String.prefix old s
          then new +:+ replace_from (String.length old - 1) old new s'
          else String c (replace_from 0 old new s')
      end
  end.

Definition replace (old new s : string) : string := replace_from 0 old new s.

(** [s.split(sep)] for a one-character separator. *)
Fixpoint split (sep : ascii) (s : string) : list string :=
  match s with
  | EmptyString => [EmptyString]
  | String c s' =>
      if Ascii.eqb c sep then EmptyString :: split sep s'
      else match split sep s' with
           | p :: ps => String c p :: ps
           | [] => [String c EmptyString]
           end
  end.

(** Every character is white space: the inputs [strip] empties. *)
Fixpoint blank (s : string) : bool :=
  match s with
  | EmptyString => true
  | String c s' => isspace c && blank s'
  end.

(** ** JSON-like values *)

#[warnings="-register-all"]
Inductive value : Type :=
| VNone
| VBool (b : bool)
| VInt (n : Z)
| VStr (s : string)
| VList (l : list value)
| VDict (d : list (string * value)).

Definition dict : Type := list (string * value).

(** Key lookup in a dict, the first binding of a key being the live one. *)
Fixpoint assoc (k : string) (d : dict) : option value :=
  match d with
  | [] => None
  | (k', v) :: d' => if String.eqb k k' then Some v else assoc k d'
  end.

(** [bool(v)] *)
Definition truthy (v : value) : bool :=
  match v with
  | VNone => false
  | VBool b => b
  | VInt n => negb (n =? 0)%Z
  | VStr s => negb (String.eqb s EmptyString)
  | VList l => match l with [] => false | _ => true end
  | VDict d => match d with [] => false | _ => true end
  end.

(** ** Exceptions and outcomes *)

Inductive exn : Type := AttributeError | TypeError | KeyError.

Inductive outcome (A : Type) : Type :=
| Return (a : A)
| Raise (e : exn).
Arguments Return {A} a.
Arguments Raise {A} e.

(** [d.get(k, default)] on a dict. *)
Definition dget (d : dict) (k : string) (default : value) : value :=
  match assoc k d with Some v => v | None => default end.

(** [v.get(k, default)] on an arbitrary value: only a dict has [get]. *)
Definition get (v : value) (k : string) (default : value) : outcome value :=
  match v with
  | VDict d => Return (dget d k default)
  | _ => Raise AttributeError
  end.

(** Reading a key of a returned payload. *)
Definition field (k : string) (payload : value) : option value :=
  match payload with VDict d => assoc k d | _ => None end.

(** [len(v)] *)
Definition len (v : value) : outcome Z :=
  match v with
  | VStr s => Return (Z.of_nat (String.length s))
  | VList l => Return (Z.of_nat (List.length l))
  | VDict d => Return (Z.of_nat (List.length d))
  | _ => Raise TypeError
  end.

(** ** The handler monad

    A handler runs against a frame: the guide's [sessions] dictionary, the
    session object [this] it was handed (the object stored under the key the
    caller looked up), and the log of the assignments to the object's
    [state] attribute made so far during the call. *)

Record frame (S : Type) : Type := Frame {
  sessions : gmap string S;
  this : S;
  state_writes : list string
}.
Arguments Frame {S} _ _ _.
Arguments sessions {S} _.
Arguments this {S} _.
Arguments state_writes {S} _.

Definition M (S A : Type) : Type := frame S -> outcome A * frame S.

Definition ret {S A} (a : A) : M S A := fun w => (Return a, w).

Definition bind {S A B} (m : M S A) (f : A -> M S B) : M S B :=
  fun w =>
    match m w with
    | (Return a, w') => f a w'
    | (Raise e, w') => (Raise e, w')
    end.

Definition raise {S A} (e : exn) : M S A := fun w => (Raise e, w).

(** Lift a computation that can only raise. *)
Definition lift {S A} (o : outcome A) : M S A := fun w => (o, w).

(** Read the session object. *)
Definition self {S} : M S S := fun w => (Return (this w), w).

(** Assign an attribute of the session object other than [state]. *)
Definition assign {S} (f : S -> S) : M S unit :=
  fun w => (Return tt, Frame (sessions w) (f (this w)) (state_writes w)).

(** [session.state = st], logged. *)
Definition assign_state {S} (set_state : string -> S -> S) (st : string)
  : M S unit :=
  fun w => (Return tt,
            Frame (sessions w) (set_state st (this w)) (state_writes w ++ [st])).

(** [del self.sessions[k]] *)
Definition del_session {S} (k : string) : M S unit :=
  fun w =>
    match sessions w !! k with
    | Some _ => (Return tt, Frame (delete k (sessions w)) (this w) (state_writes w))
    | None => (Raise KeyError, w)
    end.

(** What a public method hands back: the payload or the exception, the
    dictionary of sessions afterwards, and the [state] assignments made. *)
Record result (S : Type) : Type := Result {
  out : outcome value;
  store : gmap string S;
  writes : list string
}.
Arguments Result {S} _ _ _.
Arguments out {S} _.
Arguments store {S} _.
Arguments writes {S} _.

(** Run a handler on the object stored under [key].  The object is shared
    with the dictionary: its mutations are visible under [key] for as long
    as the handler has not deleted that entry. *)
Definition dispatch {S} (g : gmap string S) (key : string) (obj : S)
    (h : M S value) : result S :=
  let '(o, w) := h (Frame g obj []) in
  Result o
         (match sessions w !! key with
          | Some _ => <[key := this w]> (sessions w)
          | None => sessions w
          end)
         (state_writes w).

End Py.

Notation "'let*' x ':=' m 'in' k" := (Py.bind m (fun x => k))
  (at level 10, x name, m at level 100, k at level 200, only parsing).

(* ===================================================================== *)
(** * pizza_guide.py *)
(* ===================================================================== *)

Module Pizza.
Import Py.

(** ** [PizzaOrder] *)

Record PizzaOrder : Type := mkOrder {
  session_id : string;
  state : string;
  crust : option string;
  category : option string;
  toppings : list string;
  size : option string
}.

(** [PizzaOrder(session_id=sid, state=st)], the other fields at their
    dataclass defaults. *)
Definition new_order (sid st : string) : PizzaOrder :=
  mkOrder sid st None None [] None.

Definition set_state (st : string) (o : PizzaOrder) : PizzaOrder :=
  mkOrder (session_id o) st (crust o) (category o) (toppings o) (size o).
Definition set_crust (c : option string) (o : PizzaOrder) : PizzaOrder :=
  mkOrder (session_id o) (state o) c (category o) (toppings o) (size o).
Definition set_category (c : option string) (o : PizzaOrder) : PizzaOrder :=
  mkOrder (session_id o) (state o) (crust o) c (toppings o) (size o).
Definition set_toppings (t : list string) (o : PizzaOrder) : PizzaOrder :=
  mkOrder (session_id o) (state o) (crust o) (category o) t (size o).
Definition set_size (z : option string) (o : PizzaOrder) : PizzaOrder :=
  mkOrder (session_id o) (state o) (crust o) (category o) (toppings o) z.

Definition of_opt (o : option string) : value :=
  match o with Some s => VStr s | None => VNone end.

(** [order.to_dict()] *)
Definition to_dict (o : PizzaOrder) : value :=
  VDict [("session_id", VStr (session_id o));
         ("state", VStr (state o));
         ("crust", of_opt (crust o));
         ("category", of_opt (category o));
         ("toppings", VList (map VStr (toppings o)));
         ("size", of_opt (size o))].

(** ** Menu options *)

Definition inch : string := String (ascii_of_nat 34) EmptyString.

Definition CRUSTS : list string := ["Thin"; "Regular"; "Thick"; "Gluten-free"].

Definition SIZES : list string :=
  ["Small (10" +:+ inch +:+ ")"; "Medium (12" +:+ inch +:+ ")";
   "Large (14" +:+ inch +:+ ")"; "Extra Large (16" +:+ inch +:+ ")"].

Definition VEGETARIAN_TOPPINGS : list string :=
  ["Mushrooms"; "Olives"; "Bell Peppers"; "Onions";
   "Tomatoes"; "Spinach"; "Artichokes"; "Pineapple"].

Definition MEAT_TOPPINGS : list string :=
  ["Pepperoni"; "Sausage"; "Ham"; "Bacon";
   "Chicken"; "Ground Beef"; "Salami"].

(** ** The option matcher *)

Definition _match_option (user_input : string) (options : list string)
  : option string :=
  let user_input := strip (lower user_input) in
  List.find (fun option =>
               contains (lower option) user_input
               || contains user_input (lower option))
            options.

(** Truth value of an [Optional[str]], as tested by [if not x]. *)
Definition truthy_opt (o : option string) : bool :=
  match o with
  | None => false
  | Some s => negb (String.eqb s EmptyString)
  end.

(** ** Payloads *)

Definition stay_payload (o : PizzaOrder) : value :=
  VDict [("status", VStr "in_progress");
         ("session_id", VStr (session_id o));
         ("action", VStr "ask_user");
         ("stay_in_state", VBool true)].

Definition ask_payload (o : PizzaOrder) (next : string) (extra : dict) : value :=
  VDict ([("status", VStr "in_progress");
          ("session_id", VStr (session_id o));
          ("action", VStr "ask_user");
          ("next_state", VStr next)] ++ extra).

Definition not_found_payload (sid : string) : value :=
  VDict [("status", VStr "error");
         ("message",
          VStr ("Session " +:+ sid +:+ " not found. Please start a new order."))].

Definition unknown_state_payload (st : string) : value :=
  VDict [("status", VStr "error");
         ("message", VStr ("Unknown state: " +:+ st))].

(** ** Handlers *)

(** [_generate_summary]: only [order.category.title()] can fail, when the
    category is still [None]. *)
Definition _generate_summary : M PizzaOrder unit :=
  let* order := self in
  match category order with
  | Some _ => ret tt
  | None => raise AttributeError
  end.

Definition _handle_crust_choice (response : string) : M PizzaOrder value :=
  let crust := _match_option response CRUSTS in
  if negb (truthy_opt crust) then
    let* order := self in
    ret (stay_payload order)
  else
    let* _ := assign (set_crust crust) in
    let* _ := assign_state set_state "CHOOSE_CATEGORY" in
    let* order := self in
    ret (ask_payload order "CHOOSE_CATEGORY" []).

Definition _handle_category_choice (response : string) : M PizzaOrder value :=
  let response_lower := lower response in
  let advance (toppings : list string) : M PizzaOrder value :=
    let* _ := assign_state set_state "CHOOSE_TOPPINGS" in
    let* order := self in
    ret (ask_payload order "CHOOSE_TOPPINGS"
           [("available_toppings", VList (map VStr toppings))]) in
  if contains "veg" response_lower then
    let* _ := assign (set_category (Some "vegetarian")) in
    advance VEGETARIAN_TOPPINGS
  else if contains "meat" response_lower then
    let* _ := assign (set_category (Some "meat")) in
    advance MEAT_TOPPINGS
  else
    let* order := self in
    ret (stay_payload order).

(** The loop over the comma-separated parts of the answer. *)
Definition select_toppings (available : list string) (parts : list string)
  : list string :=
  flat_map (fun part =>
              let topping := _match_option (strip part) available in
              if truthy_opt topping
              then match topping with Some t => [t] | None => [] end
              else [])
           parts.

Definition _handle_toppings_choice (response : string) : M PizzaOrder value :=
  let* order := self in
  let available :=
    if decide (category order = Some "vegetarian")
    then VEGETARIAN_TOPPINGS else MEAT_TOPPINGS in
  let parts := split "," (replace " and " "," response) in
  let selected_toppings := select_toppings available parts in
  match selected_toppings with
  | [] => ret (stay_payload order)
  | _ =>
      let* _ := assign (set_toppings selected_toppings) in
      let* _ := assign_state set_state "CHOOSE_SIZE" in
      let* order := self in
      ret (ask_payload order "CHOOSE_SIZE" [])
  end.

Definition _handle_size_choice (response : string) : M PizzaOrder value :=
  let size := _match_option response SIZES in
  if negb (truthy_opt size) then
    let* order := self in
    ret (stay_payload order)
  else
    let* _ := assign (set_size size) in
    let* _ := assign_state set_state "CONFIRM" in
    let* _ := _generate_summary in
    let* order := self in
    ret (ask_payload order "CONFIRM" []).

(** The test of [_handle_confirmation] on the lower-cased answer. *)
Definition affirmative (response_lower : string) : bool :=
  contains "yes" response_lower
  || contains "confirm" response_lower
  || contains "looks good" response_lower.

Definition cancelled_payload (o : PizzaOrder) : value :=
  VDict [("status", VStr "cancelled");
         ("session_id", VStr (session_id o));
         ("action", VStr "respond");
         ("message",
          VStr "No problem! Your order has been cancelled. Feel free to start a new order anytime.")].

Definition _handle_confirmation (response : string) : M PizzaOrder value :=
  let response_lower := lower response in
  if affirmative response_lower then
    let* _ := assign_state set_state "COMPLETE" in
    let* _ := _generate_summary in
    let* order := self in
    ret (VDict [("status", VStr "complete");
                ("session_id", VStr (session_id order));
                ("action", VStr "respond");
                ("order", to_dict order)])
  else
    let* order := self in
    let* _ := del_session (session_id order) in
    ret (cancelled_payload order).

(** ** Public methods *)

(** [start_order]; [uuid8] is [str(uuid.uuid4())[:8]]. *)
Definition start_order (g : gmap string PizzaOrder) (uuid8 : string)
  : value * gmap string PizzaOrder :=
  let order := new_order uuid8 "CHOOSE_CRUST" in
  (VDict [("status", VStr "in_progress");
          ("session_id", VStr uuid8);
          ("action", VStr "ask_user");
          ("next_state", VStr "CHOOSE_CRUST")],
   <[uuid8 := order]> g).

Definition continue_order (g : gmap string PizzaOrder)
    (session_id user_response : string) : result PizzaOrder :=
  match g !! session_id with
  | None => Result (Return (not_found_payload session_id)) g []
  | Some order =>
      let user_response := strip user_response in
      if String.eqb (state order) "CHOOSE_CRUST" then
        dispatch g session_id order (_handle_crust_choice user_response)
      else if String.eqb (state order) "CHOOSE_CATEGORY" then
        dispatch g session_id order (_handle_category_choice user_response)
      else if String.eqb (state order) "CHOOSE_TOPPINGS" then
        dispatch g session_id order (_handle_toppings_choice user_response)
      else if String.eqb (state order) "CHOOSE_SIZE" then
        dispatch g session_id order (_handle_size_choice user_response)
      else if String.eqb (state order) "CONFIRM" then
        dispatch g session_id order (_handle_confirmation user_response)
      else
        Result (Return (unknown_state_payload (state order))) g []
  end.

Definition get_order (g : gmap string PizzaOrder) (session_id : string)
  : option value :=
  to_dict <$> g !! session_id.

Definition cancel_order (g : gmap string PizzaOrder) (session_id : string)
  : value * gmap string PizzaOrder :=
  match g !! session_id with
  | Some _ =>
      (VDict [("status", VStr "cancelled");
              ("message", VStr "Order cancelled successfully.")],
       delete session_id g)
  | None =>
      (VDict [("status", VStr "error");
              ("message", VStr ("Session " +:+ session_id +:+ " not found."))],
       g)
  end.

End Pizza.

(* ===================================================================== *)
(** * triage_guide.py *)
(* ===================================================================== *)

Module Triage.
Import Py.

(** ** [TriageLevel] *)

Inductive TriageLevel : Type :=
| IMMEDIATE | EMERGENCY | URGENT | SEMI_URGENT | NON_URGENT.

(** [level.value] *)
Definition level_value (l : TriageLevel) : string :=
  match l with
  | IMMEDIATE => "Level 1 - Immediate (Life-threatening)"
  | EMERGENCY => "Level 2 - Emergency (10 min)"
  | URGENT => "Level 3 - Urgent (30 min)"
  | SEMI_URGENT => "Level 4 - Semi-urgent (60 min)"
  | NON_URGENT => "Level 5 - Non-urgent (120 min)"
  end.

(** ** [TriageSession] *)

Record TriageSession : Type := mkSession {
  session_id : string;
  state : string;
  red_flags_checked : bool;
  has_red_flags : bool;
  red_flag_details : value;
  chief_complaint : value;
  medical_history : value;
  vitals : value;
  vitals_critical : bool;
  severity_score : Z;
  triage_level : option TriageLevel;
  recommendation : option string;
  protocol_steps : list value
}.

(** [TriageSession(session_id=sid, state=st)], the other fields at their
    dataclass defaults. *)
Definition new_session (sid st : string) : TriageSession :=
  mkSession sid st false false (VList []) VNone (VDict []) (VDict [])
            false 0 None None [].

Definition set_state (x : string) (s : TriageSession) : TriageSession :=
  mkSession (session_id s) x (red_flags_checked s) (has_red_flags s)
    (red_flag_details s) (chief_complaint s) (medical_history s) (vitals s)
    (vitals_critical s) (severity_score s) (triage_level s)
    (recommendation s) (protocol_steps s).
Definition set_red_flags_checked (x : bool) (s : TriageSession) : TriageSession :=
  mkSession (session_id s) (state s) x (has_red_flags s)
    (red_flag_details s) (chief_complaint s) (medical_history s) (vitals s)
    (vitals_critical s) (severity_score s) (triage_level s)
    (recommendation s) (protocol_steps s).
Definition set_has_red_flags (x : bool) (s : TriageSession) : TriageSession :=
  mkSession (session_id s) (state s) (red_flags_checked s) x
    (red_flag_details s) (chief_complaint s) (medical_history s) (vitals s)
    (vitals_critical s) (severity_score s) (triage_level s)
    (recommendation s) (protocol_steps s).
Definition set_red_flag_details (x : value) (s : TriageSession) : TriageSession :=
  mkSession (session_id s) (state s) (red_flags_checked s) (has_red_flags s)
    x (chief_complaint s) (medical_history s) (vitals s)
    (vitals_critical s) (severity_score s) (triage_level s)
    (recommendation s) (protocol_steps s).
Definition set_chief_complaint (x : value) (s : TriageSession) : TriageSession :=
  mkSession (session_id s) (state s) (red_flags_checked s) (has_red_flags s)
    (red_flag_details s) x (medical_history s) (vitals s)
    (vitals_critical s) (severity_score s) (triage_level s)
    (recommendation s) (protocol_steps s).
Definition set_medical_history (x : value) (s : TriageSession) : TriageSession :=
  mkSession (session_id s) (state s) (red_flags_checked s) (has_red_flags s)
    (red_flag_details s) (chief_complaint s) x (vitals s)
    (vitals_critical s) (severity_score s) (triage_level s)
    (recommendation s) (protocol_steps s).
Definition set_vitals (x : value) (s : TriageSession) : TriageSession :=
  mkSession (session_id s) (state s) (red_flags_checked s) (has_red_flags s)
    (red_flag_details s) (chief_complaint s) (medical_history s) x
    (vitals_critical s) (severity_score s) (triage_level s)
    (recommendation s) (protocol_steps s).
Definition set_vitals_critical (x : bool) (s : TriageSession) : TriageSession :=
  mkSession (session_id s) (state s) (red_flags_checked s) (has_red_flags s)
    (red_flag_details s) (chief_complaint s) (medical_history s) (vitals s)
    x (severity_score s) (triage_level s)
    (recommendation s) (protocol_steps s).
Definition set_severity_score (x : Z) (s : TriageSession) : TriageSession :=
  mkSession (session_id s) (state s) (red_flags_checked s) (has_red_flags s)
    (red_flag_details s) (chief_complaint s) (medical_history s) (vitals s)
    (vitals_critical s) x (triage_level s)
    (recommendation s) (protocol_steps s).
Definition set_triage_level (x : option TriageLevel) (s : TriageSession)
  : TriageSession :=
  mkSession (session_id s) (state s) (red_flags_checked s) (has_red_flags s)
    (red_flag_details s) (chief_complaint s) (medical_history s) (vitals s)
    (vitals_critical s) (severity_score s) x
    (recommendation s) (protocol_steps s).
Definition set_recommendation (x : option string) (s : TriageSession)
  : TriageSession :=
  mkSession (session_id s) (state s) (red_flags_checked s) (has_red_flags s)
    (red_flag_details s) (chief_complaint s) (medical_history s) (vitals s)
    (vitals_critical s) (severity_score s) (triage_level s)
    x (protocol_steps s).
Definition set_protocol_steps (x : list value) (s : TriageSession)
  : TriageSession :=
  mkSession (session_id s) (state s) (red_flags_checked s) (has_red_flags s)
    (red_flag_details s) (chief_complaint s) (medical_history s) (vitals s)
    (vitals_critical s) (severity_score s) (triage_level s)
    (recommendation s) x.

(** One audit entry. *)
Definition step_entry (step : string) (data : value) : value :=
  VDict [("step", VStr step); ("data", data)].

(** [session.add_step(step, data)] as a pure update of the object. *)
Definition append_step (step : string) (data : value) (s : TriageSession)
  : TriageSession :=
  set_protocol_steps (protocol_steps s ++ [step_entry step data]) s.

Definition add_step (step : string) (data : value) : M TriageSession unit :=
  assign (append_step step data).

Definition of_opt_level (l : option TriageLevel) : value :=
  match l with Some l => VStr (level_value l) | None => VNone end.

Definition of_opt (o : option string) : value :=
  match o with Some s => VStr s | None => VNone end.

(** [session.to_dict()] *)
Definition to_dict (s : TriageSession) : value :=
  VDict [("session_id", VStr (session_id s));
         ("state", VStr (state s));
         ("triage_level", of_opt_level (triage_level s));
         ("recommendation", of_opt (recommendation s));
         ("protocol_steps", VList (protocol_steps s))].

(** [session.triage_level.value] *)
Definition triage_level_value : M TriageSession value :=
  let* session := self in
  match triage_level session with
  | Some l => ret (VStr (level_value l))
  | None => raise AttributeError
  end.

Definition strs (l : list string) : value := VList (map VStr l).

Definition not_found_payload (sid : string) : value :=
  VDict [("status", VStr "error");
         ("message",
          VStr ("Session " +:+ sid +:+ " not found. Please start a new triage."))].

Definition unknown_state_payload (st : string) : value :=
  VDict [("status", VStr "error");
         ("message", VStr ("Unknown state: " +:+ st))].

(** ** Handlers *)

Definition _handle_red_flag_screening (report : dict) : M TriageSession value :=
  let* _ := assign (set_red_flags_checked true) in
  let classification := dget report "classification" (VDict []) in
  let symptoms := dget report "symptoms_detected" (VList []) in
  let* requires_emergency :=
    lift (get classification "requires_emergency_protocol" (VBool false)) in
  let* detected_red_flags :=
    lift (get classification "critical_symptoms" (VList [])) in
  let* severity := lift (get classification "severity" (VStr "unknown")) in
  let* _ := add_step "red_flag_screening"
              (VDict [("symptoms_detected", symptoms);
                      ("severity", severity);
                      ("red_flags", detected_red_flags)]) in
  if truthy requires_emergency then
    let* _ := assign (set_has_red_flags true) in
    let* _ := assign (set_red_flag_details detected_red_flags) in
    let* _ := assign_state set_state "EMERGENCY_ESCALATION" in
    let* _ := assign (set_triage_level (Some IMMEDIATE)) in
    let* _ := assign (set_recommendation
                        (Some "IMMEDIATE EMERGENCY CARE REQUIRED")) in
    let* _ := add_step "emergency_escalation_activated"
                (VDict [("decision", VStr "EMERGENCY_ESCALATION");
                        ("triage_level", VStr (level_value IMMEDIATE));
                        ("red_flags", detected_red_flags);
                        ("reason",
                         VStr "Critical symptoms detected by classifier")]) in
    let* _ := assign_state set_state "SAVE_RECORD" in
    let* session := self in
    let* patient_id :=
      lift (get (dget report "medical_history" (VDict []))
                "patient_id" (VStr "P001")) in
    let* severity' := lift (get classification "severity" (VStr "critical")) in
    let* session' := self in
    ret (VDict [("status", VStr "emergency_save_required");
                ("session_id", VStr (session_id session));
                ("decision", VStr "EMERGENCY_ESCALATION");
                ("triage_level", VStr (level_value IMMEDIATE));
                ("red_flags_detected", detected_red_flags);
                ("task", VStr "save_triage_record");
                ("triage_data",
                 VDict [("patient_id", patient_id);
                        ("complaint",
                         dget report "patient_statement" (VStr ""));
                        ("severity", severity');
                        ("triage_level", VStr (level_value IMMEDIATE));
                        ("red_flags", detected_red_flags)]);
                ("audit_trail", VList (protocol_steps session'))])
  else
    let* _ := assign_state set_state "CHIEF_COMPLAINT" in
    let* _ := add_step "red_flag_screening_passed"
                (VDict [("result", VStr "no_red_flags")]) in
    let* session := self in
    ret (VDict [("status", VStr "in_progress");
                ("session_id", VStr (session_id session));
                ("task", VStr "gather_chief_complaint");
                ("required_data",
                 strs ["chief_complaint"; "symptom_description"])]).

Definition _handle_chief_complaint (report : dict) : M TriageSession value :=
  let* _ := assign (set_chief_complaint
                      (dget report "chief_complaint" (VStr ""))) in
  let* _ := add_step "chief_complaint_gathered" (VDict report) in
  let* _ := assign_state set_state "MEDICAL_HISTORY" in
  let* session := self in
  ret (VDict [("status", VStr "in_progress");
              ("session_id", VStr (session_id session));
              ("task", VStr "check_medical_history");
              ("required_data",
               strs ["medical_history"; "medications"; "allergies"])]).

Definition _handle_medical_history (report : dict) : M TriageSession value :=
  let* _ := assign (set_medical_history
                      (dget report "medical_history" (VDict []))) in
  let* _ := add_step "medical_history_checked" (VDict report) in
  let high_risk_conditions := dget report "high_risk_conditions" (VList []) in
  let* _ :=
    if truthy high_risk_conditions
    then assign (fun s => set_severity_score (severity_score s + 2) s)
    else ret tt in
  let* _ := assign_state set_state "VITAL_SIGNS" in
  let* session := self in
  ret (VDict [("status", VStr "in_progress");
              ("session_id", VStr (session_id session));
              ("task", VStr "get_vital_signs");
              ("required_data",
               strs ["blood_pressure"; "heart_rate"; "temperature";
                     "respiratory_rate"; "oxygen_saturation"])]).

Definition _handle_vital_signs (report : dict) : M TriageSession value :=
  let vitals_ := dget report "vitals" (VDict []) in
  let critical_values := dget report "critical_values" (VList []) in
  let* _ := assign (set_vitals vitals_) in
  let* n := lift (len critical_values) in
  let* _ := assign (set_vitals_critical (0 <? n)%Z) in
  let* _ := add_step "vital_signs_obtained"
              (VDict [("vitals", vitals_);
                      ("critical_values", critical_values)]) in
  let* _ :=
    if truthy critical_values
    then assign (fun s => set_severity_score (severity_score s + 3) s)
    else ret tt in
  let* _ := assign_state set_state "SEVERITY_ASSESSMENT" in
  let* session := self in
  ret (VDict [("status", VStr "in_progress");
              ("session_id", VStr (session_id session));
              ("task", VStr "assess_severity");
              ("data_for_assessment",
               VDict [("red_flags", red_flag_details session);
                      ("chief_complaint", chief_complaint session);
                      ("medical_history", medical_history session);
                      ("vitals", vitals session);
                      ("severity_score", VInt (severity_score session))])]).

(** [_generate_final_message]: only
    [session.medical_history.get('high_risk')] can fail. *)
Definition _generate_final_message : M TriageSession unit :=
  let* session := self in
  let* _ := lift (get (medical_history session) "high_risk" VNone) in
  ret tt.

Definition _handle_severity_assessment (report : dict)
  : M TriageSession value :=
  let* session := self in
  let* _ :=
    if (5 <=? severity_score session)%Z || vitals_critical session then
      let* _ := assign (set_triage_level (Some EMERGENCY)) in
      assign (set_recommendation
                (Some "Emergency Department - within 10 minutes"))
    else if (3 <=? severity_score session)%Z then
      let* _ := assign (set_triage_level (Some URGENT)) in
      assign (set_recommendation
                (Some "Urgent Care or ED - within 30 minutes"))
    else if (2 <=? severity_score session)%Z then
      let* _ := assign (set_triage_level (Some SEMI_URGENT)) in
      assign (set_recommendation (Some "Urgent Care - within 60 minutes"))
    else
      let* _ := assign (set_triage_level (Some NON_URGENT)) in
      assign (set_recommendation
                (Some "Primary care or telehealth - within 24 hours")) in
  let* level := triage_level_value in
  let* session := self in
  let* _ := add_step "triage_completed"
              (VDict [("triage_level", level);
                      ("recommendation", of_opt (recommendation session))]) in
  let* _ := assign_state set_state "COMPLETE" in
  let* session := self in
  let* level := triage_level_value in
  let* _ := _generate_final_message in
  ret (VDict [("status", VStr "complete");
              ("session_id", VStr (session_id session));
              ("triage_level", level);
              ("recommendation", of_opt (recommendation session));
              ("protocol_compliance",
               VDict [("all_steps_completed", VBool true);
                      ("red_flags_screened",
                       VBool (red_flags_checked session));
                      ("vitals_obtained", VBool (truthy (vitals session)));
                      ("history_reviewed",
                       VBool (truthy (medical_history session)))]);
              ("audit_trail", VList (protocol_steps session))]).

Definition _handle_save_record (report : dict) : M TriageSession value :=
  let* _ := add_step "triage_record_saved"
              (VDict [("record_id", dget report "record_id" VNone);
                      ("status", dget report "status" VNone)]) in
  let* _ := assign_state set_state "COMPLETE" in
  let* session := self in
  let* level := triage_level_value in
  ret (VDict [("status", VStr "emergency");
              ("session_id", VStr (session_id session));
              ("decision", VStr "EMERGENCY_ESCALATION");
              ("triage_level", level);
              ("red_flags_detected", red_flag_details session);
              ("task", VStr "emergency_response");
              ("audit_trail", VList (protocol_steps session))]).

(** ** Public methods *)

(** [start_triage]; [uuid8] is [str(uuid.uuid4())[:8]]. *)
Definition start_triage (g : gmap string TriageSession) (uuid8 : string)
  : value * gmap string TriageSession :=
  let session := new_session uuid8 "RED_FLAG_SCREENING" in
  let session :=
    append_step "triage_started" (VDict [("session_id", VStr uuid8)]) session in
  (VDict [("status", VStr "in_progress");
          ("session_id", VStr uuid8);
          ("task", VStr "screen_red_flags");
          ("required_data", strs ["symptoms_present"; "symptom_details"])],
   <[uuid8 := session]> g).

Definition continue_triage (g : gmap string TriageSession)
    (session_id : string) (agent_report : dict) : result TriageSession :=
  match g !! session_id with
  | None => Result (Return (not_found_payload session_id)) g []
  | Some session =>
      if String.eqb (state session) "RED_FLAG_SCREENING" then
        dispatch g session_id session (_handle_red_flag_screening agent_report)
      else if String.eqb (state session) "CHIEF_COMPLAINT" then
        dispatch g session_id session (_handle_chief_complaint agent_report)
      else if String.eqb (state session) "MEDICAL_HISTORY" then
        dispatch g session_id session (_handle_medical_history agent_report)
      else if String.eqb (state session) "VITAL_SIGNS" then
        dispatch g session_id session (_handle_vital_signs agent_report)
      else if String.eqb (state session) "SEVERITY_ASSESSMENT" then
        dispatch g session_id session (_handle_severity_assessment agent_report)
      else if String.eqb (state session) "SAVE_RECORD" then
        dispatch g session_id session (_handle_save_record agent_report)
      else
        Result (Return (unknown_state_payload (state session))) g []
  end.

Definition get_session (g : gmap string TriageSession) (session_id : string)
  : option value :=
  to_dict <$> g !! session_id.

Definition cancel_session (g : gmap string TriageSession) (session_id : string)
  : value * gmap string TriageSession :=
  match g !! session_id with
  | Some _ =>
      (VDict [("status", VStr "cancelled");
              ("message", VStr "Triage session cancelled.")],
       delete session_id g)
  | None =>
      (VDict [("status", VStr "error");
              ("message", VStr ("Session " +:+ session_id +:+ " not found."))],
       g)
  end.

(** A sequence of [continue_triage] calls, each with its own session id and
    report, threaded through the dictionary of sessions. *)
Fixpoint continue_many (g : gmap string TriageSession)
    (calls : list (string * dict)) : gmap string TriageSession :=
  match calls with
  | [] => g
  | (sid, report) :: calls' =>
      continue_many (store (continue_triage g sid report)) calls'
  end.

End Triage.

(* ===================================================================== *)
(** * Relations and instances used in the statements *)
(* ===================================================================== *)

(** A handler is steady for [R] when it leaves the dictionary of sessions
    alone and moves the session object along [R], whether it returns or
    raises. *)
Definition steady {S A : Type} (R : S -> S -> Prop) (h : Py.M S A) : Prop :=
  forall w, Py.sessions (h w).2 = Py.sessions w
            /\ R (Py.this w) (Py.this (h w).2).

(** [grows s s']: the object keeps its id, keeps a raised red-flag mark,
    does not lower its severity score and only extends its audit trail. *)
Definition grows (s s' : Triage.TriageSession) : Prop :=
  Triage.session_id s' = Triage.session_id s
  /\ (Triage.has_red_flags s = true -> Triage.has_red_flags s' = true)
  /\ (Triage.severity_score s <= Triage.severity_score s')%Z
  /\ Triage.protocol_steps s `prefix_of` Triage.protocol_steps s'.

(* ===================================================================== *)
(** * Worked sessions used as concrete instances *)
(* ===================================================================== *)

(** A report whose classification asks for the emergency protocol. *)
Definition emergency_report : Py.dict :=
  [("classification",
    Py.VDict [("requires_emergency_protocol", Py.VBool true);
              ("critical_symptoms", Py.VList [Py.VStr "severe chest pain"]);
              ("severity", Py.VStr "critical")]);
   ("patient_statement", Py.VStr "crushing chest pain")].

(** A report with nothing alarming in it. *)
Definition calm_report : Py.dict :=
  [("classification",
    Py.VDict [("requires_emergency_protocol", Py.VBool false)]);
   ("chief_complaint", Py.VStr "sore throat")].

(** A report that raises the score at both checkpoints. *)
Definition risky_report : Py.dict :=
  [("high_risk_conditions", Py.VList [Py.VStr "diabetes"]);
   ("critical_values", Py.VList [Py.VStr "heart_rate"])].

Definition triage_started : gmap string Triage.TriageSession :=
  (Triage.start_triage ∅ "a1b2c3d4").2.

Definition triage_escalated : gmap string Triage.TriageSession :=
  Py.store (Triage.continue_triage triage_started "a1b2c3d4" emergency_report).

Definition triage_history : gmap string Triage.TriageSession :=
  Triage.continue_many triage_started
    [("a1b2c3d4", calm_report); ("a1b2c3d4", calm_report)].

(** The states [continue_triage] has a handler for. *)
Definition triage_handled (st : string) : bool :=
  String.eqb st "RED_FLAG_SCREENING" || String.eqb st "CHIEF_COMPLAINT"
  || String.eqb st "MEDICAL_HISTORY" || String.eqb st "VITAL_SIGNS"
  || String.eqb st "SEVERITY_ASSESSMENT" || String.eqb st "SAVE_RECORD".

(** Number of audit entries a handler appends before it returns. *)
Definition steps_appended (st : string) : nat :=
  if String.eqb st "RED_FLAG_SCREENING" then 2 else 1.

(** The test of [_handle_red_flag_screening]: the report's classification
    is a dict whose [requires_emergency_protocol] entry is truthy. *)
Definition requires_emergency (report : Py.dict) : bool :=
  match Py.get (Py.dget report "classification" (Py.VDict []))
               "requires_emergency_protocol" (Py.VBool false) with
  | Py.Return v => Py.truthy v
  | Py.Raise _ => false
  end.

(** The states on the escalation branch once the emergency call is over. *)
Definition after_escalation (st : string) : Prop :=
  st = "SAVE_RECORD" \/ st = "COMPLETE".

(** ** Pizza instances *)

Definition pizza_started : gmap string Pizza.PizzaOrder :=
  (Pizza.start_order ∅ "a1b2c3d4").2.

Definition pizza_thin : gmap string Pizza.PizzaOrder :=
  Py.store (Pizza.continue_order pizza_started "a1b2c3d4" "thin").

Definition pizza_confirming : gmap string Pizza.PizzaOrder :=
  let g := Py.store (Pizza.continue_order pizza_thin "a1b2c3d4" "veggie") in
  let g := Py.store (Pizza.continue_order g "a1b2c3d4" "olives and spinach") in
  Py.store (Pizza.continue_order g "a1b2c3d4" "large").

Definition pizza_completed : gmap string Pizza.PizzaOrder :=
  Py.store (Pizza.continue_order pizza_confirming "a1b2c3d4" "Yes please").

Definition triage_completed : gmap string Triage.TriageSession :=
  Triage.continue_many triage_escalated
    [("a1b2c3d4", [("record_id", Py.VStr "R-17"); ("status", Py.VStr "saved")])].

(** ** The failure taxonomy of the specification, read off a payload

    A payload with status [error] is [UnknownState] when its message is the
    one of the dispatcher's fall-through branch, [SessionNotFound] when it is
    the one of the missing-session branch, and counts as [SessionTerminated]
    whenever it is any other error. *)

Inductive failure : Type := SessionNotFound | SessionTerminated | UnknownState.

Definition failure_of (payload : Py.value) : option failure :=
  match Py.field "status" payload with
  | Some (Py.VStr st) =>
      if String.eqb st "error" then
        match Py.field "message" payload with
        | Some (Py.VStr msg) =>
            if String.prefix "Unknown state: " msg then Some UnknownState
            else if String.prefix "Session " msg && Py.contains " not found" msg
            then Some SessionNotFound
            else Some SessionTerminated
        | _ => Some SessionTerminated
        end
      else None
  | _ => None
  end.

(** ** Validation in the collection states of the pizza workflow *)

Definition pizza_collection_state (st : string) : bool :=
  String.eqb st "CHOOSE_CRUST" || String.eqb st "CHOOSE_CATEGORY"
  || String.eqb st "CHOOSE_TOPPINGS" || String.eqb st "CHOOSE_SIZE".

(** Whether the (stripped) answer resolves against what the handler of the
    order's state asks for. *)
Definition pizza_input_resolves (o : Pizza.PizzaOrder) (response : string)
  : bool :=
  if String.eqb (Pizza.state o) "CHOOSE_CRUST" then
    Pizza.truthy_opt (Pizza._match_option response Pizza.CRUSTS)
  else if String.eqb (Pizza.state o) "CHOOSE_CATEGORY" then
    Py.contains "veg" (Py.lower response)
    || Py.contains "meat" (Py.lower response)
  else if String.eqb (Pizza.state o) "CHOOSE_TOPPINGS" then
    match Pizza.select_toppings
            (if decide (Pizza.category o = Some "vegetarian")
             then Pizza.VEGETARIAN_TOPPINGS else Pizza.MEAT_TOPPINGS)
            (Py.split "," (Py.replace " and " "," response)) with
    | [] => false
    | _ => true
    end
  else if String.eqb (Pizza.state o) "CHOOSE_SIZE" then
    Pizza.truthy_opt (Pizza._match_option response Pizza.SIZES)
  else true.

(** The order after "thin" has been accepted as the crust. *)
Definition thin_order (uuid8 : string) : Pizza.PizzaOrder :=
  Pizza.set_state "CHOOSE_CATEGORY"
    (Pizza.set_crust (Some "Thin") (Pizza.new_order uuid8 "CHOOSE_CRUST")).

(** Every order is stored under its own id: the invariant [start_order]
    establishes and every method keeps. *)
Definition well_keyed (g : gmap string Pizza.PizzaOrder) : Prop :=
  forall k o, g !! k = Some o -> Pizza.session_id o = k.

(* ===================================================================== *)
(** * Sequences of calls and what they keep true of a pizza order *)
(* ===================================================================== *)

(** A call to one of the public methods of [PizzaOrderGuide] that can change
    the dictionary of sessions. *)
Inductive pizza_call : Type :=
| Start_order (uuid8 : string)
| Continue_order (session_id user_response : string)
| Cancel_order (session_id : string).

Definition pizza_call_store (g : gmap string Pizza.PizzaOrder)
    (c : pizza_call) : gmap string Pizza.PizzaOrder :=
  match c with
  | Start_order uuid8 => (Pizza.start_order g uuid8).2
  | Continue_order sid resp => Py.store (Pizza.continue_order g sid resp)
  | Cancel_order sid => (Pizza.cancel_order g sid).2
  end.

(** The dictionary of sessions after a sequence of calls. *)
Fixpoint pizza_calls (g : gmap string Pizza.PizzaOrder)
    (cs : list pizza_call) : gmap string Pizza.PizzaOrder :=
  match cs with
  | [] => g
  | c :: cs' => pizza_calls (pizza_call_store g c) cs'
  end.

(** Position of a state on the ordering chain. *)
Definition pizza_rank (st : string) : option nat :=
  if String.eqb st "CHOOSE_CRUST" then Some 0
  else if String.eqb st "CHOOSE_CATEGORY" then Some 1
  else if String.eqb st "CHOOSE_TOPPINGS" then Some 2
  else if String.eqb st "CHOOSE_SIZE" then Some 3
  else if String.eqb st "CONFIRM" then Some 4
  else if String.eqb st "COMPLETE" then Some 5
  else None.

(** The toppings offered for a category, as [_handle_toppings_choice]
    picks them. *)
Definition toppings_of (category : option string) : list string :=
  if decide (category = Some "vegetarian")
  then Pizza.VEGETARIAN_TOPPINGS else Pizza.MEAT_TOPPINGS.

(** An order is filled in as far as its state says: its state is on the
    chain and every field collected before that state holds a menu value. *)
Definition filled (o : Pizza.PizzaOrder) : Prop :=
  exists r,
    pizza_rank (Pizza.state o) = Some r
    /\ (1 <= r -> exists c, Pizza.crust o = Some c /\ In c Pizza.CRUSTS)
    /\ (2 <= r -> Pizza.category o = Some "vegetarian"
                  \/ Pizza.category o = Some "meat")
    /\ (3 <= r -> Pizza.toppings o <> []
                  /\ forall t, In t (Pizza.toppings o) ->
                               In t (toppings_of (Pizza.category o)))
    /\ (4 <= r -> exists z, Pizza.size o = Some z /\ In z Pizza.SIZES).

(** One accepted answer: the order keeps its id, moves one step along the
    chain and stays filled in. *)
Definition advances (o o' : Pizza.PizzaOrder) : Prop :=
  Pizza.session_id o' = Pizza.session_id o
  /\ (exists r, pizza_rank (Pizza.state o) = Some r
                /\ pizza_rank (Pizza.state o') = Some (S r))
  /\ (filled o -> filled o').

(** A sequence of answers given to one session. *)
Fixpoint continue_order_all (g : gmap string Pizza.PizzaOrder)
    (sid : string) (answers : list string) : gmap string Pizza.PizzaOrder :=
  match answers with
  | [] => g
  | a :: answers' =>
      continue_order_all (Py.store (Pizza.continue_order g sid a)) sid answers'
  end.

(** Every order is stored under its own id and is filled in as far as its
    state says. *)
Definition pizza_store_ok (g : gmap string Pizza.PizzaOrder) : Prop :=
  well_keyed g /\ forall k o, g !! k = Some o -> filled o.

(** The six states an order created by [start_order] can be in. *)
Definition pizza_states : list string :=
  ["CHOOSE_CRUST"; "CHOOSE_CATEGORY"; "CHOOSE_TOPPINGS"; "CHOOSE_SIZE";
   "CONFIRM"; "COMPLETE"].

(** The category [_handle_category_choice] reads off a lower-cased answer. *)
Definition chosen_category (response_lower : string) : option string :=
  if Py.contains "veg" response_lower then Some "vegetarian"
  else if Py.contains "meat" response_lower then Some "meat"
  else None.

(** The toppings [_handle_toppings_choice] reads off a stripped answer. *)
Definition chosen_toppings (category : option string) (response : string)
  : list string :=
  Pizza.select_toppings (toppings_of category)
    (Py.split "," (Py.replace " and " "," response)).

(** The four menus. *)
Definition menus : list (list string) :=
  [Pizza.CRUSTS; Pizza.SIZES; Pizza.VEGETARIAN_TOPPINGS; Pizza.MEAT_TOPPINGS].

(** A few calls on an empty guide: two orders, one taken to the topping
    question, the other cancelled. *)
Definition pizza_busy : gmap string Pizza.PizzaOrder :=
  pizza_calls ∅
    [Start_order "a1b2c3d4"; Start_order "ffff0000";
     Continue_order "a1b2c3d4" "Thick"; Continue_order "ffff0000" "";
     Continue_order "a1b2c3d4" "with meat"; Cancel_order "ffff0000"].

(* ===================================================================== *)
(** * Sequences of calls and the phases of a triage session *)
(* ===================================================================== *)

(** A call to one of the public methods of [MedicalTriageGuide] that can
    change the dictionary of sessions. *)
Inductive triage_call : Type :=
| Start_triage (uuid8 : string)
| Continue_triage (session_id : string) (agent_report : Py.dict)
| Cancel_session (session_id : string).

Definition triage_call_store (g : gmap string Triage.TriageSession)
    (c : triage_call) : gmap string Triage.TriageSession :=
  match c with
  | Start_triage uuid8 => (Triage.start_triage g uuid8).2
  | Continue_triage sid report => Py.store (Triage.continue_triage g sid report)
  | Cancel_session sid => (Triage.cancel_session g sid).2
  end.

(** The dictionary of sessions after a sequence of calls. *)
Fixpoint triage_calls (g : gmap string Triage.TriageSession)
    (cs : list triage_call) : gmap string Triage.TriageSession :=
  match cs with
  | [] => g
  | c :: cs' => triage_calls (triage_call_store g c) cs'
  end.

(** Where a session stands in the protocol. *)
Inductive phase : Type :=
| Screening | Complaint | History | Vitals | Assessment
| Saving | Done_normal | Done_escalated.

Definition phase_state (p : phase) : string :=
  match p with
  | Screening => "RED_FLAG_SCREENING"
  | Complaint => "CHIEF_COMPLAINT"
  | History => "MEDICAL_HISTORY"
  | Vitals => "VITAL_SIGNS"
  | Assessment => "SEVERITY_ASSESSMENT"
  | Saving => "SAVE_RECORD"
  | Done_normal | Done_escalated => "COMPLETE"
  end.

(** The step names of the audit trail of a session in phase [p]. *)
Definition phase_trail (p : phase) : list string :=
  match p with
  | Screening => ["triage_started"]
  | Complaint =>
      ["triage_started"; "red_flag_screening"; "red_flag_screening_passed"]
  | History =>
      ["triage_started"; "red_flag_screening"; "red_flag_screening_passed";
       "chief_complaint_gathered"]
  | Vitals =>
      ["triage_started"; "red_flag_screening"; "red_flag_screening_passed";
       "chief_complaint_gathered"; "medical_history_checked"]
  | Assessment =>
      ["triage_started"; "red_flag_screening"; "red_flag_screening_passed";
       "chief_complaint_gathered"; "medical_history_checked";
       "vital_signs_obtained"]
  | Done_normal =>
      ["triage_started"; "red_flag_screening"; "red_flag_screening_passed";
       "chief_complaint_gathered"; "medical_history_checked";
       "vital_signs_obtained"; "triage_completed"]
  | Saving =>
      ["triage_started"; "red_flag_screening";
       "emergency_escalation_activated"]
  | Done_escalated =>
      ["triage_started"; "red_flag_screening";
       "emergency_escalation_activated"; "triage_record_saved"]
  end.

Definition phase_escalated (p : phase) : bool :=
  match p with
  | Saving | Done_escalated => true
  | _ => false
  end.

(** The step names recorded in a session's audit trail. *)
Definition step_names (s : Triage.TriageSession) : list (option Py.value) :=
  map (Py.field "step") (Triage.protocol_steps s).

(** The level [_handle_severity_assessment] derives from the score and the
    critical-vitals mark. *)
Definition assessed_level (score : Z) (vitals_critical : bool)
  : Triage.TriageLevel :=
  if (5 <=? score)%Z || vitals_critical then Triage.EMERGENCY
  else if (3 <=? score)%Z then Triage.URGENT
  else if (2 <=? score)%Z then Triage.SEMI_URGENT
  else Triage.NON_URGENT.

(** The score and the critical-vitals mark agree: without critical vitals
    the score is 0 or 2, with them it is 3 or 5. *)
Definition score_consistent (s : Triage.TriageSession) : Prop :=
  (Triage.vitals_critical s = true
   /\ (Triage.severity_score s = 3 \/ Triage.severity_score s = 5)%Z)
  \/ (Triage.vitals_critical s = false
      /\ (Triage.severity_score s = 0 \/ Triage.severity_score s = 2)%Z).

(** What holds of the assessment fields of a session in phase [p]. *)
Definition phase_fields (p : phase) (s : Triage.TriageSession) : Prop :=
  match p with
  | Screening =>
      Triage.severity_score s = 0%Z /\ Triage.vitals_critical s = false
      /\ Triage.triage_level s = None
  | Complaint | History =>
      Triage.red_flags_checked s = true
      /\ Triage.severity_score s = 0%Z /\ Triage.vitals_critical s = false
      /\ Triage.triage_level s = None
  | Vitals =>
      Triage.red_flags_checked s = true
      /\ (Triage.severity_score s = 0 \/ Triage.severity_score s = 2)%Z
      /\ Triage.vitals_critical s = false
      /\ Triage.triage_level s = None
  | Assessment =>
      Triage.red_flags_checked s = true
      /\ score_consistent s
      /\ Triage.triage_level s = None
  | Done_normal =>
      Triage.red_flags_checked s = true
      /\ score_consistent s
      /\ Triage.triage_level s
         = Some (assessed_level (Triage.severity_score s)
                                (Triage.vitals_critical s))
  | Saving | Done_escalated =>
      Triage.red_flags_checked s = true
      /\ Triage.triage_level s = Some Triage.IMMEDIATE
  end.

(** A session is in phase [p]: its state, its audit trail, its red-flag
    mark and its assessment fields are those of the phase. *)
Definition in_phase (p : phase) (s : Triage.TriageSession) : Prop :=
  Triage.state s = phase_state p
  /\ step_names s = map (fun n => Some (Py.VStr n)) (phase_trail p)
  /\ Triage.has_red_flags s = phase_escalated p
  /\ phase_fields p s.

(** Every session is stored under its own id and is in some phase. *)
Definition triage_store_ok (g : gmap string Triage.TriageSession) : Prop :=
  forall k s, g !! k = Some s ->
              Triage.session_id s = k /\ exists p, in_phase p s.

(** The seven states a stored triage session can be in. *)
Definition triage_states : list string :=
  ["RED_FLAG_SCREENING"; "CHIEF_COMPLAINT"; "MEDICAL_HISTORY"; "VITAL_SIGNS";
   "SEVERITY_ASSESSMENT"; "SAVE_RECORD"; "COMPLETE"].

(** Calls on one guide: one session taken through the normal path to the
    end, one escalated and saved, a third one cancelled. *)
Definition busy_calls : list triage_call :=
  [Start_triage "a1b2c3d4"; Start_triage "0000ffff"; Start_triage "deadbeef";
   Continue_triage "a1b2c3d4" calm_report;
   Continue_triage "0000ffff" emergency_report;
   Continue_triage "a1b2c3d4" calm_report;
   Cancel_session "deadbeef";
   Continue_triage "a1b2c3d4" risky_report;
   Continue_triage "0000ffff"
     [("record_id", Py.VStr "TRIAGE-4711"); ("status", Py.VStr "saved")];
   Continue_triage "a1b2c3d4" risky_report;
   Continue_triage "a1b2c3d4" []].

(* ===================================================================== *)
(** * The session after each triage handler *)
(* ===================================================================== *)

(** The session [start_triage] stores. *)
Definition started_session (uuid8 : string) : Triage.TriageSession :=
  Triage.append_step "triage_started"
    (Py.VDict [("session_id", Py.VStr uuid8)])
    (Triage.new_session uuid8 "RED_FLAG_SCREENING").

(** After the first audit entry of [_handle_red_flag_screening], for a
    report whose classification is the dict [cls]. *)
Definition screened (report cls : Py.dict) (s : Triage.TriageSession)
  : Triage.TriageSession :=
  Triage.append_step "red_flag_screening"
    (Py.VDict [("symptoms_detected",
                Py.dget report "symptoms_detected" (Py.VList []));
               ("severity", Py.dget cls "severity" (Py.VStr "unknown"));
               ("red_flags", Py.dget cls "critical_symptoms" (Py.VList []))])
    (Triage.set_red_flags_checked true s).

Definition after_screening_passed (report cls : Py.dict)
    (s : Triage.TriageSession) : Triage.TriageSession :=
  Triage.append_step "red_flag_screening_passed"
    (Py.VDict [("result", Py.VStr "no_red_flags")])
    (Triage.set_state "CHIEF_COMPLAINT" (screened report cls s)).

Definition after_escalation_call (report cls : Py.dict)
    (s : Triage.TriageSession) : Triage.TriageSession :=
  let flags := Py.dget cls "critical_symptoms" (Py.VList []) in
  Triage.set_state "SAVE_RECORD"
    (Triage.append_step "emergency_escalation_activated"
       (Py.VDict [("decision", Py.VStr "EMERGENCY_ESCALATION");
                  ("triage_level",
                   Py.VStr (Triage.level_value Triage.IMMEDIATE));
                  ("red_flags", flags);
                  ("reason",
                   Py.VStr "Critical symptoms detected by classifier")])
       (Triage.set_recommendation (Some "IMMEDIATE EMERGENCY CARE REQUIRED")
          (Triage.set_triage_level (Some Triage.IMMEDIATE)
             (Triage.set_state "EMERGENCY_ESCALATION"
                (Triage.set_red_flag_details flags
                   (Triage.set_has_red_flags true
                      (screened report cls s))))))).

Definition after_chief_complaint (report : Py.dict)
    (s : Triage.TriageSession) : Triage.TriageSession :=
  Triage.set_state "MEDICAL_HISTORY"
    (Triage.append_step "chief_complaint_gathered" (Py.VDict report)
       (Triage.set_chief_complaint
          (Py.dget report "chief_complaint" (Py.VStr "")) s)).

Definition after_medical_history (report : Py.dict)
    (s : Triage.TriageSession) : Triage.TriageSession :=
  let s1 :=
    Triage.append_step "medical_history_checked" (Py.VDict report)
      (Triage.set_medical_history
         (Py.dget report "medical_history" (Py.VDict [])) s) in
  Triage.set_state "VITAL_SIGNS"
    (if Py.truthy (Py.dget report "high_risk_conditions" (Py.VList []))
     then Triage.set_severity_score (Triage.severity_score s1 + 2) s1
     else s1).

(** [n] is [len(critical_values)]. *)
Definition after_vital_signs (report : Py.dict) (n : Z)
    (s : Triage.TriageSession) : Triage.TriageSession :=
  let critical_values := Py.dget report "critical_values" (Py.VList []) in
  let s1 :=
    Triage.append_step "vital_signs_obtained"
      (Py.VDict [("vitals", Py.dget report "vitals" (Py.VDict []));
                 ("critical_values", critical_values)])
      (Triage.set_vitals_critical (0 <? n)%Z
         (Triage.set_vitals (Py.dget report "vitals" (Py.VDict [])) s)) in
  Triage.set_state "SEVERITY_ASSESSMENT"
    (if Py.truthy critical_values
     then Triage.set_severity_score (Triage.severity_score s1 + 3) s1
     else s1).

(** The recommendation that goes with a level in
    [_handle_severity_assessment]. *)
Definition level_recommendation (l : Triage.TriageLevel) : string :=
  match l with
  | Triage.IMMEDIATE => "IMMEDIATE EMERGENCY CARE REQUIRED"
  | Triage.EMERGENCY => "Emergency Department - within 10 minutes"
  | Triage.URGENT => "Urgent Care or ED - within 30 minutes"
  | Triage.SEMI_URGENT => "Urgent Care - within 60 minutes"
  | Triage.NON_URGENT => "Primary care or telehealth - within 24 hours"
  end.

Definition after_assessment (s : Triage.TriageSession) : Triage.TriageSession :=
  let l := assessed_level (Triage.severity_score s) (Triage.vitals_critical s) in
  Triage.set_state "COMPLETE"
    (Triage.append_step "triage_completed"
       (Py.VDict [("triage_level", Py.VStr (Triage.level_value l));
                  ("recommendation", Py.VStr (level_recommendation l))])
       (Triage.set_recommendation (Some (level_recommendation l))
          (Triage.set_triage_level (Some l) s))).

Definition after_save_record (report : Py.dict) (s : Triage.TriageSession)
  : Triage.TriageSession :=
  Triage.set_state "COMPLETE"
    (Triage.append_step "triage_record_saved"
       (Py.VDict [("record_id", Py.dget report "record_id" Py.VNone);
                  ("status", Py.dget report "status" Py.VNone)])
       s).

(** A value that is a dict. *)
Definition is_dict (v : Py.value) : bool :=
  match v with Py.VDict _ => true | _ => false end.

(* ===================================================================== *)
(** * fake_tools.py *)
(* ===================================================================== *)

(** The tools the agent runs between two calls of the triage guide.  What
    they return is what the agent reports back, so their results are the
    dicts and lists of [Py.value].  [VitalsMonitor.get_vitals] and
    [get_demo_scenario] return floating-point temperatures and are left
    out. *)

Module Tools.
Import Py.

(** Sequencing of computations that can raise. *)
Definition and_then {A B : Type} (o : outcome A) (k : A -> outcome B)
  : outcome B :=
  match o with
  | Return a => k a
  | Raise e => Raise e
  end.

Notation "'let!' x ':=' o 'in' k" := (and_then o (fun x => k))
  (at level 10, x name, o at level 100, k at level 200, only parsing).

(** [v == s] for a string [s]: only a string is equal to a string. *)
Definition eq_str (v : value) (s : string) : bool :=
  match v with
  | VStr s' => String.eqb s' s
  | _ => false
  end.

(** [d[k]] *)
Definition subscript (d : dict) (k : string) : outcome value :=
  match assoc k d with
  | Some v => Return v
  | None => Raise KeyError
  end.

(** The keys of a dict in iteration order, each of them once. *)
Fixpoint keys (d : dict) : list string :=
  match d with
  | [] => []
  | (k, _) :: d' => k :: List.filter (fun k' => negb (String.eqb k' k)) (keys d')
  end.

(** The items iterating over a value yields, as [list.extend] consumes
    them: the elements of a list, the characters of a string, the keys of a
    dict; anything else is not iterable. *)
Definition iterate (v : value) : outcome (list value) :=
  match v with
  | VList l => Return l
  | VStr s =>
      Return (map (fun c => VStr (String c EmptyString))
                  (list_ascii_of_string s))
  | VDict d => Return (map VStr (keys d))
  | _ => Raise TypeError
  end.

(** ** [SymptomClassifier] *)

Definition CRITICAL_SYMPTOMS : list string :=
  ["chest pain"; "crushing chest pain"; "severe chest pain";
   "difficulty breathing"; "shortness of breath"; "cannot breathe";
   "severe bleeding"; "uncontrolled bleeding";
   "altered consciousness"; "confusion"; "unresponsive";
   "severe head injury"; "stroke symptoms";
   "severe abdominal pain"; "suspected heart attack"].

Definition MODERATE_SYMPTOMS : list string :=
  ["persistent cough"; "fever"; "vomiting";
   "moderate pain"; "dizziness"; "weakness";
   "rash"; "swelling"].

(** The symptoms of a table that occur in the lower-cased statement, in
    the order of the table. *)
Definition detect (table : list string) (statement_lower : string)
  : list string :=
  List.filter (fun symptom => contains symptom statement_lower) table.

Definition nonempty {A : Type} (l : list A) : bool :=
  match l with [] => false | _ => true end.

Definition classify_symptoms (patient_statement : string)
    (medical_history : dict) : outcome dict :=
  let statement_lower := lower patient_statement in
  let detected_critical := detect CRITICAL_SYMPTOMS statement_lower in
  let detected_moderate := detect MODERATE_SYMPTOMS statement_lower in
  let risk_factors : list value := [] in
  let risk_factors :=
    if truthy (dget medical_history "high_risk" VNone)
    then risk_factors ++ [VStr "high-risk medical history"]
    else risk_factors in
  let risk_factors :=
    if truthy (dget medical_history "cardiac_history" VNone)
    then risk_factors ++ [VStr "cardiac history"]
    else risk_factors in
  let! risk_factors :=
    if truthy (dget medical_history "chronic_conditions" VNone) then
      let! conditions := subscript medical_history "chronic_conditions" in
      let! items := iterate conditions in
      Return (risk_factors ++ items)
    else Return risk_factors in
  let '(severity, recommendation) :=
    if nonempty detected_critical
    then ("critical", "immediate_emergency_care")
    else if nonempty detected_moderate && nonempty risk_factors
    then ("moderate-high", "urgent_evaluation")
    else if nonempty detected_moderate
    then ("moderate", "prompt_evaluation")
    else ("low", "routine_assessment") in
  Return [("severity", VStr severity);
          ("critical_symptoms", VList (map VStr detected_critical));
          ("moderate_symptoms", VList (map VStr detected_moderate));
          ("risk_factors", VList risk_factors);
          ("recommendation", VStr recommendation);
          ("requires_emergency_protocol",
           VBool (0 <? Z.of_nat (length detected_critical))%Z)].

(** ** [MedicalDatabase] *)

Definition check_conditions (symptoms : string) : dict :=
  if existsb (fun word => contains word (lower symptoms))
             ["chest"; "pain"; "cardiac"; "heart"]
  then [("patient_id", VStr "P001");
        ("chronic_conditions",
         VList [VStr "hypertension"; VStr "high cholesterol"]);
        ("cardiac_history", VBool true);
        ("previous_mi", VBool false);
        ("risk_factors",
         VList [VStr "age > 50"; VStr "hypertension"; VStr "family history"]);
        ("high_risk", VBool true)]
  else [("patient_id", VStr "P002");
        ("chronic_conditions", VList []);
        ("cardiac_history", VBool false);
        ("previous_mi", VBool false);
        ("risk_factors", VList []);
        ("high_risk", VBool false)].

(** [save_triage_record]; [drawn] is the number
    [random.randint(1000, 9999)] returns.  The patient id is passed through
    as it is given. *)
Definition save_triage_record (drawn : Z) (patient_id : value)
    (triage_data : dict) : dict :=
  [("status", VStr "saved");
   ("patient_id", patient_id);
   ("record_id", VStr ("TRIAGE-" +:+ pretty drawn));
   ("saved_data",
    VDict [("complaint", dget triage_data "complaint" VNone);
           ("severity", dget triage_data "severity" VNone);
           ("triage_level", dget triage_data "triage_level" VNone);
           ("red_flags", dget triage_data "red_flags" (VList []))]);
   ("message", VStr "Triage record saved to patient file")].

(** ** [VitalsMonitor] *)

Definition assess_vitals (vitals : dict) : outcome (list string) :=
  let critical_findings : list string := [] in
  let bp := dget vitals "blood_pressure" (VDict []) in
  let! bp_status := get bp "status" VNone in
  let critical_findings :=
    if eq_str bp_status "CRITICAL"
    then critical_findings ++ ["Severely elevated blood pressure"]
    else critical_findings in
  let hr := dget vitals "heart_rate" (VDict []) in
  let! hr_status := get hr "status" VNone in
  let critical_findings :=
    if eq_str hr_status "CRITICAL"
    then critical_findings ++ ["Tachycardia (elevated heart rate)"]
    else critical_findings in
  let o2 := dget vitals "oxygen_saturation" (VDict []) in
  let! o2_status := get o2 "status" VNone in
  let critical_findings :=
    if eq_str o2_status "LOW"
    then critical_findings ++ ["Low oxygen saturation"]
    else critical_findings in
  Return critical_findings.

End Tools.

(* ===================================================================== *)
(** * server.py and demo.py: the callers of the pizza guide *)
(* ===================================================================== *)

Module Server.
Import Py.


End Server.

Module Demo.
Import Py.

(** How [main] ends: by one of the three [break]s of its loop, because
    [input] has nothing left to read ([EOFError]), or by an exception of the
    guide or of a subscript. *)
Inductive ending : Type :=
| Complete
| Cancelled
| Error
| EndOfInput
| Raised (e : exn).

(** The conversation loop of [main], run on the lines [input] will return.
    Printing is left out. *)
Fixpoint conversation (g : gmap string Pizza.PizzaOrder) (session_id : string)
    (result : value) (lines : list string)
  : ending * gmap string Pizza.PizzaOrder :=
  match field "status" result with
  | None => (Raised KeyError, g)
  | Some status =>
      if Tools.eq_str status "complete" then (Complete, g)
      else if Tools.eq_str status "cancelled" then (Cancelled, g)
      else if Tools.eq_str status "error" then (Error, g)
      else
        match lines with
        | [] => (EndOfInput, g)
        | line :: lines' =>
            let user_response := strip line in
            if String.eqb user_response EmptyString
            then conversation g session_id result lines'
            else
              let r := Pizza.continue_order g session_id user_response in
              match out r with
              | Return result' =>
                  conversation (store r) session_id result' lines'
              | Raise e => (Raised e, store r)
              end
        end
  end.

(** [main], on a fresh guide; [uuid8] is the id [start_order] draws. *)
Definition main (uuid8 : string) (lines : list string)
  : ending * gmap string Pizza.PizzaOrder :=
  let '(result, g) := Pizza.start_order ∅ uuid8 in
  match field "session_id" result with
  | Some (VStr session_id) => conversation g session_id result lines
  | _ => (Raised KeyError, g)
  end.

End Demo.

(* ===================================================================== *)
(** * Notions used in the statements about the tools and the callers *)
(* ===================================================================== *)

(** Some symptom of the critical table occurs in the lower-cased
    statement. *)
Definition mentions_critical (statement : string) : bool :=
  existsb (fun symptom => Py.contains symptom (Py.lower statement))
          Tools.CRITICAL_SYMPTOMS.

(** A value [list.extend] cannot iterate over. *)
Definition unlistable (v : Py.value) : bool :=
  match v with
  | Py.VNone | Py.VBool _ | Py.VInt _ => true
  | _ => false
  end.

(** A reading of the vitals is usable when it is absent or a dict. *)
Definition reading_ok (vitals : Py.dict) (reading : string) : bool :=
  is_dict (Py.dget vitals reading (Py.VDict [])).

(** The [status] of a reading, [None] when there is none. *)
Definition reading_status (vitals : Py.dict) (reading : string) : Py.value :=
  match Py.dget vitals reading (Py.VDict []) with
  | Py.VDict d => Py.dget d "status" Py.VNone
  | _ => Py.VNone
  end.

(** One of the three readings [assess_vitals] looks at is out of range. *)
Definition flagged (vitals : Py.dict) : bool :=
  Tools.eq_str (reading_status vitals "blood_pressure") "CRITICAL"
  || Tools.eq_str (reading_status vitals "heart_rate") "CRITICAL"
  || Tools.eq_str (reading_status vitals "oxygen_saturation") "LOW".

(** An order that is still waiting for an answer. *)
Definition collecting (o : Pizza.PizzaOrder) : Prop :=
  exists r, pizza_rank (Pizza.state o) = Some r /\ r <= 4.

(** The lines [main] passes on to the guide. *)
Definition spoken (lines : list string) : list string :=
  List.filter (fun line => negb (Py.blank line)) lines.

(* ===================================================================== *)
(** * Facts about the Python primitives *)
(* ===================================================================== *)

Lemma prefix_empty (s : string) : String.prefix "" s = true.
Proof. by destruct s. Qed.




Lemma lstrip_blank (w : string) : Py.blank w = true -> Py.lstrip w = "".
Proof.
  induction w as [|c w IH]; simpl; [done|].
  intros [Hc Hw]%andb_true_iff. rewrite Hc. auto.
Qed.

Lemma strip_blank (w : string) : Py.blank w = true -> Py.strip w = "".
Proof. intros H. unfold Py.strip. by rewrite lstrip_blank. Qed.

(* ===================================================================== *)
(** * Relational reasoning about handlers *)
(* ===================================================================== *)

Section Steady.
Context {S : Type} (R : S -> S -> Prop).
Hypothesis R_refl : forall s, R s s.
Hypothesis R_trans : forall a b c, R a b -> R b c -> R a c.

Lemma steady_ret {A} (a : A) : steady R (Py.ret a).
Proof using R_refl. intros w. simpl. auto. Qed.

Lemma steady_raise {A} (e : Py.exn) : steady R (@Py.raise S A e).
Proof using R_refl. intros w. simpl. auto. Qed.

Lemma steady_lift {A} (o : Py.outcome A) : steady R (@Py.lift S A o).
Proof using R_refl. intros w. simpl. auto. Qed.

Lemma steady_self : steady R (@Py.self S).
Proof using R_refl. intros w. simpl. auto. Qed.

Lemma steady_assign (f : S -> S) :
  (forall s, R s (f s)) -> steady R (Py.assign f).
Proof. intros Hf w. simpl. auto. Qed.

Lemma steady_assign_state (set : string -> S -> S) (st : string) :
  (forall s, R s (set st s)) -> steady R (Py.assign_state set st).
Proof. intros Hf w. simpl. auto. Qed.

Lemma steady_bind {A B} (m : Py.M S A) (f : A -> Py.M S B) :
  steady R m -> (forall a, steady R (f a)) -> steady R (Py.bind m f).
Proof using R_trans.
  intros Hm Hf w. unfold Py.bind.
  destruct (Hm w) as [Hs Hr]. destruct (m w) as [[a|e] w1]; simpl in *.
  - destruct (Hf a w1) as [Hs' Hr']. split; [congruence | eauto].
  - auto.
Qed.

(** Dispatching a steady handler rebinds the key to an [R]-successor of
    the object and touches no other entry. *)
Lemma dispatch_steady (g : gmap string S) (key : string) (obj : S)
    (h : Py.M S Py.value) :
  steady R h -> g !! key = Some obj ->
  exists obj', Py.store (Py.dispatch g key obj h) = <[key := obj']> g
               /\ R obj obj'.
Proof.
  intros Hh Hg. unfold Py.dispatch.
  destruct (Hh (Py.Frame g obj [])) as [Hs Hr].
  destruct (h (Py.Frame g obj [])) as [o w]; simpl in *.
  rewrite Hs, Hg. eauto.
Qed.
End Steady.

(* ===================================================================== *)
(** * Triage: what every [continue_triage] call preserves *)
(* ===================================================================== *)

Lemma grows_refl (s : Triage.TriageSession) : grows s s.
Proof. unfold grows. repeat split; auto; lia. Qed.

Lemma grows_trans (a b c : Triage.TriageSession) :
  grows a b -> grows b c -> grows a c.
Proof.
  unfold grows. intros (?&?&?&?) (?&?&?&?).
  repeat split; [congruence | auto | lia | by etrans].
Qed.

Create HintDb steady_db.

#[local] Hint Resolve grows_refl : steady_db.
#[local] Hint Resolve steady_ret steady_raise steady_lift steady_self : steady_db.

Ltac grows_field :=
  intros ?; unfold grows; simpl; repeat split; auto;
  try lia; try (by apply prefix_app_r).

Ltac steady_step :=
  first
    [ apply steady_bind; [apply grows_trans | | intros ?]
    | apply steady_ret; apply grows_refl
    | apply steady_raise; apply grows_refl
    | apply steady_lift; apply grows_refl
    | apply steady_self; apply grows_refl
    | apply steady_assign_state; grows_field
    | apply steady_assign; grows_field ].

Ltac steady_auto :=
  repeat first [ steady_step | case_match ].

Lemma steady_add_step (step : string) (data : Py.value) :
  steady grows (Triage.add_step step data).
Proof. unfold Triage.add_step. steady_auto. Qed.

Lemma steady_triage_level_value : steady grows Triage.triage_level_value.
Proof. unfold Triage.triage_level_value. steady_auto. Qed.

Lemma steady_red_flag_screening (report : Py.dict) :
  steady grows (Triage._handle_red_flag_screening report).
Proof.
  unfold Triage._handle_red_flag_screening, Triage.add_step. steady_auto.
Qed.

Lemma steady_chief_complaint (report : Py.dict) :
  steady grows (Triage._handle_chief_complaint report).
Proof.
  unfold Triage._handle_chief_complaint, Triage.add_step. steady_auto.
Qed.

Lemma steady_medical_history (report : Py.dict) :
  steady grows (Triage._handle_medical_history report).
Proof.
  unfold Triage._handle_medical_history, Triage.add_step. steady_auto.
Qed.

Lemma steady_vital_signs (report : Py.dict) :
  steady grows (Triage._handle_vital_signs report).
Proof.
  unfold Triage._handle_vital_signs, Triage.add_step. steady_auto.
Qed.

Lemma steady_severity_assessment (report : Py.dict) :
  steady grows (Triage._handle_severity_assessment report).
Proof.
  unfold Triage._handle_severity_assessment, Triage._generate_final_message,
    Triage.triage_level_value, Triage.add_step.
  steady_auto.
Qed.

Lemma steady_save_record (report : Py.dict) :
  steady grows (Triage._handle_save_record report).
Proof.
  unfold Triage._handle_save_record, Triage.triage_level_value,
    Triage.add_step.
  steady_auto.
Qed.

(** One call: every entry that was there is still there, grown. *)
Lemma continue_triage_grows (g : gmap string Triage.TriageSession)
    (sid : string) (report : Py.dict) (k : string) (s : Triage.TriageSession) :
  g !! k = Some s ->
  exists s', Py.store (Triage.continue_triage g sid report) !! k = Some s'
             /\ grows s s'.
Proof.
  intros Hk. unfold Triage.continue_triage.
  destruct (g !! sid) as [obj|] eqn:Hsid; simpl;
    [|eauto using grows_refl].
  assert (Hd : forall h, steady grows h ->
    exists s', Py.store (Py.dispatch g sid obj h) !! k = Some s' /\ grows s s').
  { intros h Hh.
    destruct (dispatch_steady grows g sid obj h Hh Hsid) as (obj' & -> & Hr).
    destruct (decide (sid = k)) as [->|Hne].
    - rewrite lookup_insert_eq. exists obj'. split; [done|]. congruence.
    - rewrite lookup_insert_ne by done. eauto using grows_refl. }
  repeat case_match;
    eauto using grows_refl, steady_red_flag_screening, steady_chief_complaint,
      steady_medical_history, steady_vital_signs, steady_severity_assessment,
      steady_save_record.
Qed.

Lemma continue_many_grows (calls : list (string * Py.dict))
    (g : gmap string Triage.TriageSession) (k : string)
    (s : Triage.TriageSession) :
  g !! k = Some s ->
  exists s', Triage.continue_many g calls !! k = Some s' /\ grows s s'.
Proof.
  revert g s. induction calls as [|[sid report] calls IH]; intros g s Hk; simpl.
  - eauto using grows_refl.
  - destruct (continue_triage_grows g sid report k s Hk) as (s1 & H1 & Hg1).
    destruct (IH _ _ H1) as (s2 & H2 & Hg2).
    eauto using grows_trans.
Qed.

(* ===================================================================== *)
(** * Triage: the red-flag mark and the severity score *)
(* ===================================================================== *)

(** [C3] Once a triage session's [has_red_flags] mark is set, it is still
    set after any sequence of [continue_triage] calls, whatever session ids
    and reports those calls carry; the session itself is still stored. *)
Theorem C3_red_flag_mark_is_never_reset
    (calls : list (string * Py.dict))
    (g : gmap string Triage.TriageSession) (sid : string)
    (s : Triage.TriageSession) :
  g !! sid = Some s ->
  Triage.has_red_flags s = true ->
  exists s', Triage.continue_many g calls !! sid = Some s'
             /\ Triage.has_red_flags s' = true.
Proof.
  intros Hs Hflag.
  destruct (continue_many_grows calls g sid s Hs) as (s' & Hs' & _ & Hkeep & _).
  eauto.
Qed.

Lemma C3_red_flag_mark_witness :
  exists s,
    triage_escalated !! "a1b2c3d4" = Some s
    /\ Triage.has_red_flags s = true
    /\ exists s',
         Triage.continue_many triage_escalated
           [("a1b2c3d4", calm_report); ("zzzz", risky_report);
            ("a1b2c3d4", calm_report)] !! "a1b2c3d4" = Some s'
         /\ Triage.has_red_flags s' = true.
Proof.
  destruct (triage_escalated !! "a1b2c3d4") as [s|] eqn:E;
    [|vm_compute in E; discriminate].
  assert (F : Triage.has_red_flags s = true).
  { vm_compute in E. injection E as <-. reflexivity. }
  exists s. split; [reflexivity|]. split; [exact F|].
  exact (C3_red_flag_mark_is_never_reset _ triage_escalated "a1b2c3d4" s E F).
Defined.

(** [C5] Over any sequence of [continue_triage] calls the severity score of
    a stored triage session never goes down: the medical-history and
    vital-signs checkpoints only add to it and no other transition writes
    it. *)
Theorem C5_severity_score_never_decreases
    (calls : list (string * Py.dict))
    (g : gmap string Triage.TriageSession) (sid : string)
    (s : Triage.TriageSession) :
  g !! sid = Some s ->
  exists s', Triage.continue_many g calls !! sid = Some s'
             /\ (Triage.severity_score s <= Triage.severity_score s')%Z.
Proof.
  intros Hs.
  destruct (continue_many_grows calls g sid s Hs) as (s' & Hs' & _ & _ & Hle & _).
  eauto.
Qed.

Lemma C5_severity_score_witness :
  exists s,
    triage_history !! "a1b2c3d4" = Some s
    /\ exists s',
         Triage.continue_many triage_history
           [("a1b2c3d4", risky_report); ("a1b2c3d4", risky_report);
            ("a1b2c3d4", calm_report)] !! "a1b2c3d4" = Some s'
         /\ (Triage.severity_score s <= Triage.severity_score s')%Z.
Proof.
  destruct (triage_history !! "a1b2c3d4") as [s|] eqn:E;
    [|vm_compute in E; discriminate].
  exists s. split; [reflexivity|].
  exact (C5_severity_score_never_decreases _ triage_history "a1b2c3d4" s E).
Defined.

(* ===================================================================== *)
(** * Pizza: the equations of [continue_order], state by state *)
(* ===================================================================== *)

Ltac run_monad :=
  unfold Py.bind, Py.ret, Py.raise, Py.lift, Py.self, Py.assign,
    Py.assign_state, Py.del_session; simpl.

(** The order object after each accepted answer. *)
Lemma continue_order_missing (g : gmap string Pizza.PizzaOrder)
    (sid resp : string) :
  g !! sid = None ->
  Pizza.continue_order g sid resp
  = Py.Result (Py.Return (Pizza.not_found_payload sid)) g [].
Proof. intros H. unfold Pizza.continue_order. by rewrite H. Qed.

Lemma continue_order_crust (g : gmap string Pizza.PizzaOrder)
    (sid resp : string) (o : Pizza.PizzaOrder) :
  g !! sid = Some o -> Pizza.state o = "CHOOSE_CRUST" ->
  Pizza.continue_order g sid resp
  = let crust := Pizza._match_option (Py.strip resp) Pizza.CRUSTS in
    if Pizza.truthy_opt crust then
      let o' := Pizza.set_state "CHOOSE_CATEGORY" (Pizza.set_crust crust o) in
      Py.Result (Py.Return (Pizza.ask_payload o' "CHOOSE_CATEGORY" []))
                (<[sid := o']> g) ["CHOOSE_CATEGORY"]
    else Py.Result (Py.Return (Pizza.stay_payload o)) g [].
Proof.
  intros Hg Hst. unfold Pizza.continue_order. rewrite Hg, Hst. simpl.
  unfold Py.dispatch, Pizza._handle_crust_choice.
  destruct (Pizza.truthy_opt _); run_monad; rewrite Hg; [done|].
  by rewrite insert_id.
Qed.

Lemma continue_order_category (g : gmap string Pizza.PizzaOrder)
    (sid resp : string) (o : Pizza.PizzaOrder) :
  g !! sid = Some o -> Pizza.state o = "CHOOSE_CATEGORY" ->
  Pizza.continue_order g sid resp
  = let response_lower := Py.lower (Py.strip resp) in
    let advance category toppings :=
      let o' := Pizza.set_state "CHOOSE_TOPPINGS"
                  (Pizza.set_category (Some category) o) in
      Py.Result
        (Py.Return (Pizza.ask_payload o' "CHOOSE_TOPPINGS"
           [("available_toppings", Py.VList (map Py.VStr toppings))]))
        (<[sid := o']> g) ["CHOOSE_TOPPINGS"] in
    if Py.contains "veg" response_lower
    then advance "vegetarian" Pizza.VEGETARIAN_TOPPINGS
    else if Py.contains "meat" response_lower
    then advance "meat" Pizza.MEAT_TOPPINGS
    else Py.Result (Py.Return (Pizza.stay_payload o)) g [].
Proof.
  intros Hg Hst. unfold Pizza.continue_order. rewrite Hg, Hst. simpl.
  unfold Py.dispatch, Pizza._handle_category_choice.
  destruct (Py.contains "veg" _); [run_monad; by rewrite Hg|].
  destruct (Py.contains "meat" _); run_monad; rewrite Hg; [done|].
  by rewrite insert_id.
Qed.

Lemma continue_order_toppings (g : gmap string Pizza.PizzaOrder)
    (sid resp : string) (o : Pizza.PizzaOrder) :
  g !! sid = Some o -> Pizza.state o = "CHOOSE_TOPPINGS" ->
  Pizza.continue_order g sid resp
  = let available :=
      if decide (Pizza.category o = Some "vegetarian")
      then Pizza.VEGETARIAN_TOPPINGS else Pizza.MEAT_TOPPINGS in
    let selected :=
      Pizza.select_toppings available
        (Py.split "," (Py.replace " and " "," (Py.strip resp))) in
    match selected with
    | [] => Py.Result (Py.Return (Pizza.stay_payload o)) g []
    | _ =>
        let o' := Pizza.set_state "CHOOSE_SIZE"
                    (Pizza.set_toppings selected o) in
        Py.Result (Py.Return (Pizza.ask_payload o' "CHOOSE_SIZE" []))
                  (<[sid := o']> g) ["CHOOSE_SIZE"]
    end.
Proof.
  intros Hg Hst. unfold Pizza.continue_order. rewrite Hg, Hst. simpl.
  unfold Py.dispatch, Pizza._handle_toppings_choice. run_monad.
  destruct (Pizza.select_toppings _ _); run_monad; rewrite Hg; [|done].
  by rewrite insert_id.
Qed.

Lemma continue_order_size (g : gmap string Pizza.PizzaOrder)
    (sid resp : string) (o : Pizza.PizzaOrder) :
  g !! sid = Some o -> Pizza.state o = "CHOOSE_SIZE" ->
  Pizza.continue_order g sid resp
  = let size := Pizza._match_option (Py.strip resp) Pizza.SIZES in
    if Pizza.truthy_opt size then
      let o' := Pizza.set_state "CONFIRM" (Pizza.set_size size o) in
      Py.Result
        (match Pizza.category o with
         | Some _ => Py.Return (Pizza.ask_payload o' "CONFIRM" [])
         | None => Py.Raise Py.AttributeError
         end)
        (<[sid := o']> g) ["CONFIRM"]
    else Py.Result (Py.Return (Pizza.stay_payload o)) g [].
Proof.
  intros Hg Hst. unfold Pizza.continue_order. rewrite Hg, Hst. simpl.
  unfold Py.dispatch, Pizza._handle_size_choice, Pizza._generate_summary.
  destruct (Pizza.truthy_opt _); run_monad.
  - destruct (Pizza.category o); simpl; by rewrite Hg.
  - rewrite Hg. by rewrite insert_id.
Qed.

Lemma continue_order_confirm (g : gmap string Pizza.PizzaOrder)
    (sid resp : string) (o : Pizza.PizzaOrder) :
  g !! sid = Some o -> Pizza.state o = "CONFIRM" ->
  Pizza.session_id o = sid ->
  Pizza.continue_order g sid resp
  = if Pizza.affirmative (Py.lower (Py.strip resp)) then
      let o' := Pizza.set_state "COMPLETE" o in
      Py.Result
        (match Pizza.category o with
         | Some _ =>
             Py.Return
               (Py.VDict [("status", Py.VStr "complete");
                          ("session_id", Py.VStr sid);
                          ("action", Py.VStr "respond");
                          ("order", Pizza.to_dict o')])
         | None => Py.Raise Py.AttributeError
         end)
        (<[sid := o']> g) ["COMPLETE"]
    else Py.Result (Py.Return (Pizza.cancelled_payload o)) (delete sid g) [].
Proof.
  intros Hg Hst Hid. unfold Pizza.continue_order. rewrite Hg, Hst. simpl.
  unfold Py.dispatch, Pizza._handle_confirmation, Pizza._generate_summary.
  destruct (Pizza.affirmative _); run_monad.
  - destruct (Pizza.category o); simpl; rewrite Hg, ?Hid; done.
  - rewrite Hid, Hg. simpl. by rewrite lookup_delete_eq.
Qed.

Lemma continue_order_unhandled (g : gmap string Pizza.PizzaOrder)
    (sid resp : string) (o : Pizza.PizzaOrder) :
  g !! sid = Some o ->
  Pizza.state o <> "CHOOSE_CRUST" -> Pizza.state o <> "CHOOSE_CATEGORY" ->
  Pizza.state o <> "CHOOSE_TOPPINGS" -> Pizza.state o <> "CHOOSE_SIZE" ->
  Pizza.state o <> "CONFIRM" ->
  Pizza.continue_order g sid resp
  = Py.Result (Py.Return (Pizza.unknown_state_payload (Pizza.state o))) g [].
Proof.
  intros Hg H1 H2 H3 H4 H5. unfold Pizza.continue_order. rewrite Hg.
  apply String.eqb_neq in H1, H2, H3, H4, H5.
  by rewrite H1, H2, H3, H4, H5.
Qed.

(* ===================================================================== *)
(** * Triage: audit entries per call *)
(* ===================================================================== *)

Ltac run_triage :=
  unfold Py.dispatch, Triage._handle_red_flag_screening,
    Triage._handle_chief_complaint, Triage._handle_medical_history,
    Triage._handle_vital_signs, Triage._handle_severity_assessment,
    Triage._handle_save_record, Triage._generate_final_message,
    Triage.triage_level_value, Triage.add_step;
  run_monad.

(** [C2] as stated fails: a first [continue_triage] call on a fresh session
    returns its instruction after appending two audit entries, not one. *)
Lemma C2_audit_entries_counterexample :
  exists s s' payload,
    triage_started !! "a1b2c3d4" = Some s
    /\ Py.out (Triage.continue_triage triage_started "a1b2c3d4" calm_report)
       = Py.Return payload
    /\ Py.store (Triage.continue_triage triage_started "a1b2c3d4" calm_report)
         !! "a1b2c3d4" = Some s'
    /\ length (Triage.protocol_steps s')
       = length (Triage.protocol_steps s) + 2
    /\ length (Triage.protocol_steps s')
       <> length (Triage.protocol_steps s) + 1.
Proof.
  eexists _, _, _.
  split; [by vm_compute|]. split; [by vm_compute|]. split; [by vm_compute|].
  split; [reflexivity | discriminate].
Qed.

(** [C2] amended.  A [continue_triage] call that reaches a handler and returns its
    instruction has extended the session's audit trail, keeping the earlier
    entries: by two entries in RED_FLAG_SCREENING (the screening entry and
    the decision entry) and by exactly one entry in every other state. *)
Theorem C2_audit_entries_per_returned_call
    (g : gmap string Triage.TriageSession) (sid : string)
    (report : Py.dict) (s : Triage.TriageSession) (payload : Py.value) :
  g !! sid = Some s ->
  triage_handled (Triage.state s) = true ->
  Py.out (Triage.continue_triage g sid report) = Py.Return payload ->
  exists s' new,
    Py.store (Triage.continue_triage g sid report) !! sid = Some s'
    /\ Triage.protocol_steps s' = Triage.protocol_steps s ++ new
    /\ length new = steps_appended (Triage.state s).
Proof.
  intros Hs Hh. unfold triage_handled in Hh. unfold steps_appended.
  unfold Triage.continue_triage. rewrite Hs.
  repeat case_match; try discriminate; run_triage;
    repeat (case_match; simplify_eq/=);
    intros Hout; simplify_eq/=; rewrite ?Hs; simpl; rewrite lookup_insert_eq;
    eexists _, _; (split; [reflexivity|]); simpl;
    (split; [rewrite <- ?app_assoc; reflexivity | reflexivity]).
Qed.

Lemma C2_audit_entries_witness :
  exists s payload,
    triage_started !! "a1b2c3d4" = Some s
    /\ triage_handled (Triage.state s) = true
    /\ Py.out (Triage.continue_triage triage_started "a1b2c3d4" calm_report)
       = Py.Return payload
    /\ exists s' new,
         Py.store (Triage.continue_triage triage_started "a1b2c3d4" calm_report)
           !! "a1b2c3d4" = Some s'
         /\ Triage.protocol_steps s' = Triage.protocol_steps s ++ new
         /\ length new = steps_appended (Triage.state s).
Proof.
  destruct (triage_started !! "a1b2c3d4") as [s|] eqn:E;
    [|vm_compute in E; discriminate].
  destruct (Py.out (Triage.continue_triage triage_started "a1b2c3d4" calm_report))
    as [payload|e] eqn:O; [|vm_compute in O; discriminate].
  assert (Hh : triage_handled (Triage.state s) = true).
  { vm_compute in E. injection E as <-. reflexivity. }
  exists s, payload. do 3 (split; [done|]).
  exact (C2_audit_entries_per_returned_call
           triage_started "a1b2c3d4" calm_report s payload E Hh O).
Defined.

(* ===================================================================== *)
(** * Triage: assignments to [state] within one call *)
(* ===================================================================== *)

(** A call only rebinds the key it was given. *)
Lemma continue_triage_other (g : gmap string Triage.TriageSession)
    (sid : string) (report : Py.dict) (k : string) :
  sid <> k ->
  Py.store (Triage.continue_triage g sid report) !! k = g !! k.
Proof.
  intros Hne. unfold Triage.continue_triage.
  destruct (g !! sid) as [obj|] eqn:Hsid; simpl; [|done].
  assert (Hd : forall h, steady grows h ->
    Py.store (Py.dispatch g sid obj h) !! k = g !! k).
  { intros h Hh.
    destruct (dispatch_steady grows g sid obj h Hh Hsid) as (obj' & -> & _).
    by rewrite lookup_insert_ne. }
  repeat case_match;
    auto using steady_red_flag_screening, steady_chief_complaint,
      steady_medical_history, steady_vital_signs, steady_severity_assessment,
      steady_save_record.
Qed.

(** The state a session holds after a call is the last value the call
    assigned, or the old one when it assigned nothing. *)
Lemma continue_triage_last_write (g : gmap string Triage.TriageSession)
    (sid : string) (report : Py.dict) (s : Triage.TriageSession) :
  g !! sid = Some s ->
  exists s', Py.store (Triage.continue_triage g sid report) !! sid = Some s'
             /\ Triage.state s'
                = List.last (Py.writes (Triage.continue_triage g sid report))
                            (Triage.state s).
Proof.
  intros Hs. unfold Triage.continue_triage. rewrite Hs.
  repeat case_match; run_triage;
    repeat (case_match; simplify_eq/=);
    rewrite ?Hs; simpl; rewrite ?lookup_insert_eq; eauto.
Qed.

Lemma triage_escalation_writes (g : gmap string Triage.TriageSession)
    (sid : string) (report : Py.dict) (s : Triage.TriageSession) :
  g !! sid = Some s -> Triage.state s = "RED_FLAG_SCREENING" ->
  requires_emergency report = true ->
  exists s',
    Py.store (Triage.continue_triage g sid report) !! sid = Some s'
    /\ Triage.has_red_flags s' = true
    /\ Triage.state s' = "SAVE_RECORD"
    /\ Py.writes (Triage.continue_triage g sid report)
       = ["EMERGENCY_ESCALATION"; "SAVE_RECORD"].
Proof.
  intros Hs Hst Hreq. unfold requires_emergency in Hreq.
  unfold Triage.continue_triage. rewrite Hs, Hst. simpl. run_triage.
  destruct (Py.dget report "classification" (Py.VDict [])) as [| | | | |cls];
    try discriminate; simpl in *.
  rewrite Hreq.
  repeat (case_match; simplify_eq/=);
    rewrite ?Hs; simpl; rewrite ?lookup_insert_eq; eauto.
Qed.

Lemma triage_writes_bound (g : gmap string Triage.TriageSession)
    (sid : string) (report : Py.dict) :
  length (Py.writes (Triage.continue_triage g sid report)) <= 1
  \/ (Py.writes (Triage.continue_triage g sid report)
      = ["EMERGENCY_ESCALATION"; "SAVE_RECORD"]
      /\ requires_emergency report = true
      /\ exists s, g !! sid = Some s
                   /\ Triage.state s = "RED_FLAG_SCREENING").
Proof.
  unfold Triage.continue_triage, requires_emergency.
  destruct (g !! sid) as [s|] eqn:Hs; [|left; simpl; lia].
  repeat case_match; run_triage;
    repeat (case_match; simplify_eq/=);
    try (left; simpl; lia).
  all: right; split; [done|]; split; [done|];
    exists s; split; [done|]; by apply String.eqb_eq.
Qed.


Lemma pizza_writes_bound (g : gmap string Pizza.PizzaOrder)
    (sid resp : string) :
  length (Py.writes (Pizza.continue_order g sid resp)) <= 1.
Proof.
  unfold Pizza.continue_order.
  destruct (g !! sid) as [o|] eqn:Hg; [|simpl; lia].
  destruct (String.eqb (Pizza.state o) "CHOOSE_CRUST").
  { unfold Py.dispatch, Pizza._handle_crust_choice.
    destruct (Pizza.truthy_opt _); run_monad; lia. }
  destruct (String.eqb (Pizza.state o) "CHOOSE_CATEGORY").
  { unfold Py.dispatch, Pizza._handle_category_choice.
    destruct (Py.contains "veg" _); [run_monad; lia|].
    destruct (Py.contains "meat" _); run_monad; lia. }
  destruct (String.eqb (Pizza.state o) "CHOOSE_TOPPINGS").
  { unfold Py.dispatch, Pizza._handle_toppings_choice. run_monad.
    destruct (Pizza.select_toppings _ _); run_monad; lia. }
  destruct (String.eqb (Pizza.state o) "CHOOSE_SIZE").
  { unfold Py.dispatch, Pizza._handle_size_choice, Pizza._generate_summary.
    destruct (Pizza.truthy_opt _); run_monad; [|lia].
    destruct (Pizza.category o); simpl; lia. }
  destruct (String.eqb (Pizza.state o) "CONFIRM"); [|simpl; lia].
  unfold Py.dispatch, Pizza._handle_confirmation, Pizza._generate_summary.
  destruct (Pizza.affirmative _); run_monad.
  - destruct (Pizza.category o); simpl; lia.
  - destruct (g !! Pizza.session_id o); simpl; lia.
Qed.

(** [C4] as stated fails on the emergency branch of the red-flag screening:
    that one call assigns [state] twice, EMERGENCY_ESCALATION and then
    SAVE_RECORD. *)
Lemma C4_state_assigned_twice_counterexample :
  Py.writes (Triage.continue_triage triage_started "a1b2c3d4" emergency_report)
  = ["EMERGENCY_ESCALATION"; "SAVE_RECORD"]
  /\ ~ length (Py.writes (Triage.continue_triage triage_started "a1b2c3d4"
                            emergency_report)) <= 1.
Proof.
  assert (E : Py.writes (Triage.continue_triage triage_started "a1b2c3d4"
                           emergency_report)
              = ["EMERGENCY_ESCALATION"; "SAVE_RECORD"]) by (vm_compute; reflexivity).
  rewrite E. split; [reflexivity | simpl; lia].
Qed.

(** [C4] amended.  Every [continue_order] call assigns the order's [state]
    at most once.  Every [continue_triage] call assigns the session's
    [state] at most once, except a RED_FLAG_SCREENING call whose report asks
    for the emergency protocol: that call - every such call, and no other -
    assigns it exactly twice, first EMERGENCY_ESCALATION and then
    SAVE_RECORD. *)
Theorem C4_state_assignments_per_call :
  (forall (g : gmap string Pizza.PizzaOrder) (sid resp : string),
      length (Py.writes (Pizza.continue_order g sid resp)) <= 1)
  /\ (forall (g : gmap string Triage.TriageSession) (sid : string)
             (report : Py.dict),
         length (Py.writes (Triage.continue_triage g sid report)) <= 1
         \/ (Py.writes (Triage.continue_triage g sid report)
             = ["EMERGENCY_ESCALATION"; "SAVE_RECORD"]
             /\ requires_emergency report = true
             /\ exists s, g !! sid = Some s
                          /\ Triage.state s = "RED_FLAG_SCREENING"))
  /\ (forall (g : gmap string Triage.TriageSession) (sid : string)
             (report : Py.dict) (s : Triage.TriageSession),
         g !! sid = Some s ->
         Triage.state s = "RED_FLAG_SCREENING" ->
         requires_emergency report = true ->
         Py.writes (Triage.continue_triage g sid report)
         = ["EMERGENCY_ESCALATION"; "SAVE_RECORD"]
         /\ length (Py.writes (Triage.continue_triage g sid report)) = 2).
Proof.
  split; [exact pizza_writes_bound|]. split; [exact triage_writes_bound|].
  intros g sid report s Hs Hst Hreq.
  destruct (triage_escalation_writes g sid report s Hs Hst Hreq)
    as (s' & _ & _ & _ & ->).
  by split.
Qed.

Lemma C4_state_assignments_witness :
  exists s,
    triage_started !! "a1b2c3d4" = Some s
    /\ Triage.state s = "RED_FLAG_SCREENING"
    /\ requires_emergency emergency_report = true
    /\ Py.writes (Triage.continue_triage triage_started "a1b2c3d4"
                    emergency_report)
       = ["EMERGENCY_ESCALATION"; "SAVE_RECORD"].
Proof.
  assert (Hex : exists s, triage_started !! "a1b2c3d4" = Some s
                          /\ Triage.state s = "RED_FLAG_SCREENING")
    by (vm_compute; eauto).
  destruct Hex as (s & E & Hst).
  assert (Hreq : requires_emergency emergency_report = true)
    by (vm_compute; reflexivity).
  exists s. split; [exact E|]. split; [exact Hst|]. split; [exact Hreq|].
  exact (proj1 (proj2 (proj2 C4_state_assignments_per_call)
                  triage_started "a1b2c3d4" emergency_report s E Hst Hreq)).
Defined.

(* ===================================================================== *)
(** * Triage: the escalation scenario *)
(* ===================================================================== *)

Lemma requires_emergency_intro (report cls : Py.dict) (v : Py.value) :
  Py.assoc "classification" report = Some (Py.VDict cls) ->
  Py.assoc "requires_emergency_protocol" cls = Some v ->
  Py.truthy v = true ->
  requires_emergency report = true.
Proof.
  intros Hc Hv Ht. unfold requires_emergency, Py.dget. rewrite Hc. simpl.
  unfold Py.dget. by rewrite Hv.
Qed.

(** The flag is read from the report's [classification], not from the top
    level of the report. *)
Example requires_emergency_top_level_key_ignored :
  requires_emergency [("requires_emergency_protocol", Py.VBool true)] = false.
Proof. reflexivity. Qed.

Lemma continue_triage_after_escalation (g : gmap string Triage.TriageSession)
    (sid : string) (report : Py.dict) (k : string) (s : Triage.TriageSession) :
  g !! k = Some s -> after_escalation (Triage.state s) ->
  exists s', Py.store (Triage.continue_triage g sid report) !! k = Some s'
             /\ after_escalation (Triage.state s').
Proof.
  intros Hs Hst. destruct (decide (sid = k)) as [->|Hne].
  - unfold Triage.continue_triage. rewrite Hs.
    destruct Hst as [Hst|Hst]; rewrite Hst; simpl.
    + run_triage. repeat (case_match; simplify_eq/=);
        rewrite ?Hs; simpl; rewrite ?lookup_insert_eq;
        (eexists; split; [reflexivity|]); by right.
    + exists s. split; [done|]. by right.
  - rewrite continue_triage_other by done. eauto.
Qed.

Lemma continue_many_after_escalation (calls : list (string * Py.dict))
    (g : gmap string Triage.TriageSession) (k : string)
    (s : Triage.TriageSession) :
  g !! k = Some s -> after_escalation (Triage.state s) ->
  exists s', Triage.continue_many g calls !! k = Some s'
             /\ after_escalation (Triage.state s').
Proof.
  revert g s. induction calls as [|[sid report] calls IH]; intros g s Hs Hst.
  - simpl. eauto.
  - simpl.
    destruct (continue_triage_after_escalation g sid report k s Hs Hst)
      as (s1 & Hs1 & Hst1).
    eauto.
Qed.

Lemma after_escalation_skips (st : string) :
  after_escalation st ->
  st <> "CHIEF_COMPLAINT" /\ st <> "MEDICAL_HISTORY" /\ st <> "VITAL_SIGNS".
Proof. intros [->| ->]; repeat split; discriminate. Qed.

(** [C7] [start_triage] stores a session in RED_FLAG_SCREENING with the
    red-flag mark unset.  A following [continue_triage] whose report's
    classification asks for the emergency protocol sets the mark, walks the
    state through EMERGENCY_ESCALATION to SAVE_RECORD in that one call, and
    from then on, whatever calls follow, the session is in SAVE_RECORD or
    COMPLETE with the mark set: it never enters CHIEF_COMPLAINT,
    MEDICAL_HISTORY or VITAL_SIGNS. *)
Theorem C7_emergency_report_forces_escalation
    (g : gmap string Triage.TriageSession) (uuid8 : string)
    (report : Py.dict) :
  requires_emergency report = true ->
  let started := (Triage.start_triage g uuid8).2 in
  let r := Triage.continue_triage started uuid8 report in
  (exists s0, started !! uuid8 = Some s0
              /\ Triage.state s0 = "RED_FLAG_SCREENING"
              /\ Triage.has_red_flags s0 = false)
  /\ (exists s1, Py.store r !! uuid8 = Some s1
                 /\ Triage.has_red_flags s1 = true
                 /\ Triage.state s1 = "SAVE_RECORD")
  /\ Py.writes r = ["EMERGENCY_ESCALATION"; "SAVE_RECORD"]
  /\ forall calls,
       exists s2, Triage.continue_many (Py.store r) calls !! uuid8 = Some s2
                  /\ Triage.has_red_flags s2 = true
                  /\ after_escalation (Triage.state s2)
                  /\ Triage.state s2 <> "CHIEF_COMPLAINT"
                  /\ Triage.state s2 <> "MEDICAL_HISTORY"
                  /\ Triage.state s2 <> "VITAL_SIGNS".
Proof.
  intros Hreq started r.
  assert (Hs0 : started !! uuid8
                = Some (Triage.append_step "triage_started"
                          (Py.VDict [("session_id", Py.VStr uuid8)])
                          (Triage.new_session uuid8 "RED_FLAG_SCREENING"))).
  { unfold started, Triage.start_triage. simpl. apply lookup_insert_eq. }
  destruct (triage_escalation_writes started uuid8 report _ Hs0 eq_refl Hreq)
    as (s1 & Hs1 & Hflag & Hst & Hw).
  split; [eexists; split; [exact Hs0|]; by split|].
  split; [by exists s1|]. split; [exact Hw|].
  intros calls.
  destruct (continue_many_grows calls (Py.store r) uuid8 s1 Hs1)
    as (s2 & Hs2 & _ & Hkeep & _).
  destruct (continue_many_after_escalation calls (Py.store r) uuid8 s1 Hs1)
    as (s2' & Hs2' & Hafter); [by left|].
  assert (s2' = s2) as -> by congruence.
  exists s2. split; [done|]. split; [auto|]. split; [done|].
  by apply after_escalation_skips.
Qed.

Lemma C7_emergency_report_witness :
  requires_emergency emergency_report = true
  /\ exists s2,
       Triage.continue_many
         (Py.store (Triage.continue_triage
                      (Triage.start_triage ∅ "a1b2c3d4").2
                      "a1b2c3d4" emergency_report))
         [("a1b2c3d4", calm_report); ("a1b2c3d4", risky_report)]
         !! "a1b2c3d4" = Some s2
       /\ Triage.has_red_flags s2 = true
       /\ after_escalation (Triage.state s2).
Proof.
  split; [reflexivity|].
  destruct (C7_emergency_report_forces_escalation ∅ "a1b2c3d4"
              emergency_report eq_refl) as (_ & _ & _ & Hall).
  destruct (Hall [("a1b2c3d4", calm_report); ("a1b2c3d4", risky_report)])
    as (s2 & H1 & H2 & H3 & _).
  exists s2. auto.
Defined.

(* ===================================================================== *)
(** * Terminal sessions *)
(* ===================================================================== *)

Lemma failure_of_unknown_state (st : string) :
  failure_of (Pizza.unknown_state_payload st) = Some UnknownState.
Proof. unfold failure_of. simpl. by rewrite prefix_empty. Qed.

Lemma continue_order_complete (g : gmap string Pizza.PizzaOrder)
    (sid resp : string) (o : Pizza.PizzaOrder) :
  g !! sid = Some o -> Pizza.state o = "COMPLETE" ->
  Pizza.continue_order g sid resp
  = Py.Result (Py.Return (Pizza.unknown_state_payload "COMPLETE")) g [].
Proof.
  intros Hg Hst.
  rewrite (continue_order_unhandled g sid resp o Hg); rewrite Hst; done.
Qed.

Lemma continue_triage_complete (g : gmap string Triage.TriageSession)
    (sid : string) (report : Py.dict) (s : Triage.TriageSession) :
  g !! sid = Some s -> Triage.state s = "COMPLETE" ->
  Triage.continue_triage g sid report
  = Py.Result (Py.Return (Triage.unknown_state_payload "COMPLETE")) g [].
Proof. intros Hg Hst. unfold Triage.continue_triage. by rewrite Hg, Hst. Qed.

(** [C1] as stated fails: a completed pizza order that is continued gets
    the dispatcher's fall-through payload, an [UnknownState] failure and not
    a [SessionTerminated] one. *)
Lemma C1_terminal_continue_counterexample :
  Pizza.state <$> pizza_completed !! "a1b2c3d4" = Some "COMPLETE"
  /\ exists payload,
       Py.out (Pizza.continue_order pizza_completed "a1b2c3d4" "extra cheese")
       = Py.Return payload
       /\ failure_of payload = Some UnknownState
       /\ failure_of payload <> Some SessionTerminated.
Proof.
  split; [by vm_compute|].
  eexists. split; [by vm_compute|]. split; [by vm_compute|].
  vm_compute. discriminate.
Qed.

(** [C1] amended.  A [continue_order] or [continue_triage] call on a session
    whose state is COMPLETE (for triage, after the normal path or after the
    escalation path) returns the error payload of the fall-through branch,
    with message "Unknown state: COMPLETE", assigns nothing and leaves the
    dictionary of sessions as it was; that payload is the [UnknownState]
    failure. *)
Theorem C1_terminal_continue_is_unknown_state :
  (forall (g : gmap string Pizza.PizzaOrder) (sid resp : string)
          (o : Pizza.PizzaOrder),
      g !! sid = Some o -> Pizza.state o = "COMPLETE" ->
      Pizza.continue_order g sid resp
      = Py.Result (Py.Return (Pizza.unknown_state_payload "COMPLETE")) g [])
  /\ (forall (g : gmap string Triage.TriageSession) (sid : string)
             (report : Py.dict) (s : Triage.TriageSession),
         g !! sid = Some s -> Triage.state s = "COMPLETE" ->
         Triage.continue_triage g sid report
         = Py.Result (Py.Return (Triage.unknown_state_payload "COMPLETE")) g [])
  /\ failure_of (Pizza.unknown_state_payload "COMPLETE") = Some UnknownState
  /\ failure_of (Triage.unknown_state_payload "COMPLETE") = Some UnknownState.
Proof.
  split; [exact continue_order_complete|].
  split; [exact continue_triage_complete|].
  split; reflexivity.
Qed.

Lemma C1_terminal_continue_witness :
  (exists o, pizza_completed !! "a1b2c3d4" = Some o
             /\ Pizza.state o = "COMPLETE"
             /\ Pizza.continue_order pizza_completed "a1b2c3d4" "extra cheese"
                = Py.Result
                    (Py.Return (Pizza.unknown_state_payload "COMPLETE"))
                    pizza_completed [])
  /\ (exists s, triage_completed !! "a1b2c3d4" = Some s
                /\ Triage.state s = "COMPLETE"
                /\ Triage.continue_triage triage_completed "a1b2c3d4"
                     calm_report
                   = Py.Result
                       (Py.Return (Triage.unknown_state_payload "COMPLETE"))
                       triage_completed []).
Proof.
  split.
  - destruct (pizza_completed !! "a1b2c3d4") as [o|] eqn:E;
      [|vm_compute in E; discriminate].
    assert (Hst : Pizza.state o = "COMPLETE").
    { vm_compute in E. injection E as <-. reflexivity. }
    exists o. split; [reflexivity|]. split; [exact Hst|].
    exact (proj1 C1_terminal_continue_is_unknown_state
             pizza_completed "a1b2c3d4" "extra cheese" o E Hst).
  - destruct (triage_completed !! "a1b2c3d4") as [s|] eqn:E;
      [|vm_compute in E; discriminate].
    assert (Hst : Triage.state s = "COMPLETE").
    { vm_compute in E. injection E as <-. reflexivity. }
    exists s. split; [reflexivity|]. split; [exact Hst|].
    exact (proj1 (proj2 C1_terminal_continue_is_unknown_state)
             triage_completed "a1b2c3d4" calm_report s E Hst).
Defined.

(* ===================================================================== *)
(** * Pizza: answers that do not resolve *)
(* ===================================================================== *)

Lemma stay_payload_fields (o : Pizza.PizzaOrder) :
  Py.field "stay_in_state" (Pizza.stay_payload o) = Some (Py.VBool true)
  /\ Py.field "status" (Pizza.stay_payload o) = Some (Py.VStr "in_progress").
Proof. split; reflexivity. Qed.

(** [C6] In each collection state of the pizza workflow (CHOOSE_CRUST,
    CHOOSE_CATEGORY, CHOOSE_TOPPINGS, CHOOSE_SIZE), an answer that does not
    resolve against what the state asks for makes [continue_order] return a
    payload that carries [stay_in_state = True] under the status
    [in_progress]; the call assigns no [state] and the dictionary of
    sessions, the order included, is exactly what it was. *)
Theorem C6_unresolved_answer_stays_in_state
    (g : gmap string Pizza.PizzaOrder) (sid resp : string)
    (o : Pizza.PizzaOrder) :
  g !! sid = Some o ->
  pizza_collection_state (Pizza.state o) = true ->
  pizza_input_resolves o (Py.strip resp) = false ->
  exists payload,
    Py.out (Pizza.continue_order g sid resp) = Py.Return payload
    /\ Py.field "stay_in_state" payload = Some (Py.VBool true)
    /\ Py.field "status" payload = Some (Py.VStr "in_progress")
    /\ Py.field "status" payload <> Some (Py.VStr "error")
    /\ Py.store (Pizza.continue_order g sid resp) = g
    /\ Py.writes (Pizza.continue_order g sid resp) = [].
Proof.
  intros Hg Hc Hv. unfold pizza_collection_state in Hc.
  unfold pizza_input_resolves in Hv.
  exists (Pizza.stay_payload o).
  destruct (String.eqb_spec (Pizza.state o) "CHOOSE_CRUST") as [E1|_].
  { rewrite (continue_order_crust g sid resp o Hg E1). cbv zeta. rewrite Hv.
    simpl. repeat split; discriminate. }
  destruct (String.eqb_spec (Pizza.state o) "CHOOSE_CATEGORY") as [E2|_].
  { rewrite (continue_order_category g sid resp o Hg E2). cbv zeta.
    apply orb_false_iff in Hv as [-> ->]. simpl. repeat split; discriminate. }
  destruct (String.eqb_spec (Pizza.state o) "CHOOSE_TOPPINGS") as [E3|_].
  { rewrite (continue_order_toppings g sid resp o Hg E3). cbv zeta.
    destruct (Pizza.select_toppings _ _); [|discriminate].
    simpl. repeat split; discriminate. }
  destruct (String.eqb_spec (Pizza.state o) "CHOOSE_SIZE") as [E4|_];
    [|discriminate].
  rewrite (continue_order_size g sid resp o Hg E4). cbv zeta. rewrite Hv.
  simpl. repeat split; discriminate.
Qed.

Lemma C6_unresolved_answer_witness :
  exists o,
    pizza_thin !! "a1b2c3d4" = Some o
    /\ pizza_collection_state (Pizza.state o) = true
    /\ pizza_input_resolves o (Py.strip "  xyz ") = false
    /\ exists payload,
         Py.out (Pizza.continue_order pizza_thin "a1b2c3d4" "  xyz ")
         = Py.Return payload
         /\ Py.field "stay_in_state" payload = Some (Py.VBool true)
         /\ Py.store (Pizza.continue_order pizza_thin "a1b2c3d4" "  xyz ")
            = pizza_thin.
Proof.
  destruct (pizza_thin !! "a1b2c3d4") as [o|] eqn:E;
    [|vm_compute in E; discriminate].
  assert (Hc : pizza_collection_state (Pizza.state o) = true).
  { vm_compute in E. injection E as <-. reflexivity. }
  assert (Hv : pizza_input_resolves o (Py.strip "  xyz ") = false).
  { vm_compute in E. injection E as <-. reflexivity. }
  exists o. do 3 (split; [done|]).
  destruct (C6_unresolved_answer_stays_in_state
              pizza_thin "a1b2c3d4" "  xyz " o E Hc Hv)
    as (payload & H1 & H2 & _ & _ & H3 & _).
  exists payload. auto.
Defined.

(* ===================================================================== *)
(** * Pizza: the ordering scenario *)
(* ===================================================================== *)

Example thin_matches :
  Pizza._match_option (Py.strip "thin") Pizza.CRUSTS = Some "Thin".
Proof. reflexivity. Qed.

Example xyz_is_no_category :
  Py.contains "veg" (Py.lower (Py.strip "xyz")) = false
  /\ Py.contains "meat" (Py.lower (Py.strip "xyz")) = false.
Proof. split; reflexivity. Qed.

Lemma pizza_scenario (g : gmap string Pizza.PizzaOrder) (uuid8 : string) :
  let g1 := (Pizza.start_order g uuid8).2 in
  let r2 := Pizza.continue_order g1 uuid8 "thin" in
  let r3 := Pizza.continue_order (Py.store r2) uuid8 "xyz" in
  g1 !! uuid8 = Some (Pizza.new_order uuid8 "CHOOSE_CRUST")
  /\ Py.store r2 !! uuid8 = Some (thin_order uuid8)
  /\ Pizza.state (thin_order uuid8) = "CHOOSE_CATEGORY"
  /\ Py.out r3 = Py.Return (Pizza.stay_payload (thin_order uuid8))
  /\ Py.store r3 = Py.store r2
  /\ Py.writes r3 = [].
Proof.
  intros g1 r2 r3.
  assert (H1 : g1 !! uuid8 = Some (Pizza.new_order uuid8 "CHOOSE_CRUST")).
  { unfold g1, Pizza.start_order. simpl. apply lookup_insert_eq. }
  assert (H2 : Py.store r2 !! uuid8 = Some (thin_order uuid8)).
  { unfold r2. rewrite (continue_order_crust g1 uuid8 "thin" _ H1 eq_refl).
    cbv zeta. rewrite thin_matches. simpl. apply lookup_insert_eq. }
  split; [exact H1|]. split; [exact H2|]. split; [reflexivity|].
  unfold r3.
  rewrite (continue_order_category (Py.store r2) uuid8 "xyz" _ H2 eq_refl).
  cbv zeta. destruct xyz_is_no_category as [-> ->]. simpl. auto.
Qed.

(** [C8] as stated fails on its audit-trail clause: the "xyz" call leaves
    the order exactly as it was, so nothing that can be read off the order
    grows by one. *)
Lemma C8_audit_length_counterexample :
  ~ exists (trail_length : Pizza.PizzaOrder -> nat) o2 o3,
      pizza_thin !! "a1b2c3d4" = Some o2
      /\ Py.store (Pizza.continue_order pizza_thin "a1b2c3d4" "xyz")
           !! "a1b2c3d4" = Some o3
      /\ trail_length o3 = trail_length o2 + 1.
Proof.
  intros (f & o2 & o3 & H2 & H3 & Hf).
  destruct (pizza_scenario ∅ "a1b2c3d4") as (_ & _ & _ & _ & Hsame & _).
  change (Py.store (Pizza.continue_order pizza_thin "a1b2c3d4" "xyz")
          = pizza_thin) in Hsame.
  rewrite Hsame, H2 in H3. injection H3 as <-. lia.
Qed.

(** [C8] amended.  [start_order] stores an order in CHOOSE_CRUST; continuing
    it with "thin" moves it to CHOOSE_CATEGORY; continuing it then with
    "xyz" returns the stay-in-state payload, assigns nothing and leaves the
    dictionary of sessions unchanged, so the same order is still stored, in
    CHOOSE_CATEGORY (an order has no audit trail to extend). *)
Theorem C8_pizza_scenario
    (g : gmap string Pizza.PizzaOrder) (uuid8 : string) :
  let g1 := (Pizza.start_order g uuid8).2 in
  let r2 := Pizza.continue_order g1 uuid8 "thin" in
  let r3 := Pizza.continue_order (Py.store r2) uuid8 "xyz" in
  (Pizza.state <$> g1 !! uuid8) = Some "CHOOSE_CRUST"
  /\ (Pizza.state <$> Py.store r2 !! uuid8) = Some "CHOOSE_CATEGORY"
  /\ (exists payload,
        Py.out r3 = Py.Return payload
        /\ Py.field "stay_in_state" payload = Some (Py.VBool true))
  /\ (Pizza.state <$> Py.store r3 !! uuid8) = Some "CHOOSE_CATEGORY"
  /\ Py.store r3 = Py.store r2
  /\ Py.writes r3 = [].
Proof.
  intros g1 r2 r3.
  destruct (pizza_scenario g uuid8) as (H1 & H2 & H3 & H4 & H5 & H6).
  subst g1 r2 r3.
  split; [by rewrite H1|]. split; [by rewrite H2|].
  split; [eexists; split; [exact H4 | reflexivity]|].
  split; [by rewrite H5, H2|]. auto.
Qed.

(* ===================================================================== *)
(** * Pizza: blank answers *)
(* ===================================================================== *)





Example first_options :
  head Pizza.CRUSTS = Some "Thin"
  /\ take 1 Pizza.VEGETARIAN_TOPPINGS = ["Mushrooms"]
  /\ take 1 Pizza.MEAT_TOPPINGS = ["Pepperoni"]
  /\ head Pizza.SIZES = Some ("Small (10" +:+ Pizza.inch +:+ ")").
Proof. repeat split. Qed.



(* ===================================================================== *)
(** * Pizza: declining at the confirmation *)
(* ===================================================================== *)

Lemma contains_append_r (needle a b : string) :
  Py.contains needle b = true -> Py.contains needle (a +:+ b) = true.
Proof.
  intros Hb. induction a as [|c a IH]; [exact Hb|].
  change (String c a +:+ b) with (String c (a +:+ b)).
  cbn [Py.contains]. rewrite IH. apply orb_true_r.
Qed.

Lemma failure_of_not_found (sid : string) :
  failure_of (Pizza.not_found_payload sid) = Some SessionNotFound.
Proof.
  unfold failure_of, Pizza.not_found_payload.
  set (msg := "Session " +:+ sid +:+ " not found. Please start a new order.").
  cbn [Py.field Py.assoc].
  change (String.eqb "status" "status") with true.
  change (String.eqb "message" "status") with false.
  change (String.eqb "message" "message") with true.
  change (String.eqb "error" "error") with true.
  cbv iota.
  assert (H1 : String.prefix "Unknown state: " msg = false) by reflexivity.
  assert (H2 : String.prefix "Session " msg = true).
  { unfold msg. simpl. apply prefix_empty. }
  assert (H3 : Py.contains " not found" msg = true).
  { unfold msg. do 2 apply contains_append_r. reflexivity. }
  by rewrite H1, H2, H3.
Qed.

(** [C10] For an order in CONFIRM that is stored under its own id, an answer
    that, lower-cased, contains none of "yes", "confirm" and "looks good"
    makes [continue_order] return the payload with status [cancelled] and
    delete the order from the dictionary of sessions; every later
    [continue_order] with that id gets the session-not-found error. *)
Theorem C10_non_affirmative_answer_deletes_order
    (g : gmap string Pizza.PizzaOrder) (sid resp : string)
    (o : Pizza.PizzaOrder) :
  g !! sid = Some o ->
  Pizza.session_id o = sid ->
  Pizza.state o = "CONFIRM" ->
  Pizza.affirmative (Py.lower (Py.strip resp)) = false ->
  let r := Pizza.continue_order g sid resp in
  Py.out r = Py.Return (Pizza.cancelled_payload o)
  /\ Py.field "status" (Pizza.cancelled_payload o) = Some (Py.VStr "cancelled")
  /\ Py.store r = delete sid g
  /\ Py.store r !! sid = None
  /\ forall resp',
       Pizza.continue_order (Py.store r) sid resp'
       = Py.Result (Py.Return (Pizza.not_found_payload sid)) (Py.store r) []
       /\ failure_of (Pizza.not_found_payload sid) = Some SessionNotFound.
Proof.
  intros Hg Hid Hst Hno r. unfold r.
  rewrite (continue_order_confirm g sid resp o Hg Hst Hid), Hno. simpl.
  split; [done|]. split; [done|]. split; [done|].
  split; [apply lookup_delete_eq|].
  intros resp'. split.
  - apply continue_order_missing, lookup_delete_eq.
  - apply failure_of_not_found.
Qed.

Lemma C10_non_affirmative_answer_witness :
  exists o,
    pizza_confirming !! "a1b2c3d4" = Some o
    /\ Pizza.session_id o = "a1b2c3d4"
    /\ Pizza.state o = "CONFIRM"
    /\ Pizza.affirmative (Py.lower (Py.strip "No, make it a medium")) = false
    /\ Py.store (Pizza.continue_order pizza_confirming "a1b2c3d4"
                   "No, make it a medium") !! "a1b2c3d4" = None.
Proof.
  destruct (pizza_confirming !! "a1b2c3d4") as [o|] eqn:E;
    [|vm_compute in E; discriminate].
  assert (Hid : Pizza.session_id o = "a1b2c3d4").
  { vm_compute in E. injection E as <-. reflexivity. }
  assert (Hst : Pizza.state o = "CONFIRM").
  { vm_compute in E. injection E as <-. reflexivity. }
  exists o. do 4 (split; [done|]).
  exact (proj1 (proj2 (proj2 (proj2
           (C10_non_affirmative_answer_deletes_order
              pizza_confirming "a1b2c3d4" "No, make it a medium" o
              E Hid Hst eq_refl))))).
Defined.

(* ===================================================================== *)
(** * Pizza: orders are stored under their own id *)
(* ===================================================================== *)

Lemma well_keyed_empty : well_keyed ∅.
Proof. intros k o H. by rewrite lookup_empty in H. Qed.

Lemma well_keyed_insert (g : gmap string Pizza.PizzaOrder) (sid : string)
    (o : Pizza.PizzaOrder) :
  well_keyed g -> Pizza.session_id o = sid -> well_keyed (<[sid := o]> g).
Proof.
  intros Hg Hid k o' H. destruct (decide (sid = k)) as [->|Hne].
  - rewrite lookup_insert_eq in H. congruence.
  - rewrite lookup_insert_ne in H by done. eauto.
Qed.

Lemma well_keyed_delete (g : gmap string Pizza.PizzaOrder) (sid : string) :
  well_keyed g -> well_keyed (delete sid g).
Proof.
  intros Hg k o H. destruct (decide (sid = k)) as [->|Hne].
  - by rewrite lookup_delete_eq in H.
  - rewrite lookup_delete_ne in H by done. eauto.
Qed.

Lemma start_order_well_keyed (g : gmap string Pizza.PizzaOrder)
    (uuid8 : string) :
  well_keyed g -> well_keyed (Pizza.start_order g uuid8).2.
Proof. intros Hg. by apply well_keyed_insert. Qed.

Lemma continue_order_well_keyed (g : gmap string Pizza.PizzaOrder)
    (sid resp : string) :
  well_keyed g -> well_keyed (Py.store (Pizza.continue_order g sid resp)).
Proof.
  intros Hwk. destruct (g !! sid) as [o|] eqn:Hg;
    [|by rewrite continue_order_missing].
  pose proof (Hwk _ _ Hg) as Hid.
  destruct (String.eqb_spec (Pizza.state o) "CHOOSE_CRUST") as [E1|N1].
  { rewrite (continue_order_crust g sid resp o Hg E1). cbv zeta.
    destruct (Pizza.truthy_opt _); [|done]. by apply well_keyed_insert. }
  destruct (String.eqb_spec (Pizza.state o) "CHOOSE_CATEGORY") as [E2|N2].
  { rewrite (continue_order_category g sid resp o Hg E2). cbv zeta.
    destruct (Py.contains "veg" _); [by apply well_keyed_insert|].
    destruct (Py.contains "meat" _); [|done]. by apply well_keyed_insert. }
  destruct (String.eqb_spec (Pizza.state o) "CHOOSE_TOPPINGS") as [E3|N3].
  { rewrite (continue_order_toppings g sid resp o Hg E3). cbv zeta.
    destruct (Pizza.select_toppings _ _); [done|]. by apply well_keyed_insert. }
  destruct (String.eqb_spec (Pizza.state o) "CHOOSE_SIZE") as [E4|N4].
  { rewrite (continue_order_size g sid resp o Hg E4). cbv zeta.
    destruct (Pizza.truthy_opt _); [|done]. by apply well_keyed_insert. }
  destruct (String.eqb_spec (Pizza.state o) "CONFIRM") as [E5|N5].
  { rewrite (continue_order_confirm g sid resp o Hg E5 Hid).
    destruct (Pizza.affirmative _).
    - by apply well_keyed_insert.
    - by apply well_keyed_delete. }
  by rewrite (continue_order_unhandled g sid resp o Hg).
Qed.

(* ===================================================================== *)
(** * Pizza: what the matcher returns *)
(* ===================================================================== *)

Lemma match_option_elem (u o : string) (options : list string) :
  Pizza._match_option u options = Some o -> In o options.
Proof. unfold Pizza._match_option. intros H. by apply find_some in H as [? _]. Qed.

Lemma truthy_opt_some (x : option string) :
  Pizza.truthy_opt x = true -> exists c, x = Some c.
Proof. destruct x; [eauto | discriminate]. Qed.

Lemma select_toppings_elem (available parts : list string) (t : string) :
  In t (Pizza.select_toppings available parts) -> In t available.
Proof.
  unfold Pizza.select_toppings. rewrite in_flat_map.
  intros (part & _ & Ht).
  destruct (Pizza._match_option (Py.strip part) available) as [t'|] eqn:E;
    [|by destruct Ht].
  destruct (Pizza.truthy_opt (Some t')); [|by destruct Ht].
  destruct Ht as [<-|[]]. by apply match_option_elem in E.
Qed.

(* ===================================================================== *)
(** * Pizza: one call, seen from any stored order *)
(* ===================================================================== *)

Lemma filled_rank (o : Pizza.PizzaOrder) (r : nat) :
  filled o -> pizza_rank (Pizza.state o) = Some r ->
  (1 <= r -> exists c, Pizza.crust o = Some c /\ In c Pizza.CRUSTS)
  /\ (2 <= r -> Pizza.category o = Some "vegetarian"
                \/ Pizza.category o = Some "meat")
  /\ (3 <= r -> Pizza.toppings o <> []
                /\ forall t, In t (Pizza.toppings o) ->
                             In t (toppings_of (Pizza.category o)))
  /\ (4 <= r -> exists z, Pizza.size o = Some z /\ In z Pizza.SIZES).
Proof. intros (r' & Hr' & H) Hr. assert (r' = r) as -> by congruence. exact H. Qed.

(** What a [continue_order] call can do to the dictionary of sessions: leave
    it as it is, rebind the addressed order to its successor, or delete the
    addressed order when it was waiting for the confirmation. *)
Lemma continue_order_shape (g : gmap string Pizza.PizzaOrder)
    (sid resp : string) :
  well_keyed g ->
  Py.store (Pizza.continue_order g sid resp) = g
  \/ (exists o o', g !! sid = Some o
                   /\ Py.store (Pizza.continue_order g sid resp)
                      = <[sid := o']> g
                   /\ advances o o')
  \/ (exists o, g !! sid = Some o /\ Pizza.state o = "CONFIRM"
                /\ Py.store (Pizza.continue_order g sid resp) = delete sid g).
Proof.
  intros Hwk. destruct (g !! sid) as [o|] eqn:Hg;
    [|left; by rewrite continue_order_missing].
  pose proof (Hwk _ _ Hg) as Hid.
  destruct (String.eqb_spec (Pizza.state o) "CHOOSE_CRUST") as [E1|N1].
  { rewrite (continue_order_crust g sid resp o Hg E1). cbv zeta.
    destruct (Pizza.truthy_opt _) eqn:Ht; [|by left].
    right; left. eexists o, _. split; [done|]. split; [reflexivity|].
    split; [done|]. split; [exists 0; by rewrite E1|].
    apply truthy_opt_some in Ht as (c & Hc). rewrite Hc.
    apply match_option_elem in Hc.
    intros _. exists 1. split; [done|]. simpl.
    repeat split; intros; try lia. eauto. }
  destruct (String.eqb_spec (Pizza.state o) "CHOOSE_CATEGORY") as [E2|N2].
  { rewrite (continue_order_category g sid resp o Hg E2). cbv zeta.
    destruct (Py.contains "veg" _).
    { right; left. eexists o, _. split; [done|]. split; [reflexivity|].
      split; [done|]. split; [exists 1; by rewrite E2|].
      intros Hf. pose proof (filled_rank o 1 Hf) as (F1 & _);
        [by rewrite E2|].
      exists 2. split; [done|]. simpl. repeat split; intros; try lia; auto. }
    destruct (Py.contains "meat" _); [|by left].
    right; left. eexists o, _. split; [done|]. split; [reflexivity|].
    split; [done|]. split; [exists 1; by rewrite E2|].
    intros Hf. pose proof (filled_rank o 1 Hf) as (F1 & _);
      [by rewrite E2|].
    exists 2. split; [done|]. simpl. repeat split; intros; try lia; auto. }
  destruct (String.eqb_spec (Pizza.state o) "CHOOSE_TOPPINGS") as [E3|N3].
  { rewrite (continue_order_toppings g sid resp o Hg E3). cbv zeta.
    destruct (Pizza.select_toppings _ _) as [|t ts] eqn:Hsel; [by left|].
    right; left. eexists o, _. split; [done|]. split; [reflexivity|].
    split; [done|]. split; [exists 2; by rewrite E3|].
    intros Hf. pose proof (filled_rank o 2 Hf) as (F1 & F2 & _);
      [by rewrite E3|].
    exists 3. split; [done|]. simpl. repeat split; intros; try lia; auto.
    unfold toppings_of. eapply select_toppings_elem. by rewrite Hsel. }
  destruct (String.eqb_spec (Pizza.state o) "CHOOSE_SIZE") as [E4|N4].
  { rewrite (continue_order_size g sid resp o Hg E4). cbv zeta.
    destruct (Pizza.truthy_opt _) eqn:Ht; [|by left].
    right; left. eexists o, _. split; [done|]. split; [reflexivity|].
    split; [done|]. split; [exists 3; by rewrite E4|].
    apply truthy_opt_some in Ht as (z & Hz). rewrite Hz.
    apply match_option_elem in Hz.
    intros Hf. pose proof (filled_rank o 3 Hf) as (F1 & F2 & F3 & _);
      [by rewrite E4|].
    destruct F3 as [F3a F3b]; [lia|].
    exists 4. split; [done|]. simpl. repeat split; intros; try lia; eauto. }
  destruct (String.eqb_spec (Pizza.state o) "CONFIRM") as [E5|N5].
  { rewrite (continue_order_confirm g sid resp o Hg E5 Hid).
    destruct (Pizza.affirmative _).
    - right; left. eexists o, _. split; [done|]. split; [reflexivity|].
      split; [done|]. split; [exists 4; by rewrite E5|].
      intros Hf. pose proof (filled_rank o 4 Hf) as (F1 & F2 & F3 & F4);
        [by rewrite E5|].
      destruct F3 as [F3a F3b]; [lia|].
      exists 5. split; [done|]. simpl. repeat split; intros; auto.
    - right; right. by exists o. }
  left. by rewrite (continue_order_unhandled g sid resp o Hg).
Qed.

(* ===================================================================== *)
(** * Pizza: orders reachable from an empty guide *)
(* ===================================================================== *)

Lemma pizza_rank_states (st : string) (r : nat) :
  pizza_rank st = Some r -> In st pizza_states.
Proof.
  unfold pizza_rank, pizza_states.
  repeat match goal with
         | |- context [String.eqb st ?x] =>
             destruct (String.eqb_spec st x) as [->|_];
             [intros _; simpl; auto 10|]
         end.
  discriminate.
Qed.

Lemma new_order_filled (uuid8 : string) :
  filled (Pizza.new_order uuid8 "CHOOSE_CRUST").
Proof. exists 0. split; [done|]. repeat split; intros; lia. Qed.

Lemma pizza_store_ok_empty : pizza_store_ok ∅.
Proof.
  split; [apply well_keyed_empty|]. intros k o H. by rewrite lookup_empty in H.
Qed.

Lemma pizza_call_store_ok (g : gmap string Pizza.PizzaOrder) (c : pizza_call) :
  pizza_store_ok g -> pizza_store_ok (pizza_call_store g c).
Proof.
  intros [Hwk Hf]. destruct c as [uuid8|sid resp|sid]; simpl.
  - split; [by apply start_order_well_keyed|].
    intros k o. destruct (decide (uuid8 = k)) as [->|Hne].
    + rewrite lookup_insert_eq. intros [= <-]. apply new_order_filled.
    + rewrite lookup_insert_ne by done. apply Hf.
  - split; [by apply continue_order_well_keyed|].
    destruct (continue_order_shape g sid resp Hwk)
      as [-> | [(o & o' & Ho & -> & _ & _ & Hadv) | (o & Ho & _ & ->)]].
    + exact Hf.
    + intros k o1. destruct (decide (sid = k)) as [->|Hne].
      * rewrite lookup_insert_eq. intros [= <-]. apply Hadv. by eapply Hf.
      * rewrite lookup_insert_ne by done. apply Hf.
    + intros k o1. destruct (decide (sid = k)) as [->|Hne].
      * by rewrite lookup_delete_eq.
      * rewrite lookup_delete_ne by done. apply Hf.
  - unfold Pizza.cancel_order. destruct (g !! sid); simpl; [|done].
    split; [by apply well_keyed_delete|].
    intros k o1. destruct (decide (sid = k)) as [->|Hne].
    + by rewrite lookup_delete_eq.
    + rewrite lookup_delete_ne by done. apply Hf.
Qed.

Lemma pizza_calls_ok (cs : list pizza_call) (g : gmap string Pizza.PizzaOrder) :
  pizza_store_ok g -> pizza_store_ok (pizza_calls g cs).
Proof.
  revert g. induction cs as [|c cs IH]; intros g Hg; [done|].
  simpl. by apply IH, pizza_call_store_ok.
Qed.

(** [X1] Whatever sequence of [start_order], [continue_order] and
    [cancel_order] calls is made on an empty guide, every order it holds is
    stored under its own [session_id], is in one of the six states of the
    chain (never in the dataclass default START), and every field collected
    before its state holds a value of the menu: the crust is one of CRUSTS,
    the category is "vegetarian" or "meat", the toppings are a non-empty
    selection from the toppings of that category, the size is one of
    SIZES. *)
Theorem X1_reachable_orders_are_filled
    (cs : list pizza_call) (k : string) (o : Pizza.PizzaOrder) :
  pizza_calls ∅ cs !! k = Some o ->
  Pizza.session_id o = k
  /\ In (Pizza.state o) pizza_states
  /\ filled o.
Proof.
  intros Ho.
  destruct (pizza_calls_ok cs ∅ pizza_store_ok_empty) as [Hwk Hf].
  pose proof (Hf k o Ho) as Hfo.
  split; [by apply Hwk|]. split; [|done].
  destruct Hfo as (r & Hr & _). by eapply pizza_rank_states.
Qed.

Lemma continue_order_returns (g : gmap string Pizza.PizzaOrder)
    (sid resp : string) :
  pizza_store_ok g ->
  exists payload, Py.out (Pizza.continue_order g sid resp) = Py.Return payload.
Proof.
  intros [Hwk Hf]. destruct (g !! sid) as [o|] eqn:Hg;
    [|rewrite continue_order_missing by done; eauto].
  pose proof (Hwk _ _ Hg) as Hid. pose proof (Hf _ _ Hg) as Hfo.
  destruct (String.eqb_spec (Pizza.state o) "CHOOSE_CRUST") as [E1|N1].
  { rewrite (continue_order_crust g sid resp o Hg E1). cbv zeta.
    destruct (Pizza.truthy_opt _); simpl; eauto. }
  destruct (String.eqb_spec (Pizza.state o) "CHOOSE_CATEGORY") as [E2|N2].
  { rewrite (continue_order_category g sid resp o Hg E2). cbv zeta.
    destruct (Py.contains "veg" _); [simpl; eauto|].
    destruct (Py.contains "meat" _); simpl; eauto. }
  destruct (String.eqb_spec (Pizza.state o) "CHOOSE_TOPPINGS") as [E3|N3].
  { rewrite (continue_order_toppings g sid resp o Hg E3). cbv zeta.
    destruct (Pizza.select_toppings _ _); simpl; eauto. }
  destruct (String.eqb_spec (Pizza.state o) "CHOOSE_SIZE") as [E4|N4].
  { rewrite (continue_order_size g sid resp o Hg E4). cbv zeta.
    pose proof (filled_rank o 3 Hfo) as (_ & F2 & _); [by rewrite E4|].
    destruct (Pizza.truthy_opt _); simpl; [|eauto].
    destruct F2 as [-> | ->]; [lia | eauto | eauto]. }
  destruct (String.eqb_spec (Pizza.state o) "CONFIRM") as [E5|N5].
  { rewrite (continue_order_confirm g sid resp o Hg E5 Hid).
    pose proof (filled_rank o 4 Hfo) as (_ & F2 & _); [by rewrite E5|].
    destruct (Pizza.affirmative _); simpl; [|eauto].
    destruct F2 as [-> | ->]; [lia | eauto | eauto]. }
  rewrite (continue_order_unhandled g sid resp o Hg) by done. simpl. eauto.
Qed.

(** [X2] On a guide reached from the empty one by any sequence of calls,
    [continue_order] never raises, for any session id and any answer: the
    [AttributeError] of [_generate_summary] on a missing category and the
    [KeyError] of the deletion in [_handle_confirmation] cannot occur. *)
Theorem X2_continue_order_never_raises
    (cs : list pizza_call) (sid resp : string) :
  exists payload,
    Py.out (Pizza.continue_order (pizza_calls ∅ cs) sid resp)
    = Py.Return payload.
Proof.
  apply continue_order_returns, pizza_calls_ok, pizza_store_ok_empty.
Qed.

Lemma X1_reachable_orders_witness :
  exists o,
    pizza_busy !! "a1b2c3d4" = Some o
    /\ Pizza.session_id o = "a1b2c3d4"
    /\ In (Pizza.state o) pizza_states
    /\ filled o.
Proof.
  destruct (pizza_busy !! "a1b2c3d4") as [o|] eqn:E;
    [|vm_compute in E; discriminate].
  exists o. split; [reflexivity|].
  exact (X1_reachable_orders_are_filled _ "a1b2c3d4" o E).
Defined.

(* ===================================================================== *)
(** * Pizza: one step at a time, one session at a time *)
(* ===================================================================== *)

(** [X3] On a guide whose orders are stored under their own ids, one
    [continue_order] call leaves every stored order exactly as it was,
    except possibly the one it addresses: that one is either moved one
    state forward along the chain, keeping its id, or - only from CONFIRM -
    removed.  No call moves an order backwards or by more than one state,
    and no call touches another session. *)
Theorem X3_continue_order_moves_one_order_one_step
    (g : gmap string Pizza.PizzaOrder) (sid resp k : string)
    (o : Pizza.PizzaOrder) :
  well_keyed g ->
  g !! k = Some o ->
  let g' := Py.store (Pizza.continue_order g sid resp) in
  g' !! k = Some o
  \/ (k = sid
      /\ exists o' r,
           g' !! k = Some o'
           /\ Pizza.session_id o' = Pizza.session_id o
           /\ pizza_rank (Pizza.state o) = Some r
           /\ pizza_rank (Pizza.state o') = Some (S r))
  \/ (k = sid /\ Pizza.state o = "CONFIRM" /\ g' !! k = None).
Proof.
  intros Hwk Hk g'. subst g'.
  destruct (continue_order_shape g sid resp Hwk)
    as [-> | [(o0 & o' & Ho & -> & Hid & (r & Hr & Hr') & _)
             | (o0 & Ho & Hst & ->)]].
  - by left.
  - destruct (decide (sid = k)) as [->|Hne].
    + right; left. split; [done|]. assert (o0 = o) as -> by congruence.
      exists o', r. by rewrite lookup_insert_eq.
    + left. by rewrite lookup_insert_ne.
  - destruct (decide (sid = k)) as [->|Hne].
    + right; right. assert (o0 = o) as -> by congruence.
      by rewrite lookup_delete_eq.
    + left. by rewrite lookup_delete_ne.
Qed.

Lemma X3_continue_order_one_step_witness :
  exists o,
    well_keyed pizza_busy
    /\ pizza_busy !! "a1b2c3d4" = Some o
    /\ (Py.store (Pizza.continue_order pizza_busy "a1b2c3d4" "ham and bacon")
          !! "a1b2c3d4" = Some o
        \/ ("a1b2c3d4" = "a1b2c3d4"
            /\ exists o' r,
                 Py.store (Pizza.continue_order pizza_busy "a1b2c3d4"
                             "ham and bacon") !! "a1b2c3d4" = Some o'
                 /\ Pizza.session_id o' = Pizza.session_id o
                 /\ pizza_rank (Pizza.state o) = Some r
                 /\ pizza_rank (Pizza.state o') = Some (S r))
        \/ ("a1b2c3d4" = "a1b2c3d4" /\ Pizza.state o = "CONFIRM"
            /\ Py.store (Pizza.continue_order pizza_busy "a1b2c3d4"
                           "ham and bacon") !! "a1b2c3d4" = None)).
Proof.
  destruct (pizza_busy !! "a1b2c3d4") as [o|] eqn:E;
    [|vm_compute in E; discriminate].
  assert (Hwk : well_keyed pizza_busy).
  { apply (pizza_calls_ok _ ∅ pizza_store_ok_empty). }
  exists o. split; [exact Hwk|]. split; [reflexivity|].
  exact (X3_continue_order_moves_one_order_one_step
           pizza_busy "a1b2c3d4" "ham and bacon" "a1b2c3d4" o Hwk E).
Defined.

(* ===================================================================== *)
(** * Pizza: retries *)
(* ===================================================================== *)

Lemma unresolved_answer_keeps_store (g : gmap string Pizza.PizzaOrder)
    (sid resp : string) (o : Pizza.PizzaOrder) :
  g !! sid = Some o ->
  pizza_collection_state (Pizza.state o) = true ->
  pizza_input_resolves o (Py.strip resp) = false ->
  Pizza.continue_order g sid resp
  = Py.Result (Py.Return (Pizza.stay_payload o)) g [].
Proof.
  intros Hg Hc Hv. unfold pizza_collection_state in Hc.
  unfold pizza_input_resolves in Hv.
  destruct (String.eqb_spec (Pizza.state o) "CHOOSE_CRUST") as [E1|_].
  { rewrite (continue_order_crust g sid resp o Hg E1). cbv zeta.
    by rewrite Hv. }
  destruct (String.eqb_spec (Pizza.state o) "CHOOSE_CATEGORY") as [E2|_].
  { rewrite (continue_order_category g sid resp o Hg E2). cbv zeta.
    by apply orb_false_iff in Hv as [-> ->]. }
  destruct (String.eqb_spec (Pizza.state o) "CHOOSE_TOPPINGS") as [E3|_].
  { rewrite (continue_order_toppings g sid resp o Hg E3). cbv zeta.
    by destruct (Pizza.select_toppings _ _). }
  destruct (String.eqb_spec (Pizza.state o) "CHOOSE_SIZE") as [E4|_];
    [|discriminate].
  rewrite (continue_order_size g sid resp o Hg E4). cbv zeta. by rewrite Hv.
Qed.

(** [X4] Retries are unlimited and leave no trace: after any number of
    answers that do not resolve in the order's collection state, given one
    after the other, the dictionary of sessions is exactly what it was, and
    each of these answers gets the stay-in-state payload. *)
Theorem X4_unresolved_answers_leave_no_trace
    (g : gmap string Pizza.PizzaOrder) (sid : string)
    (o : Pizza.PizzaOrder) (answers : list string) :
  g !! sid = Some o ->
  pizza_collection_state (Pizza.state o) = true ->
  Forall (fun a => pizza_input_resolves o (Py.strip a) = false) answers ->
  continue_order_all g sid answers = g
  /\ Forall (fun a => Pizza.continue_order g sid a
                      = Py.Result (Py.Return (Pizza.stay_payload o)) g [])
            answers.
Proof.
  intros Hg Hc Hall. induction Hall as [|a answers Ha _ [IH1 IH2]].
  - by split.
  - pose proof (unresolved_answer_keeps_store g sid a o Hg Hc Ha) as Hstay.
    split.
    + simpl. by rewrite Hstay.
    + by constructor.
Qed.

Lemma X4_unresolved_answers_witness :
  exists o,
    pizza_started !! "a1b2c3d4" = Some o
    /\ pizza_collection_state (Pizza.state o) = true
    /\ Forall (fun a => pizza_input_resolves o (Py.strip a) = false)
              ["deep dish"; "??"; "  sourdough "]
    /\ continue_order_all pizza_started "a1b2c3d4"
         ["deep dish"; "??"; "  sourdough "] = pizza_started.
Proof.
  destruct (pizza_started !! "a1b2c3d4") as [o|] eqn:E;
    [|vm_compute in E; discriminate].
  assert (Hc : pizza_collection_state (Pizza.state o) = true).
  { vm_compute in E. injection E as <-. reflexivity. }
  assert (Hall : Forall (fun a => pizza_input_resolves o (Py.strip a) = false)
                   ["deep dish"; "??"; "  sourdough "]).
  { vm_compute in E. injection E as <-. repeat constructor. }
  exists o. do 3 (split; [done|]).
  exact (proj1 (X4_unresolved_answers_leave_no_trace
                  pizza_started "a1b2c3d4" o _ E Hc Hall)).
Defined.

(* ===================================================================== *)
(** * Pizza: a whole order *)
(* ===================================================================== *)

Lemma chosen_category_cases (response_lower cat : string) :
  chosen_category response_lower = Some cat ->
  (Py.contains "veg" response_lower = true /\ cat = "vegetarian")
  \/ (Py.contains "veg" response_lower = false
      /\ Py.contains "meat" response_lower = true /\ cat = "meat").
Proof.
  unfold chosen_category.
  destruct (Py.contains "veg" _); [intros [= <-]; by left|].
  destruct (Py.contains "meat" _); [intros [= <-]; by right|discriminate].
Qed.

(** [X5] Five answers that each resolve - a crust, a category, at least one
    topping of that category, a size, an affirmative confirmation - take a
    freshly started order to COMPLETE in five [continue_order] calls.  The
    last call returns the payload with status [complete]; the order it
    carries is the stored order, made of exactly the values the matcher
    read off the four answers, and is what [get_order] returns
    afterwards. *)
Theorem X5_five_resolving_answers_complete_the_order
    (g : gmap string Pizza.PizzaOrder) (uuid8 a1 a2 a3 a4 a5 cat : string) :
  Pizza.truthy_opt (Pizza._match_option (Py.strip a1) Pizza.CRUSTS) = true ->
  chosen_category (Py.lower (Py.strip a2)) = Some cat ->
  chosen_toppings (Some cat) (Py.strip a3) <> [] ->
  Pizza.truthy_opt (Pizza._match_option (Py.strip a4) Pizza.SIZES) = true ->
  Pizza.affirmative (Py.lower (Py.strip a5)) = true ->
  let g1 := (Pizza.start_order g uuid8).2 in
  let g5 := continue_order_all g1 uuid8 [a1; a2; a3; a4] in
  let r := Pizza.continue_order g5 uuid8 a5 in
  let final :=
    Pizza.mkOrder uuid8 "COMPLETE"
      (Pizza._match_option (Py.strip a1) Pizza.CRUSTS) (Some cat)
      (chosen_toppings (Some cat) (Py.strip a3))
      (Pizza._match_option (Py.strip a4) Pizza.SIZES) in
  Py.out r
  = Py.Return (Py.VDict [("status", Py.VStr "complete");
                         ("session_id", Py.VStr uuid8);
                         ("action", Py.VStr "respond");
                         ("order", Pizza.to_dict final)])
  /\ Py.store r !! uuid8 = Some final
  /\ Pizza.get_order (Py.store r) uuid8 = Some (Pizza.to_dict final)
  /\ Py.writes r = ["COMPLETE"].
Proof.
  intros H1 H2 H3 H4 H5 g1 g5 r final.
  set (o0 := Pizza.new_order uuid8 "CHOOSE_CRUST").
  assert (L0 : g1 !! uuid8 = Some o0) by apply lookup_insert_eq.
  set (o1 := Pizza.set_state "CHOOSE_CATEGORY"
               (Pizza.set_crust
                  (Pizza._match_option (Py.strip a1) Pizza.CRUSTS) o0)).
  assert (S1 : Py.store (Pizza.continue_order g1 uuid8 a1) = <[uuid8 := o1]> g1).
  { rewrite (continue_order_crust g1 uuid8 a1 o0 L0 eq_refl). cbv zeta.
    by rewrite H1. }
  set (g2 := <[uuid8 := o1]> g1) in *.
  assert (L1 : g2 !! uuid8 = Some o1) by apply lookup_insert_eq.
  set (o2 := Pizza.set_state "CHOOSE_TOPPINGS"
               (Pizza.set_category (Some cat) o1)).
  assert (S2 : Py.store (Pizza.continue_order g2 uuid8 a2) = <[uuid8 := o2]> g2).
  { rewrite (continue_order_category g2 uuid8 a2 o1 L1 eq_refl). cbv zeta.
    destruct (chosen_category_cases _ _ H2) as [[-> ->] | (-> & -> & ->)];
      done. }
  set (g3 := <[uuid8 := o2]> g2) in *.
  assert (L2 : g3 !! uuid8 = Some o2) by apply lookup_insert_eq.
  set (ts := chosen_toppings (Some cat) (Py.strip a3)) in *.
  set (o3 := Pizza.set_state "CHOOSE_SIZE" (Pizza.set_toppings ts o2)).
  assert (S3 : Py.store (Pizza.continue_order g3 uuid8 a3) = <[uuid8 := o3]> g3).
  { rewrite (continue_order_toppings g3 uuid8 a3 o2 L2 eq_refl). cbv zeta.
    change (Pizza.select_toppings _ _) with ts.
    destruct ts; [done|reflexivity]. }
  set (g4 := <[uuid8 := o3]> g3) in *.
  assert (L3 : g4 !! uuid8 = Some o3) by apply lookup_insert_eq.
  set (o4 := Pizza.set_state "CONFIRM"
               (Pizza.set_size
                  (Pizza._match_option (Py.strip a4) Pizza.SIZES) o3)).
  assert (S4 : Py.store (Pizza.continue_order g4 uuid8 a4) = <[uuid8 := o4]> g4).
  { rewrite (continue_order_size g4 uuid8 a4 o3 L3 eq_refl). cbv zeta.
    by rewrite H4. }
  assert (G5 : g5 = <[uuid8 := o4]> g4).
  { unfold g5. simpl. by rewrite S1, S2, S3, S4. }
  assert (L4 : g5 !! uuid8 = Some o4) by (rewrite G5; apply lookup_insert_eq).
  unfold r.
  rewrite (continue_order_confirm g5 uuid8 a5 o4 L4 eq_refl eq_refl), H5.
  simpl. split; [done|].
  assert (L5 : <[uuid8 := Pizza.set_state "COMPLETE" o4]> g5 !! uuid8
               = Some final) by apply lookup_insert_eq.
  split; [exact L5|]. split; [|done].
  unfold Pizza.get_order. by rewrite L5.
Qed.

Lemma X5_five_resolving_answers_witness :
  Pizza.truthy_opt (Pizza._match_option (Py.strip " Gluten-Free ") Pizza.CRUSTS)
  = true
  /\ chosen_category (Py.lower (Py.strip "Vegetarian, please"))
     = Some "vegetarian"
  /\ chosen_toppings (Some "vegetarian") (Py.strip "olives and spinach, tofu")
     <> []
  /\ Pizza.truthy_opt (Pizza._match_option (Py.strip "medium") Pizza.SIZES)
     = true
  /\ Pizza.affirmative (Py.lower (Py.strip "Looks good!")) = true
  /\ Pizza.get_order
       (Py.store
          (Pizza.continue_order
             (continue_order_all (Pizza.start_order ∅ "a1b2c3d4").2 "a1b2c3d4"
                [" Gluten-Free "; "Vegetarian, please";
                 "olives and spinach, tofu"; "medium"])
             "a1b2c3d4" "Looks good!"))
       "a1b2c3d4"
     = Some (Pizza.to_dict
               (Pizza.mkOrder "a1b2c3d4" "COMPLETE" (Some "Gluten-free")
                  (Some "vegetarian") ["Olives"; "Spinach"]
                  (Some ("Medium (12" +:+ Pizza.inch +:+ ")")))).
Proof.
  assert (H1 : Pizza.truthy_opt
                 (Pizza._match_option (Py.strip " Gluten-Free ") Pizza.CRUSTS)
               = true) by reflexivity.
  assert (H2 : chosen_category (Py.lower (Py.strip "Vegetarian, please"))
               = Some "vegetarian") by reflexivity.
  assert (H3 : chosen_toppings (Some "vegetarian")
                 (Py.strip "olives and spinach, tofu") <> []) by discriminate.
  assert (H4 : Pizza.truthy_opt
                 (Pizza._match_option (Py.strip "medium") Pizza.SIZES) = true)
    by reflexivity.
  assert (H5 : Pizza.affirmative (Py.lower (Py.strip "Looks good!")) = true)
    by reflexivity.
  do 5 (split; [done|]).
  exact (proj1 (proj2 (proj2
           (X5_five_resolving_answers_complete_the_order
              ∅ "a1b2c3d4" " Gluten-Free " "Vegetarian, please"
              "olives and spinach, tofu" "medium" "Looks good!" "vegetarian"
              H1 H2 H3 H4 H5)))).
Defined.

(* ===================================================================== *)
(** * Pizza: cancelling *)
(* ===================================================================== *)

(** [X6] [cancel_order] on a stored order, whatever its state (COMPLETE
    included), answers [cancelled] and removes exactly that entry.  From
    then on the id is unknown: [continue_order] answers with the
    session-not-found error, [get_order] returns [None], and a second
    [cancel_order] answers with status [error] and changes nothing. *)
Theorem X6_cancel_order_forgets_the_session
    (g : gmap string Pizza.PizzaOrder) (sid : string) (o : Pizza.PizzaOrder) :
  g !! sid = Some o ->
  let g' := (Pizza.cancel_order g sid).2 in
  Py.field "status" (Pizza.cancel_order g sid).1 = Some (Py.VStr "cancelled")
  /\ g' = delete sid g
  /\ (forall k, k <> sid -> g' !! k = g !! k)
  /\ (forall resp,
        Pizza.continue_order g' sid resp
        = Py.Result (Py.Return (Pizza.not_found_payload sid)) g' [])
  /\ Pizza.get_order g' sid = None
  /\ Py.field "status" (Pizza.cancel_order g' sid).1 = Some (Py.VStr "error")
  /\ (Pizza.cancel_order g' sid).2 = g'.
Proof.
  intros Hg g'.
  assert (Hc : Pizza.cancel_order g sid
               = (Py.VDict [("status", Py.VStr "cancelled");
                            ("message", Py.VStr "Order cancelled successfully.")],
                  delete sid g)).
  { unfold Pizza.cancel_order. by rewrite Hg. }
  subst g'. rewrite Hc. simpl.
  assert (Hgone : delete sid g !! sid = None) by apply lookup_delete_eq.
  split; [done|]. split; [done|].
  split; [intros k Hk; by rewrite lookup_delete_ne|].
  split; [intros resp; by apply continue_order_missing|].
  split; [unfold Pizza.get_order; by rewrite Hgone|].
  unfold Pizza.cancel_order. by rewrite Hgone.
Qed.

Lemma X6_cancel_order_witness :
  exists o,
    pizza_completed !! "a1b2c3d4" = Some o
    /\ (Pizza.cancel_order pizza_completed "a1b2c3d4").2
       = delete "a1b2c3d4" pizza_completed
    /\ Pizza.get_order (Pizza.cancel_order pizza_completed "a1b2c3d4").2
         "a1b2c3d4" = None.
Proof.
  destruct (pizza_completed !! "a1b2c3d4") as [o|] eqn:E;
    [|vm_compute in E; discriminate].
  exists o. split; [reflexivity|].
  destruct (X6_cancel_order_forgets_the_session pizza_completed "a1b2c3d4" o E)
    as (_ & H2 & _ & _ & H5 & _).
  by split.
Defined.

(* ===================================================================== *)
(** * Pizza: selecting an option by its name *)
(* ===================================================================== *)

(** [X7] On each of the four menus, an answer that is the name of an option
    - in any letter case and with any white space around it - selects
    exactly that option: no option of a menu is shadowed by an earlier
    one. *)
Theorem X7_option_name_selects_that_option
    (menu : list string) (o input : string) :
  In menu menus ->
  In o menu ->
  Py.strip (Py.lower input) = Py.lower o ->
  Pizza._match_option input menu = Some o.
Proof.
  intros Hm Ho Hin. unfold Pizza._match_option. rewrite Hin. clear Hin.
  unfold menus in Hm. simpl in Hm.
  destruct Hm as [<-|[<-|[<-|[<-|[]]]]]; simpl in Ho;
    repeat (destruct Ho as [<-|Ho]; [by vm_compute|]); destruct Ho.
Qed.

Lemma X7_option_name_witness :
  In Pizza.MEAT_TOPPINGS menus
  /\ In "Ground Beef" Pizza.MEAT_TOPPINGS
  /\ Py.strip (Py.lower "  GROUND beef ") = Py.lower "Ground Beef"
  /\ Pizza._match_option "  GROUND beef " Pizza.MEAT_TOPPINGS
     = Some "Ground Beef".
Proof.
  assert (H1 : In Pizza.MEAT_TOPPINGS menus) by (simpl; tauto).
  assert (H2 : In "Ground Beef" Pizza.MEAT_TOPPINGS) by (simpl; tauto).
  assert (H3 : Py.strip (Py.lower "  GROUND beef ") = Py.lower "Ground Beef")
    by reflexivity.
  do 3 (split; [done|]).
  exact (X7_option_name_selects_that_option
           Pizza.MEAT_TOPPINGS "Ground Beef" "  GROUND beef " H1 H2 H3).
Defined.

(* ===================================================================== *)
(** * Triage: phases *)
(* ===================================================================== *)

Lemma len_truthy (v : Py.value) (n : Z) :
  Py.len v = Py.Return n -> Py.truthy v = (0 <? n)%Z.
Proof.
  destruct v as [| | |s|l|d]; try discriminate; intros [= <-]; simpl.
  - by destruct s.
  - by destruct l.
  - by destruct d.
Qed.

Lemma new_session_in_phase (uuid8 : string) :
  in_phase Screening
    (Triage.append_step "triage_started"
       (Py.VDict [("session_id", Py.VStr uuid8)])
       (Triage.new_session uuid8 "RED_FLAG_SCREENING")).
Proof. by repeat split. Qed.

Ltac phase_goal :=
  repeat split; simpl;
  try (unfold step_names in *; simpl;
       rewrite ?map_app; simpl;
       match goal with H : map _ _ = _ |- _ => rewrite H end;
       reflexivity);
  try done; try lia.

(** One [continue_triage] call takes the addressed session from a phase to
    a phase. *)
Lemma continue_triage_phase (g : gmap string Triage.TriageSession)
    (sid : string) (report : Py.dict) (s : Triage.TriageSession) (p : phase) :
  g !! sid = Some s -> in_phase p s ->
  exists s' p',
    Py.store (Triage.continue_triage g sid report) !! sid = Some s'
    /\ Triage.session_id s' = Triage.session_id s
    /\ in_phase p' s'.
Proof.
  intros Hs (Hst & Htr & Hfl & Hf).
  unfold Triage.continue_triage. rewrite Hs, Hst.
  destruct p; simpl in Hf |- *.
  - (* Screening *)
    destruct Hf as (F1 & F2 & F3). run_triage.
    repeat (case_match; simplify_eq/=); rewrite ?Hs; simpl;
      rewrite ?lookup_insert_eq;
      (eexists _, _; split; [reflexivity|]; split; [reflexivity|]);
      first [ by (instantiate (1 := Screening); phase_goal)
            | by (instantiate (1 := Complaint); phase_goal)
            | by (instantiate (1 := Saving); phase_goal) ].
  - (* Complaint *)
    destruct Hf as (F0 & F1 & F2 & F3). run_triage. rewrite Hs. simpl.
    rewrite lookup_insert_eq.
    eexists _, History. split; [reflexivity|]. split; [reflexivity|].
    phase_goal.
  - (* History *)
    destruct Hf as (F0 & F1 & F2 & F3). run_triage.
    destruct (Py.truthy _); simpl; rewrite Hs; simpl; rewrite lookup_insert_eq;
      (eexists _, Vitals; split; [reflexivity|]; split; [reflexivity|]);
      phase_goal.
  - (* Vitals *)
    destruct Hf as (F0 & F1 & F2 & F3). run_triage.
    destruct (Py.len _) as [n|e] eqn:Hlen; simpl.
    + rewrite (len_truthy _ _ Hlen).
      destruct (0 <? n)%Z; simpl; rewrite Hs; simpl; rewrite lookup_insert_eq;
        (eexists _, Assessment; split; [reflexivity|]; split; [reflexivity|]);
        phase_goal; unfold score_consistent; simpl;
        destruct F1 as [F1|F1]; rewrite F1;
        first [left; split; [done|lia] | right; split; [done|lia]].
    + rewrite Hs. simpl. rewrite lookup_insert_eq.
      eexists _, Vitals. split; [reflexivity|]. split; [reflexivity|].
      phase_goal.
  - (* Assessment *)
    destruct Hf as (F0 & F1 & F3). run_triage.
    assert (Hsc : forall s', Triage.severity_score s' = Triage.severity_score s ->
                             Triage.vitals_critical s' = Triage.vitals_critical s ->
                             score_consistent s').
    { intros s' E1 E2. unfold score_consistent. by rewrite E1, E2. }
    unfold assessed_level.
    repeat (case_match; simplify_eq/=); rewrite ?Hs; simpl;
      rewrite ?lookup_insert_eq;
      (eexists _, Done_normal; split; [reflexivity|]; split; [reflexivity|]);
      phase_goal;
      try (by apply Hsc);
      unfold assessed_level;
      repeat match goal with H : ?b = _ |- context [?b] => rewrite H end;
      done.
  - (* Saving *)
    destruct Hf as (F0 & F3). run_triage. rewrite F3. simpl. rewrite Hs. simpl.
    rewrite lookup_insert_eq.
    eexists _, Done_escalated. split; [reflexivity|]. split; [reflexivity|].
    phase_goal.
  - (* Done_normal *)
    exists s, Done_normal. split; [done|]. split; [done|]. by split.
  - (* Done_escalated *)
    exists s, Done_escalated. split; [done|]. split; [done|]. by split.
Qed.

Lemma triage_store_ok_empty : triage_store_ok ∅.
Proof. intros k s H. by rewrite lookup_empty in H. Qed.

Lemma triage_call_store_ok (g : gmap string Triage.TriageSession)
    (c : triage_call) :
  triage_store_ok g -> triage_store_ok (triage_call_store g c).
Proof.
  intros Hg. destruct c as [uuid8|sid report|sid]; simpl; intros k s.
  - destruct (decide (uuid8 = k)) as [->|Hne].
    + rewrite lookup_insert_eq. intros [= <-]. split; [done|].
      exists Screening. apply new_session_in_phase.
    + rewrite lookup_insert_ne by done. apply Hg.
  - destruct (decide (sid = k)) as [->|Hne].
    + destruct (g !! k) as [s0|] eqn:Hk.
      * destruct (Hg k s0 Hk) as (Hid & p & Hp).
        destruct (continue_triage_phase g k report s0 p Hk Hp)
          as (s' & p' & Hs' & Hid' & Hp').
        rewrite Hs'. intros [= <-]. split; [congruence|eauto].
      * unfold Triage.continue_triage. rewrite Hk. simpl. by rewrite Hk.
    + rewrite continue_triage_other by done. apply Hg.
  - unfold Triage.cancel_session. destruct (g !! sid); simpl; [|apply Hg].
    destruct (decide (sid = k)) as [->|Hne].
    + by rewrite lookup_delete_eq.
    + rewrite lookup_delete_ne by done. apply Hg.
Qed.

Lemma triage_calls_ok (cs : list triage_call)
    (g : gmap string Triage.TriageSession) :
  triage_store_ok g -> triage_store_ok (triage_calls g cs).
Proof.
  revert g. induction cs as [|c cs IH]; intros g Hg; [done|].
  simpl. by apply IH, triage_call_store_ok.
Qed.

(** [X8] Whatever sequence of [start_triage], [continue_triage] and
    [cancel_session] calls is made on an empty guide, the audit trail of
    every stored session is exactly the one of its phase: the step names it
    records, in order, are determined by the session's state and red-flag
    mark.  In particular a session that is COMPLETE without red flags has
    gone through screening, chief complaint, medical history, vital signs
    and assessment, each logged once and in that order, and an escalated
    one records the screening, the escalation and (once COMPLETE) the saved
    record. *)
Theorem X8_audit_trail_follows_the_protocol
    (cs : list triage_call) (k : string) (s : Triage.TriageSession) :
  triage_calls ∅ cs !! k = Some s ->
  exists p, Triage.state s = phase_state p
            /\ Triage.has_red_flags s = phase_escalated p
            /\ step_names s = map (fun n => Some (Py.VStr n)) (phase_trail p).
Proof.
  intros Hs.
  destruct (triage_calls_ok cs ∅ triage_store_ok_empty k s Hs)
    as (_ & p & H1 & H2 & H3 & _).
  by exists p.
Qed.

Lemma X8_audit_trail_witness :
  exists s,
    triage_calls ∅ busy_calls !! "a1b2c3d4" = Some s
    /\ exists p, Triage.state s = phase_state p
                 /\ Triage.has_red_flags s = phase_escalated p
                 /\ step_names s
                    = map (fun n => Some (Py.VStr n)) (phase_trail p).
Proof.
  assert (Hex : exists s, triage_calls ∅ busy_calls !! "a1b2c3d4" = Some s)
    by (vm_compute; eauto).
  destruct Hex as [s E].
  exists s. split; [exact E|].
  exact (X8_audit_trail_follows_the_protocol busy_calls "a1b2c3d4" s E).
Defined.

Lemma phase_state_in_states (p : phase) : In (phase_state p) triage_states.
Proof. destruct p; simpl; auto 10. Qed.

(** [X9] On a guide reached from the empty one, every stored session is
    stored under its own id and is in one of the seven states
    RED_FLAG_SCREENING .. COMPLETE: the dataclass default START and the
    transient EMERGENCY_ESCALATION are never stored.  A session that has
    left RED_FLAG_SCREENING has had its red flags checked, and a session
    carries the red-flag mark exactly when its triage level is IMMEDIATE,
    in which case it is in SAVE_RECORD or COMPLETE. *)
Theorem X9_reachable_sessions_are_well_formed
    (cs : list triage_call) (k : string) (s : Triage.TriageSession) :
  triage_calls ∅ cs !! k = Some s ->
  Triage.session_id s = k
  /\ In (Triage.state s) triage_states
  /\ Triage.state s <> "START"
  /\ Triage.state s <> "EMERGENCY_ESCALATION"
  /\ (Triage.state s <> "RED_FLAG_SCREENING" ->
      Triage.red_flags_checked s = true)
  /\ (Triage.has_red_flags s = true <->
      Triage.triage_level s = Some Triage.IMMEDIATE)
  /\ (Triage.has_red_flags s = true -> after_escalation (Triage.state s)).
Proof.
  intros Hs.
  destruct (triage_calls_ok cs ∅ triage_store_ok_empty k s Hs)
    as (Hid & p & Hst & _ & Hfl & Hf).
  split; [done|]. rewrite Hst, Hfl.
  split; [apply phase_state_in_states|].
  unfold after_escalation, assessed_level in *.
  destruct p; simpl in *; repeat split; try done; try tauto;
    try (intros; exfalso; congruence);
    try (destruct Hf as (? & ? & ->); unfold assessed_level;
         repeat case_match; done);
    try (intros; destruct_and?; congruence);
    auto.
Qed.

Lemma X9_reachable_sessions_witness :
  exists s,
    triage_calls ∅ busy_calls !! "0000ffff" = Some s
    /\ Triage.session_id s = "0000ffff"
    /\ In (Triage.state s) triage_states
    /\ (Triage.has_red_flags s = true <->
        Triage.triage_level s = Some Triage.IMMEDIATE).
Proof.
  assert (Hex : exists s, triage_calls ∅ busy_calls !! "0000ffff" = Some s)
    by (vm_compute; eauto).
  destruct Hex as [s E].
  exists s. split; [exact E|].
  destruct (X9_reachable_sessions_are_well_formed busy_calls "0000ffff" s E)
    as (H1 & H2 & _ & _ & _ & H6 & _).
  auto.
Defined.

(** [X10] On a guide reached from the empty one no session is ever given
    the level URGENT: a score of 3 or more only arises together with
    critical vitals, which already make the level EMERGENCY.  The level is
    unset until the session is in SAVE_RECORD or COMPLETE, and a session
    that is COMPLETE without red flags has the level EMERGENCY when its
    vitals were critical, SEMI_URGENT when only the history raised the
    score (score 2), and NON_URGENT otherwise (score 0). *)
Theorem X10_urgent_level_is_never_assigned
    (cs : list triage_call) (k : string) (s : Triage.TriageSession) :
  triage_calls ∅ cs !! k = Some s ->
  Triage.triage_level s <> Some Triage.URGENT
  /\ (Triage.triage_level s = None <->
      ~ after_escalation (Triage.state s))
  /\ (Triage.state s = "COMPLETE" -> Triage.has_red_flags s = false ->
      score_consistent s
      /\ Triage.triage_level s
         = Some (if Triage.vitals_critical s then Triage.EMERGENCY
                 else if (Triage.severity_score s =? 2)%Z
                      then Triage.SEMI_URGENT
                      else Triage.NON_URGENT)).
Proof.
  intros Hs.
  destruct (triage_calls_ok cs ∅ triage_store_ok_empty k s Hs)
    as (Hid & p & Hst & _ & Hfl & Hf).
  rewrite Hst, Hfl. unfold after_escalation.
  assert (Hlevel : score_consistent s ->
            assessed_level (Triage.severity_score s) (Triage.vitals_critical s)
            = (if Triage.vitals_critical s then Triage.EMERGENCY
               else if (Triage.severity_score s =? 2)%Z
                    then Triage.SEMI_URGENT else Triage.NON_URGENT)).
  { unfold score_consistent, assessed_level.
    intros [[-> [-> | ->]] | [-> [-> | ->]]]; reflexivity. }
  destruct p; simpl in *; destruct_and?;
    repeat match goal with H : Triage.triage_level s = _ |- _ => rewrite H end;
    (split; [|split]);
    first
      [ discriminate
      | intros [=]; unfold assessed_level in *; repeat case_match; discriminate
      | split; [intros _ [?|?]; discriminate | done]
      | split; [intros ?; discriminate | intros Hn; exfalso; apply Hn; auto]
      | rewrite Hlevel by done; repeat case_match; discriminate
      | intros ?; discriminate
      | intros _ ?; discriminate
      | intros _ _; split; [done | by rewrite Hlevel] ].
Qed.

Lemma X10_urgent_level_witness :
  exists s,
    triage_calls ∅ busy_calls !! "a1b2c3d4" = Some s
    /\ Triage.triage_level s <> Some Triage.URGENT.
Proof.
  assert (Hex : exists s, triage_calls ∅ busy_calls !! "a1b2c3d4" = Some s)
    by (vm_compute; eauto).
  destruct Hex as [s E].
  exists s. split; [exact E|].
  exact (proj1 (X10_urgent_level_is_never_assigned busy_calls "a1b2c3d4" s E)).
Defined.

(* ===================================================================== *)
(** * Triage: the equations of [continue_triage], state by state *)
(* ===================================================================== *)

Lemma continue_triage_missing (g : gmap string Triage.TriageSession)
    (sid : string) (report : Py.dict) :
  g !! sid = None ->
  Triage.continue_triage g sid report
  = Py.Result (Py.Return (Triage.not_found_payload sid)) g [].
Proof. intros H. unfold Triage.continue_triage. by rewrite H. Qed.

Lemma continue_triage_screening_malformed
    (g : gmap string Triage.TriageSession) (sid : string) (report : Py.dict)
    (s : Triage.TriageSession) :
  g !! sid = Some s -> Triage.state s = "RED_FLAG_SCREENING" ->
  is_dict (Py.dget report "classification" (Py.VDict [])) = false ->
  Triage.continue_triage g sid report
  = Py.Result (Py.Raise Py.AttributeError)
              (<[sid := Triage.set_red_flags_checked true s]> g) [].
Proof.
  intros Hs Hst Hc. unfold Triage.continue_triage. rewrite Hs, Hst. simpl.
  run_triage.
  destruct (Py.dget report "classification" (Py.VDict [])); try discriminate;
    simpl; by rewrite Hs.
Qed.

Lemma continue_triage_screening_passed
    (g : gmap string Triage.TriageSession) (sid : string) (report cls : Py.dict)
    (s : Triage.TriageSession) :
  g !! sid = Some s -> Triage.state s = "RED_FLAG_SCREENING" ->
  Py.dget report "classification" (Py.VDict []) = Py.VDict cls ->
  Py.truthy (Py.dget cls "requires_emergency_protocol" (Py.VBool false))
  = false ->
  Triage.continue_triage g sid report
  = Py.Result
      (Py.Return
         (Py.VDict [("status", Py.VStr "in_progress");
                    ("session_id", Py.VStr (Triage.session_id s));
                    ("task", Py.VStr "gather_chief_complaint");
                    ("required_data",
                     Triage.strs ["chief_complaint"; "symptom_description"])]))
      (<[sid := after_screening_passed report cls s]> g)
      ["CHIEF_COMPLAINT"].
Proof.
  intros Hs Hst Hc Hno. unfold Triage.continue_triage. rewrite Hs, Hst. simpl.
  run_triage. rewrite Hc. simpl. rewrite Hno. simpl. by rewrite Hs.
Qed.

Lemma continue_triage_screening_emergency
    (g : gmap string Triage.TriageSession) (sid : string) (report cls : Py.dict)
    (s : Triage.TriageSession) :
  g !! sid = Some s -> Triage.state s = "RED_FLAG_SCREENING" ->
  Py.dget report "classification" (Py.VDict []) = Py.VDict cls ->
  Py.truthy (Py.dget cls "requires_emergency_protocol" (Py.VBool false))
  = true ->
  Triage.continue_triage g sid report
  = let s' := after_escalation_call report cls s in
    let flags := Py.dget cls "critical_symptoms" (Py.VList []) in
    Py.Result
      (match Py.get (Py.dget report "medical_history" (Py.VDict []))
                    "patient_id" (Py.VStr "P001") with
       | Py.Return patient_id =>
           Py.Return
             (Py.VDict
                [("status", Py.VStr "emergency_save_required");
                 ("session_id", Py.VStr (Triage.session_id s));
                 ("decision", Py.VStr "EMERGENCY_ESCALATION");
                 ("triage_level",
                  Py.VStr (Triage.level_value Triage.IMMEDIATE));
                 ("red_flags_detected", flags);
                 ("task", Py.VStr "save_triage_record");
                 ("triage_data",
                  Py.VDict
                    [("patient_id", patient_id);
                     ("complaint",
                      Py.dget report "patient_statement" (Py.VStr ""));
                     ("severity", Py.dget cls "severity" (Py.VStr "critical"));
                     ("triage_level",
                      Py.VStr (Triage.level_value Triage.IMMEDIATE));
                     ("red_flags", flags)]);
                 ("audit_trail", Py.VList (Triage.protocol_steps s'))])
       | Py.Raise e => Py.Raise e
       end)
      (<[sid := s']> g)
      ["EMERGENCY_ESCALATION"; "SAVE_RECORD"].
Proof.
  intros Hs Hst Hc Hyes. unfold Triage.continue_triage. rewrite Hs, Hst. simpl.
  run_triage. rewrite Hc. simpl. rewrite Hyes. simpl.
  destruct (Py.get _ "patient_id" _); simpl; by rewrite Hs.
Qed.

Lemma continue_triage_chief_complaint
    (g : gmap string Triage.TriageSession) (sid : string) (report : Py.dict)
    (s : Triage.TriageSession) :
  g !! sid = Some s -> Triage.state s = "CHIEF_COMPLAINT" ->
  Triage.continue_triage g sid report
  = Py.Result
      (Py.Return
         (Py.VDict [("status", Py.VStr "in_progress");
                    ("session_id", Py.VStr (Triage.session_id s));
                    ("task", Py.VStr "check_medical_history");
                    ("required_data",
                     Triage.strs ["medical_history"; "medications";
                                  "allergies"])]))
      (<[sid := after_chief_complaint report s]> g)
      ["MEDICAL_HISTORY"].
Proof.
  intros Hs Hst. unfold Triage.continue_triage. rewrite Hs, Hst. simpl.
  run_triage. by rewrite Hs.
Qed.

Lemma continue_triage_medical_history
    (g : gmap string Triage.TriageSession) (sid : string) (report : Py.dict)
    (s : Triage.TriageSession) :
  g !! sid = Some s -> Triage.state s = "MEDICAL_HISTORY" ->
  Triage.continue_triage g sid report
  = Py.Result
      (Py.Return
         (Py.VDict [("status", Py.VStr "in_progress");
                    ("session_id", Py.VStr (Triage.session_id s));
                    ("task", Py.VStr "get_vital_signs");
                    ("required_data",
                     Triage.strs ["blood_pressure"; "heart_rate";
                                  "temperature"; "respiratory_rate";
                                  "oxygen_saturation"])]))
      (<[sid := after_medical_history report s]> g)
      ["VITAL_SIGNS"].
Proof.
  intros Hs Hst. unfold Triage.continue_triage. rewrite Hs, Hst. simpl.
  run_triage. unfold after_medical_history.
  destruct (Py.truthy _); simpl; by rewrite Hs.
Qed.

Lemma continue_triage_vital_signs
    (g : gmap string Triage.TriageSession) (sid : string) (report : Py.dict)
    (s : Triage.TriageSession) (n : Z) :
  g !! sid = Some s -> Triage.state s = "VITAL_SIGNS" ->
  Py.len (Py.dget report "critical_values" (Py.VList [])) = Py.Return n ->
  Triage.continue_triage g sid report
  = let s' := after_vital_signs report n s in
    Py.Result
      (Py.Return
         (Py.VDict
            [("status", Py.VStr "in_progress");
             ("session_id", Py.VStr (Triage.session_id s));
             ("task", Py.VStr "assess_severity");
             ("data_for_assessment",
              Py.VDict
                [("red_flags", Triage.red_flag_details s);
                 ("chief_complaint", Triage.chief_complaint s);
                 ("medical_history", Triage.medical_history s);
                 ("vitals", Py.dget report "vitals" (Py.VDict []));
                 ("severity_score", Py.VInt (Triage.severity_score s'))])]))
      (<[sid := s']> g)
      ["SEVERITY_ASSESSMENT"].
Proof.
  intros Hs Hst Hlen. unfold Triage.continue_triage. rewrite Hs, Hst. simpl.
  run_triage. rewrite Hlen. simpl. unfold after_vital_signs.
  destruct (Py.truthy _); simpl; by rewrite Hs.
Qed.

Lemma continue_triage_vital_signs_unsized
    (g : gmap string Triage.TriageSession) (sid : string) (report : Py.dict)
    (s : Triage.TriageSession) (e : Py.exn) :
  g !! sid = Some s -> Triage.state s = "VITAL_SIGNS" ->
  Py.len (Py.dget report "critical_values" (Py.VList [])) = Py.Raise e ->
  Triage.continue_triage g sid report
  = Py.Result (Py.Raise Py.TypeError)
      (<[sid := Triage.set_vitals (Py.dget report "vitals" (Py.VDict [])) s]> g)
      [].
Proof.
  intros Hs Hst Hlen. unfold Triage.continue_triage. rewrite Hs, Hst. simpl.
  run_triage. rewrite Hlen. simpl. rewrite Hs.
  destruct (Py.dget report "critical_values" (Py.VList []));
    simpl in Hlen; by simplify_eq.
Qed.

Lemma continue_triage_assessment
    (g : gmap string Triage.TriageSession) (sid : string) (report : Py.dict)
    (s : Triage.TriageSession) :
  g !! sid = Some s -> Triage.state s = "SEVERITY_ASSESSMENT" ->
  Triage.continue_triage g sid report
  = let s' := after_assessment s in
    let l := assessed_level (Triage.severity_score s)
                            (Triage.vitals_critical s) in
    Py.Result
      (if is_dict (Triage.medical_history s) then
         Py.Return
           (Py.VDict
              [("status", Py.VStr "complete");
               ("session_id", Py.VStr (Triage.session_id s));
               ("triage_level", Py.VStr (Triage.level_value l));
               ("recommendation", Py.VStr (level_recommendation l));
               ("protocol_compliance",
                Py.VDict
                  [("all_steps_completed", Py.VBool true);
                   ("red_flags_screened",
                    Py.VBool (Triage.red_flags_checked s));
                   ("vitals_obtained",
                    Py.VBool (Py.truthy (Triage.vitals s)));
                   ("history_reviewed",
                    Py.VBool (Py.truthy (Triage.medical_history s)))]);
               ("audit_trail", Py.VList (Triage.protocol_steps s'))])
       else Py.Raise Py.AttributeError)
      (<[sid := s']> g)
      ["COMPLETE"].
Proof.
  intros Hs Hst. unfold Triage.continue_triage. rewrite Hs, Hst. simpl.
  run_triage. unfold after_assessment, assessed_level.
  destruct ((5 <=? _)%Z || _); simpl;
    [|destruct (3 <=? _)%Z; simpl; [|destruct (2 <=? _)%Z; simpl]];
    destruct (Triage.medical_history s); simpl; by rewrite Hs.
Qed.

Lemma continue_triage_save_record
    (g : gmap string Triage.TriageSession) (sid : string) (report : Py.dict)
    (s : Triage.TriageSession) :
  g !! sid = Some s -> Triage.state s = "SAVE_RECORD" ->
  Triage.continue_triage g sid report
  = let s' := after_save_record report s in
    Py.Result
      (match Triage.triage_level s with
       | Some l =>
           Py.Return
             (Py.VDict
                [("status", Py.VStr "emergency");
                 ("session_id", Py.VStr (Triage.session_id s));
                 ("decision", Py.VStr "EMERGENCY_ESCALATION");
                 ("triage_level", Py.VStr (Triage.level_value l));
                 ("red_flags_detected", Triage.red_flag_details s);
                 ("task", Py.VStr "emergency_response");
                 ("audit_trail", Py.VList (Triage.protocol_steps s'))])
       | None => Py.Raise Py.AttributeError
       end)
      (<[sid := s']> g)
      ["COMPLETE"].
Proof.
  intros Hs Hst. unfold Triage.continue_triage. rewrite Hs, Hst. simpl.
  run_triage. destruct (Triage.triage_level s); simpl; by rewrite Hs.
Qed.

(* ===================================================================== *)
(** * Triage: the normal path and the escalation path, end to end *)
(* ===================================================================== *)

(** [X11] The normal path composes.  Start a session and give it five
    reports: a first one whose classification is a dict that does not ask
    for the emergency protocol, any second one, a third one whose
    [medical_history] (if present) is a dict, a fourth one whose
    [critical_values] (if present) is sized, and any fifth one.  Then the
    fifth call returns the payload with status [complete], the session is
    COMPLETE with seven audit entries, its score is 2 for a truthy
    [high_risk_conditions] plus 3 for a truthy [critical_values], and its
    level is EMERGENCY when [critical_values] was truthy, else SEMI_URGENT
    when [high_risk_conditions] was truthy, else NON_URGENT.  Nothing else
    in the reports matters: no handler checks the data it asks for. *)
Theorem X11_normal_path_reaches_complete
    (g : gmap string Triage.TriageSession) (uuid8 : string)
    (r1 r2 r3 r4 r5 cls : Py.dict) (n : Z) :
  Py.dget r1 "classification" (Py.VDict []) = Py.VDict cls ->
  Py.truthy (Py.dget cls "requires_emergency_protocol" (Py.VBool false))
  = false ->
  is_dict (Py.dget r3 "medical_history" (Py.VDict [])) = true ->
  Py.len (Py.dget r4 "critical_values" (Py.VList [])) = Py.Return n ->
  let g5 := Triage.continue_many (Triage.start_triage g uuid8).2
              [(uuid8, r1); (uuid8, r2); (uuid8, r3); (uuid8, r4)] in
  let r := Triage.continue_triage g5 uuid8 r5 in
  let high_risk :=
    Py.truthy (Py.dget r3 "high_risk_conditions" (Py.VList [])) in
  let critical := Py.truthy (Py.dget r4 "critical_values" (Py.VList [])) in
  let level := if critical then Triage.EMERGENCY
               else if high_risk then Triage.SEMI_URGENT
               else Triage.NON_URGENT in
  exists s payload,
    Py.out r = Py.Return payload
    /\ Py.field "status" payload = Some (Py.VStr "complete")
    /\ Py.field "triage_level" payload
       = Some (Py.VStr (Triage.level_value level))
    /\ Py.field "audit_trail" payload = Some (Py.VList (Triage.protocol_steps s))
    /\ Py.store r !! uuid8 = Some s
    /\ Triage.state s = "COMPLETE"
    /\ Triage.triage_level s = Some level
    /\ Triage.severity_score s
       = ((if high_risk then 2 else 0) + (if critical then 3 else 0))%Z
    /\ Triage.vitals_critical s = critical
    /\ length (Triage.protocol_steps s) = 7.
Proof.
  intros Hc Hno Hmh Hlen g5 r high_risk critical level.
  set (s0 := started_session uuid8).
  set (g1 := (Triage.start_triage g uuid8).2).
  assert (L0 : g1 !! uuid8 = Some s0) by apply lookup_insert_eq.
  set (s1 := after_screening_passed r1 cls s0).
  set (s2 := after_chief_complaint r2 s1).
  set (s3 := after_medical_history r3 s2).
  set (s4 := after_vital_signs r4 n s3).
  assert (G5 : g5 = <[uuid8 := s4]> (<[uuid8 := s3]> (<[uuid8 := s2]>
                      (<[uuid8 := s1]> g1)))).
  { unfold g5. cbn [Triage.continue_many]. fold g1.
    rewrite (continue_triage_screening_passed g1 uuid8 r1 cls s0 L0 eq_refl
               Hc Hno). cbn [Py.store].
    rewrite (continue_triage_chief_complaint _ uuid8 r2 s1
               (lookup_insert_eq _ _ _) eq_refl). cbn [Py.store].
    rewrite (continue_triage_medical_history _ uuid8 r3 s2
               (lookup_insert_eq _ _ _) eq_refl). cbn [Py.store].
    by rewrite (continue_triage_vital_signs _ uuid8 r4 s3 n
                  (lookup_insert_eq _ _ _) eq_refl Hlen). }
  assert (L4 : g5 !! uuid8 = Some s4) by (rewrite G5; apply lookup_insert_eq).
  unfold r. rewrite (continue_triage_assessment g5 uuid8 r5 s4 L4 eq_refl).
  cbv zeta.
  assert (Hmh4 : Triage.medical_history s4
                 = Py.dget r3 "medical_history" (Py.VDict [])).
  { unfold s4, after_vital_signs, s3, after_medical_history.
    destruct (Py.truthy (Py.dget r4 _ _)), (Py.truthy (Py.dget r3 _ _));
      reflexivity. }
  assert (Hvc : Triage.vitals_critical s4 = critical).
  { unfold critical. rewrite (len_truthy _ _ Hlen).
    unfold s4, after_vital_signs.
    destruct (Py.truthy (Py.dget r4 _ _)); reflexivity. }
  assert (Hsc : Triage.severity_score s4
                = ((if high_risk then 2 else 0)
                   + (if critical then 3 else 0))%Z).
  { unfold s4, after_vital_signs, s3, after_medical_history.
    fold high_risk critical. generalize high_risk critical.
    by intros [] []. }
  assert (Hlv : assessed_level (Triage.severity_score s4)
                               (Triage.vitals_critical s4) = level).
  { rewrite Hsc, Hvc. unfold level. generalize high_risk critical.
    by intros [] []. }
  rewrite Hmh4, Hmh, Hlv.
  exists (after_assessment s4). eexists. split; [reflexivity|].
  cbn [Py.store]. rewrite lookup_insert_eq.
  do 5 (split; [reflexivity|]).
  split.
  { change (Some (assessed_level (Triage.severity_score s4)
                                 (Triage.vitals_critical s4)) = Some level).
    by rewrite Hlv. }
  split; [exact Hsc|]. split; [exact Hvc|].
  unfold s4, after_vital_signs, s3, after_medical_history, after_assessment.
  destruct (Py.truthy (Py.dget r4 _ _)), (Py.truthy (Py.dget r3 _ _));
    reflexivity.
Qed.

Lemma X11_normal_path_witness :
  exists s,
    Py.dget [] "classification" (Py.VDict []) = Py.VDict []
    /\ Py.truthy (Py.dget [] "requires_emergency_protocol" (Py.VBool false))
       = false
    /\ is_dict (Py.dget risky_report "medical_history" (Py.VDict [])) = true
    /\ Py.len (Py.dget risky_report "critical_values" (Py.VList []))
       = Py.Return 1%Z
    /\ Py.store
         (Triage.continue_triage
            (Triage.continue_many (Triage.start_triage ∅ "a1b2c3d4").2
               [("a1b2c3d4", []); ("a1b2c3d4", []);
                ("a1b2c3d4", risky_report); ("a1b2c3d4", risky_report)])
            "a1b2c3d4" []) !! "a1b2c3d4" = Some s
    /\ Triage.state s = "COMPLETE"
    /\ Triage.severity_score s = 5%Z.
Proof.
  destruct (X11_normal_path_reaches_complete ∅ "a1b2c3d4"
              [] [] risky_report risky_report [] [] 1
              eq_refl eq_refl eq_refl eq_refl)
    as (s & payload & _ & _ & _ & _ & Hs & Hst & _ & Hsc & _).
  exists s. do 4 (split; [reflexivity|]). auto.
Defined.

(** [X12] The escalation path composes.  Once a report asking for the
    emergency protocol has been given to a fresh session, the next
    [continue_triage] call completes it whatever its report holds - an
    empty report, without any record id, included: the call returns the
    payload with status [emergency] and level IMMEDIATE, the session is
    COMPLETE, and the audit trail ends with a [triage_record_saved] entry
    holding whatever [record_id] and [status] the report had. *)
Theorem X12_escalated_session_completes_on_any_report
    (g : gmap string Triage.TriageSession) (uuid8 : string)
    (r1 r2 : Py.dict) :
  requires_emergency r1 = true ->
  let g2 := Py.store (Triage.continue_triage
                        (Triage.start_triage g uuid8).2 uuid8 r1) in
  let r := Triage.continue_triage g2 uuid8 r2 in
  exists s payload,
    Py.out r = Py.Return payload
    /\ Py.field "status" payload = Some (Py.VStr "emergency")
    /\ Py.field "triage_level" payload
       = Some (Py.VStr (Triage.level_value Triage.IMMEDIATE))
    /\ Py.field "audit_trail" payload = Some (Py.VList (Triage.protocol_steps s))
    /\ Py.store r !! uuid8 = Some s
    /\ Triage.state s = "COMPLETE"
    /\ Triage.has_red_flags s = true
    /\ last (Triage.protocol_steps s)
       = Some (Triage.step_entry "triage_record_saved"
                 (Py.VDict [("record_id", Py.dget r2 "record_id" Py.VNone);
                            ("status", Py.dget r2 "status" Py.VNone)]))
    /\ Py.writes r = ["COMPLETE"].
Proof.
  intros Hreq g2 r. unfold requires_emergency in Hreq.
  destruct (Py.dget r1 "classification" (Py.VDict [])) as [| | | | |cls] eqn:Hc;
    try discriminate. simpl in Hreq.
  set (s0 := started_session uuid8).
  set (g1 := (Triage.start_triage g uuid8).2).
  assert (L0 : g1 !! uuid8 = Some s0) by apply lookup_insert_eq.
  set (s1 := after_escalation_call r1 cls s0).
  assert (G2 : g2 = <[uuid8 := s1]> g1).
  { unfold g2. fold g1.
    by rewrite (continue_triage_screening_emergency g1 uuid8 r1 cls s0 L0
                  eq_refl Hc Hreq). }
  assert (L1 : g2 !! uuid8 = Some s1) by (rewrite G2; apply lookup_insert_eq).
  unfold r. rewrite (continue_triage_save_record g2 uuid8 r2 s1 L1 eq_refl).
  cbv zeta. exists (after_save_record r2 s1). eexists.
  split; [reflexivity|].
  cbn [Py.store Py.writes]. rewrite lookup_insert_eq.
  do 6 (split; [reflexivity|]).
  split; [|reflexivity].
  reflexivity.
Qed.

Lemma X12_escalated_session_witness :
  requires_emergency emergency_report = true
  /\ exists s,
       Py.store
         (Triage.continue_triage
            (Py.store (Triage.continue_triage
                         (Triage.start_triage ∅ "a1b2c3d4").2
                         "a1b2c3d4" emergency_report))
            "a1b2c3d4" []) !! "a1b2c3d4" = Some s
       /\ Triage.state s = "COMPLETE".
Proof.
  split; [reflexivity|].
  destruct (X12_escalated_session_completes_on_any_report ∅ "a1b2c3d4"
              emergency_report [] eq_refl)
    as (s & payload & _ & _ & _ & _ & Hs & Hst & _).
  exists s. auto.
Defined.

(* ===================================================================== *)
(** * Triage: reports that make a handler raise *)
(* ===================================================================== *)

(** [X13] A RED_FLAG_SCREENING report whose [classification] is present but
    is not a dict makes [continue_triage] raise [AttributeError].  The
    session stays in RED_FLAG_SCREENING with its audit trail and red-flag
    mark untouched - such a report can neither escalate nor pass the
    screening - but [red_flags_checked] has already been set to [True]. *)
Theorem X13_malformed_classification_raises
    (g : gmap string Triage.TriageSession) (sid : string) (report : Py.dict)
    (s : Triage.TriageSession) :
  g !! sid = Some s ->
  Triage.state s = "RED_FLAG_SCREENING" ->
  is_dict (Py.dget report "classification" (Py.VDict [])) = false ->
  let r := Triage.continue_triage g sid report in
  Py.out r = Py.Raise Py.AttributeError
  /\ Py.writes r = []
  /\ exists s',
       Py.store r !! sid = Some s'
       /\ s' = Triage.set_red_flags_checked true s
       /\ Triage.state s' = "RED_FLAG_SCREENING"
       /\ Triage.protocol_steps s' = Triage.protocol_steps s
       /\ Triage.has_red_flags s' = Triage.has_red_flags s
       /\ Triage.red_flags_checked s' = true.
Proof.
  intros Hs Hst Hc r. unfold r.
  rewrite (continue_triage_screening_malformed g sid report s Hs Hst Hc).
  simpl. rewrite lookup_insert_eq. repeat split; eauto 10.
Qed.

Lemma X13_malformed_classification_witness :
  exists s,
    triage_started !! "a1b2c3d4" = Some s
    /\ Triage.state s = "RED_FLAG_SCREENING"
    /\ is_dict (Py.dget [("classification", Py.VStr "critical")]
                  "classification" (Py.VDict [])) = false
    /\ Py.out (Triage.continue_triage triage_started "a1b2c3d4"
                 [("classification", Py.VStr "critical")])
       = Py.Raise Py.AttributeError.
Proof.
  assert (Hex : exists s, triage_started !! "a1b2c3d4" = Some s
                          /\ Triage.state s = "RED_FLAG_SCREENING")
    by (vm_compute; eauto).
  destruct Hex as (s & E & Hst).
  exists s. split; [exact E|]. split; [exact Hst|]. split; [reflexivity|].
  exact (proj1 (X13_malformed_classification_raises triage_started "a1b2c3d4"
                  [("classification", Py.VStr "critical")] s E Hst eq_refl)).
Defined.

(** [X14] A VITAL_SIGNS report whose [critical_values] has no length
    ([None], a boolean or a number) makes [continue_triage] raise
    [TypeError] half-way: the session's [vitals] have already been
    overwritten with the report's, while its state, score, critical-vitals
    mark and audit trail are unchanged, so the call can be repeated. *)
Theorem X14_unsized_critical_values_raise_after_overwriting_vitals
    (g : gmap string Triage.TriageSession) (sid : string) (report : Py.dict)
    (s : Triage.TriageSession) (e : Py.exn) :
  g !! sid = Some s ->
  Triage.state s = "VITAL_SIGNS" ->
  Py.len (Py.dget report "critical_values" (Py.VList [])) = Py.Raise e ->
  let r := Triage.continue_triage g sid report in
  Py.out r = Py.Raise Py.TypeError
  /\ Py.writes r = []
  /\ exists s',
       Py.store r !! sid = Some s'
       /\ Triage.vitals s' = Py.dget report "vitals" (Py.VDict [])
       /\ Triage.state s' = "VITAL_SIGNS"
       /\ Triage.severity_score s' = Triage.severity_score s
       /\ Triage.vitals_critical s' = Triage.vitals_critical s
       /\ Triage.protocol_steps s' = Triage.protocol_steps s.
Proof.
  intros Hs Hst Hlen r. unfold r.
  rewrite (continue_triage_vital_signs_unsized g sid report s e Hs Hst Hlen).
  simpl. rewrite lookup_insert_eq. repeat split; eauto 10.
Qed.

(** [X15] The medical-history step stores whatever the report gives as
    [medical_history] without looking at it; when that is not a dict, the
    session goes on as usual until the assessment call, which raises
    [AttributeError] while building its final message - after the session
    has been marked COMPLETE and [triage_completed] has been logged.  The
    caller never receives the assessment: any further [continue_triage]
    gets the "Unknown state: COMPLETE" error. *)
Theorem X15_non_dict_history_breaks_the_final_call
    (g : gmap string Triage.TriageSession) (sid : string)
    (r3 r4 r5 r6 : Py.dict) (s : Triage.TriageSession) (n : Z) :
  g !! sid = Some s ->
  Triage.state s = "MEDICAL_HISTORY" ->
  is_dict (Py.dget r3 "medical_history" (Py.VDict [])) = false ->
  Py.len (Py.dget r4 "critical_values" (Py.VList [])) = Py.Return n ->
  let g5 := Triage.continue_many g [(sid, r3); (sid, r4)] in
  let r := Triage.continue_triage g5 sid r5 in
  Py.out r = Py.Raise Py.AttributeError
  /\ (exists s',
        Py.store r !! sid = Some s'
        /\ Triage.state s' = "COMPLETE"
        /\ Triage.triage_level s' <> None
        /\ exists entry,
             last (Triage.protocol_steps s') = Some entry
             /\ Py.field "step" entry = Some (Py.VStr "triage_completed"))
  /\ Py.out (Triage.continue_triage (Py.store r) sid r6)
     = Py.Return (Triage.unknown_state_payload "COMPLETE").
Proof.
  intros Hs Hst Hmh Hlen g5 r.
  set (s3 := after_medical_history r3 s).
  set (s4 := after_vital_signs r4 n s3).
  assert (G5 : g5 = <[sid := s4]> (<[sid := s3]> g)).
  { unfold g5. cbn [Triage.continue_many].
    rewrite (continue_triage_medical_history g sid r3 s Hs Hst).
    cbn [Py.store].
    by rewrite (continue_triage_vital_signs _ sid r4 s3 n
                  (lookup_insert_eq _ _ _) eq_refl Hlen). }
  assert (L4 : g5 !! sid = Some s4) by (rewrite G5; apply lookup_insert_eq).
  assert (Hmh4 : Triage.medical_history s4
                 = Py.dget r3 "medical_history" (Py.VDict [])).
  { unfold s4, after_vital_signs, s3, after_medical_history.
    destruct (Py.truthy (Py.dget r4 _ _)), (Py.truthy (Py.dget r3 _ _));
      reflexivity. }
  assert (R : r = Py.Result (Py.Raise Py.AttributeError)
                    (<[sid := after_assessment s4]> g5) ["COMPLETE"]).
  { unfold r. rewrite (continue_triage_assessment g5 sid r5 s4 L4 eq_refl).
    cbv zeta. by rewrite Hmh4, Hmh. }
  rewrite R. cbn [Py.out Py.store].
  split; [done|]. split.
  - exists (after_assessment s4). rewrite lookup_insert_eq.
    split; [done|]. split; [done|]. split; [done|].
    eexists. split; [apply last_snoc|done].
  - by rewrite (continue_triage_complete _ sid r6 (after_assessment s4)
                  (lookup_insert_eq _ _ _) eq_refl).
Qed.

Lemma X14_unsized_critical_values_witness :
  exists s,
    Triage.continue_many triage_started
      [("a1b2c3d4", calm_report); ("a1b2c3d4", calm_report);
       ("a1b2c3d4", calm_report)] !! "a1b2c3d4" = Some s
    /\ Triage.state s = "VITAL_SIGNS"
    /\ Py.len (Py.dget [("critical_values", Py.VInt 2)] "critical_values"
                 (Py.VList [])) = Py.Raise Py.TypeError
    /\ Py.out (Triage.continue_triage
                 (Triage.continue_many triage_started
                    [("a1b2c3d4", calm_report); ("a1b2c3d4", calm_report);
                     ("a1b2c3d4", calm_report)])
                 "a1b2c3d4" [("critical_values", Py.VInt 2)])
       = Py.Raise Py.TypeError.
Proof.
  assert (Hex : exists s,
            Triage.continue_many triage_started
              [("a1b2c3d4", calm_report); ("a1b2c3d4", calm_report);
               ("a1b2c3d4", calm_report)] !! "a1b2c3d4" = Some s
            /\ Triage.state s = "VITAL_SIGNS")
    by (vm_compute; eauto).
  destruct Hex as (s & E & Hst).
  exists s. split; [exact E|]. split; [exact Hst|]. split; [reflexivity|].
  exact (proj1 (X14_unsized_critical_values_raise_after_overwriting_vitals
                  _ "a1b2c3d4" [("critical_values", Py.VInt 2)] s
                  Py.TypeError E Hst eq_refl)).
Defined.

Lemma X15_non_dict_history_witness :
  exists s,
    Triage.continue_many triage_started
      [("a1b2c3d4", calm_report); ("a1b2c3d4", calm_report)]
      !! "a1b2c3d4" = Some s
    /\ Triage.state s = "MEDICAL_HISTORY"
    /\ Py.out (Triage.continue_triage
                 (Triage.continue_many
                    (Triage.continue_many triage_started
                       [("a1b2c3d4", calm_report); ("a1b2c3d4", calm_report)])
                    [("a1b2c3d4", [("medical_history", Py.VStr "asthma")]);
                     ("a1b2c3d4", [])])
                 "a1b2c3d4" [])
       = Py.Raise Py.AttributeError.
Proof.
  assert (Hex : exists s,
            Triage.continue_many triage_started
              [("a1b2c3d4", calm_report); ("a1b2c3d4", calm_report)]
              !! "a1b2c3d4" = Some s
            /\ Triage.state s = "MEDICAL_HISTORY")
    by (vm_compute; eauto).
  destruct Hex as (s & E & Hst).
  exists s. split; [exact E|]. split; [exact Hst|].
  exact (proj1 (X15_non_dict_history_breaks_the_final_call
                  _ "a1b2c3d4" [("medical_history", Py.VStr "asthma")] [] [] []
                  s 0 E Hst eq_refl eq_refl)).
Defined.

(* ===================================================================== *)
(** * Triage: one session at a time, and nothing is ever removed *)
(* ===================================================================== *)






(* ===================================================================== *)
(** * Triage: cancelling *)
(* ===================================================================== *)

(** [X18] [cancel_session] on a stored session, whatever its state (an
    escalated session waiting for its record to be saved, or a COMPLETE
    one, included), answers [cancelled] and removes exactly that entry,
    audit trail and all.  From then on the id is unknown:
    [continue_triage] answers with the session-not-found error,
    [get_session] returns [None], and a second [cancel_session] answers
    with status [error] and changes nothing. *)
Theorem X18_cancel_session_forgets_the_session
    (g : gmap string Triage.TriageSession) (sid : string)
    (s : Triage.TriageSession) :
  g !! sid = Some s ->
  let g' := (Triage.cancel_session g sid).2 in
  Py.field "status" (Triage.cancel_session g sid).1
  = Some (Py.VStr "cancelled")
  /\ g' = delete sid g
  /\ (forall k, k <> sid -> g' !! k = g !! k)
  /\ (forall report,
        Triage.continue_triage g' sid report
        = Py.Result (Py.Return (Triage.not_found_payload sid)) g' [])
  /\ Triage.get_session g' sid = None
  /\ Py.field "status" (Triage.cancel_session g' sid).1
     = Some (Py.VStr "error")
  /\ (Triage.cancel_session g' sid).2 = g'.
Proof.
  intros Hg g'.
  assert (Hc : Triage.cancel_session g sid
               = (Py.VDict [("status", Py.VStr "cancelled");
                            ("message", Py.VStr "Triage session cancelled.")],
                  delete sid g)).
  { unfold Triage.cancel_session. by rewrite Hg. }
  subst g'. rewrite Hc. simpl.
  assert (Hgone : delete sid g !! sid = None) by apply lookup_delete_eq.
  split; [done|]. split; [done|].
  split; [intros k Hk; by rewrite lookup_delete_ne|].
  split; [intros report; by apply continue_triage_missing|].
  split; [unfold Triage.get_session; by rewrite Hgone|].
  unfold Triage.cancel_session. by rewrite Hgone.
Qed.

Lemma X18_cancel_session_witness :
  exists s,
    triage_escalated !! "a1b2c3d4" = Some s
    /\ (Triage.cancel_session triage_escalated "a1b2c3d4").2
       = delete "a1b2c3d4" triage_escalated
    /\ Triage.get_session (Triage.cancel_session triage_escalated "a1b2c3d4").2
         "a1b2c3d4" = None.
Proof.
  assert (Hex : exists s, triage_escalated !! "a1b2c3d4" = Some s)
    by (vm_compute; eauto).
  destruct Hex as (s & E).
  exists s. split; [exact E|].
  destruct (X18_cancel_session_forgets_the_session triage_escalated
              "a1b2c3d4" s E) as (_ & H2 & _ & _ & H5 & _).
  split; [exact H2|exact H5].
Defined.

(* ===================================================================== *)
(** * The symptom classifier *)
(* ===================================================================== *)

Lemma nonempty_filter {A : Type} (f : A -> bool) (l : list A) :
  Tools.nonempty (List.filter f l) = existsb f l.
Proof.
  induction l as [|a l IH]; [done|]. simpl. by destruct (f a).
Qed.

Lemma positive_length_filter {A : Type} (f : A -> bool) (l : list A) :
  (0 <? Z.of_nat (length (List.filter f l)))%Z = existsb f l.
Proof.
  rewrite <- nonempty_filter. by destruct (List.filter f l).
Qed.

(** The outcome of [classify_symptoms] once the risk factors are known. *)
Lemma classify_symptoms_returns (statement : string) (history : Py.dict)
    (cls : Py.dict) :
  Tools.classify_symptoms statement history = Py.Return cls ->
  exists severity recommendation risk_factors,
    cls = [("severity", Py.VStr severity);
           ("critical_symptoms",
            Triage.strs (Tools.detect Tools.CRITICAL_SYMPTOMS
                           (Py.lower statement)));
           ("moderate_symptoms",
            Triage.strs (Tools.detect Tools.MODERATE_SYMPTOMS
                           (Py.lower statement)));
           ("risk_factors", Py.VList risk_factors);
           ("recommendation", Py.VStr recommendation);
           ("requires_emergency_protocol",
            Py.VBool (mentions_critical statement))]
    /\ (mentions_critical statement = true ->
        severity = "critical" /\ recommendation = "immediate_emergency_care")
    /\ (mentions_critical statement = false ->
        severity <> "critical"
        /\ recommendation <> "immediate_emergency_care").
Proof.
  unfold Tools.classify_symptoms. cbv zeta.
  assert (Hm : mentions_critical statement
               = Tools.nonempty (Tools.detect Tools.CRITICAL_SYMPTOMS
                                   (Py.lower statement)))
    by (symmetry; apply nonempty_filter).
  rewrite Hm. clear Hm. unfold Triage.strs.
  generalize (Tools.detect Tools.CRITICAL_SYMPTOMS (Py.lower statement)).
  generalize (Tools.detect Tools.MODERATE_SYMPTOMS (Py.lower statement)).
  intros dm dc.
  match goal with
  | |- context [Tools.and_then ?o _] => destruct o as [rf|e]
  end; cbn [Tools.and_then]; [|done].
  assert (Hlen : (0 <? Z.of_nat (length dc))%Z = Tools.nonempty dc)
    by by destruct dc.
  rewrite Hlen.
  destruct (Tools.nonempty dc).
  { intros [= <-]. eexists _, _, _. split; [reflexivity|]. by split. }
  destruct (Tools.nonempty dm && Tools.nonempty rf).
  { intros [= <-]. eexists _, _, _. split; [reflexivity|]. by split. }
  destruct (Tools.nonempty dm);
    intros [= <-]; eexists _, _, _; (split; [reflexivity|]); by split.
Qed.

(** Whether [classify_symptoms] returns is decided by the
    [chronic_conditions] of the history alone. *)
Lemma classify_symptoms_outcome (statement : string) (history : Py.dict) :
  let conditions := Py.dget history "chronic_conditions" Py.VNone in
  if Py.truthy conditions && unlistable conditions
  then Tools.classify_symptoms statement history = Py.Raise Py.TypeError
  else exists cls, Tools.classify_symptoms statement history = Py.Return cls.
Proof.
  unfold Tools.classify_symptoms. cbv zeta.
  generalize (Tools.detect Tools.CRITICAL_SYMPTOMS (Py.lower statement)).
  generalize (Tools.detect Tools.MODERATE_SYMPTOMS (Py.lower statement)).
  intros dm dc. unfold Tools.subscript, Py.dget.
  destruct (Py.assoc "chronic_conditions" history) as [v|]; cbn -[Z.ltb].
  - destruct v as [|b|n|s|l|d]; cbn -[Z.ltb]; try destruct b;
      try destruct (n =? 0)%Z; try destruct (String.eqb s "");
      try destruct l; try destruct d; cbn -[Z.ltb];
      try reflexivity;
      repeat match goal with
             | |- context [let '(_, _) := ?c in _] => destruct c
             end; eauto.
  - repeat match goal with
           | |- context [let '(_, _) := ?c in _] => destruct c
           end; eauto.
Qed.

(** [X19] When [classify_symptoms] returns, its verdict is exactly whether
    the lower-cased statement contains one of the critical symptoms: that
    decides [requires_emergency_protocol], and it is the only way to get
    severity [critical] or the recommendation [immediate_emergency_care].
    The medical history never changes the verdict.  The symptoms listed
    under [critical_symptoms] are those of the table that occur in the
    statement. *)
Theorem X19_classifier_flags_exactly_the_critical_statements
    (statement : string) (history cls : Py.dict) :
  Tools.classify_symptoms statement history = Py.Return cls ->
  Py.assoc "requires_emergency_protocol" cls
  = Some (Py.VBool (mentions_critical statement))
  /\ (mentions_critical statement = true
      <-> Py.assoc "severity" cls = Some (Py.VStr "critical"))
  /\ (mentions_critical statement = true
      <-> Py.assoc "recommendation" cls
          = Some (Py.VStr "immediate_emergency_care"))
  /\ exists detected,
       Py.assoc "critical_symptoms" cls = Some (Triage.strs detected)
       /\ (detected <> [] <-> mentions_critical statement = true)
       /\ forall symptom,
            In symptom detected
            <-> In symptom Tools.CRITICAL_SYMPTOMS
                /\ Py.contains symptom (Py.lower statement) = true.
Proof.
  intros Hc.
  destruct (classify_symptoms_returns statement history cls Hc)
    as (severity & recommendation & rf & -> & Hyes & Hno).
  split; [reflexivity|].
  change (Py.assoc "severity" _) with (Some (Py.VStr severity)).
  change (Py.assoc "recommendation" _) with (Some (Py.VStr recommendation)).
  split; [|split].
  - split.
    + intros Hm. by destruct (Hyes Hm) as [-> _].
    + intros [= ->]. destruct (mentions_critical statement); [done|].
      by destruct (Hno eq_refl).
  - split.
    + intros Hm. by destruct (Hyes Hm) as [_ ->].
    + intros [= ->]. destruct (mentions_critical statement); [done|].
      by destruct (Hno eq_refl).
  - exists (Tools.detect Tools.CRITICAL_SYMPTOMS (Py.lower statement)).
    split; [reflexivity|]. split.
    + unfold mentions_critical. rewrite <- nonempty_filter.
      unfold Tools.detect. by destruct (List.filter _ _).
    + intros symptom.
      exact (List.filter_In
               (fun symptom => Py.contains symptom (Py.lower statement))
               symptom Tools.CRITICAL_SYMPTOMS).
Qed.

Lemma X19_classifier_witness :
  exists cls,
    Tools.classify_symptoms "I have severe CHEST PAIN since noon"
      [("high_risk", Py.VBool true)] = Py.Return cls
    /\ Py.assoc "requires_emergency_protocol" cls
       = Some (Py.VBool
                 (mentions_critical "I have severe CHEST PAIN since noon")).
Proof.
  assert (Hex : exists cls,
            Tools.classify_symptoms "I have severe CHEST PAIN since noon"
              [("high_risk", Py.VBool true)] = Py.Return cls)
    by (vm_compute; eauto).
  destruct Hex as (cls & E).
  exists cls. split; [exact E|].
  exact (proj1 (X19_classifier_flags_exactly_the_critical_statements
                  "I have severe CHEST PAIN since noon"
                  [("high_risk", Py.VBool true)] cls E)).
Defined.

(** [X20] [classify_symptoms] raises exactly when the history's
    [chronic_conditions] is truthy but not iterable ([True] or a non-zero
    number): the [extend] of the risk factors fails with [TypeError].  It
    raises nothing else, and on a history produced by [check_conditions] it
    always returns. *)
Theorem X20_classifier_raises_only_on_unlistable_conditions
    (statement : string) (history : Py.dict) :
  let conditions := Py.dget history "chronic_conditions" Py.VNone in
  (Tools.classify_symptoms statement history = Py.Raise Py.TypeError
   <-> Py.truthy conditions = true /\ unlistable conditions = true)
  /\ (forall e, Tools.classify_symptoms statement history = Py.Raise e ->
                e = Py.TypeError)
  /\ (forall symptoms,
        exists cls,
          Tools.classify_symptoms statement (Tools.check_conditions symptoms)
          = Py.Return cls).
Proof.
  intros conditions.
  pose proof (classify_symptoms_outcome statement history) as Ho.
  cbv zeta in Ho. fold conditions in Ho.
  split; [|split].
  - destruct (Py.truthy conditions), (unlistable conditions); simpl in Ho;
      try (destruct Ho as (cls & ->)); split; try done; intros [? ?]; done.
  - intros e He.
    destruct (Py.truthy conditions && unlistable conditions).
    + rewrite Ho in He. by injection He as <-.
    + destruct Ho as (cls & Hcls). by rewrite Hcls in He.
  - intros symptoms.
    pose proof (classify_symptoms_outcome statement
                  (Tools.check_conditions symptoms)) as Hc.
    unfold Tools.check_conditions in *.
    by destruct (existsb _ _).
Qed.

(* ===================================================================== *)
(** * The tools and the triage guide together *)
(* ===================================================================== *)

(** [X21] When the agent reports the classifier's result as the
    [classification] of a RED_FLAG_SCREENING report, the guide escalates
    exactly when the patient's statement contains a critical symptom: then
    the session is marked, gets level IMMEDIATE, records the detected
    symptoms and waits in SAVE_RECORD (the instruction itself is returned
    when the report's [medical_history] is a dict or absent); otherwise the
    call returns the chief-complaint instruction and the session moves to
    CHIEF_COMPLAINT with its mark and level untouched.  A classifier result
    never makes the screening raise by itself. *)
Theorem X21_classifier_verdict_decides_the_screening
    (g : gmap string Triage.TriageSession) (sid statement : string)
    (history cls report : Py.dict) (s : Triage.TriageSession) :
  g !! sid = Some s ->
  Triage.state s = "RED_FLAG_SCREENING" ->
  Tools.classify_symptoms statement history = Py.Return cls ->
  Py.assoc "classification" report = Some (Py.VDict cls) ->
  let r := Triage.continue_triage g sid report in
  let detected :=
    Triage.strs (Tools.detect Tools.CRITICAL_SYMPTOMS (Py.lower statement)) in
  exists s',
    Py.store r !! sid = Some s'
    /\ if mentions_critical statement then
         Triage.state s' = "SAVE_RECORD"
         /\ Triage.has_red_flags s' = true
         /\ Triage.triage_level s' = Some Triage.IMMEDIATE
         /\ Triage.red_flag_details s' = detected
         /\ Py.writes r = ["EMERGENCY_ESCALATION"; "SAVE_RECORD"]
         /\ (is_dict (Py.dget report "medical_history" (Py.VDict [])) = true ->
             exists payload,
               Py.out r = Py.Return payload
               /\ Py.field "status" payload
                  = Some (Py.VStr "emergency_save_required")
               /\ Py.field "red_flags_detected" payload = Some detected)
       else
         Triage.state s' = "CHIEF_COMPLAINT"
         /\ Triage.has_red_flags s' = Triage.has_red_flags s
         /\ Triage.triage_level s' = Triage.triage_level s
         /\ Py.writes r = ["CHIEF_COMPLAINT"]
         /\ exists payload,
              Py.out r = Py.Return payload
              /\ Py.field "status" payload = Some (Py.VStr "in_progress")
              /\ Py.field "task" payload
                 = Some (Py.VStr "gather_chief_complaint").
Proof.
  intros Hs Hst Hcls Hrep r detected. subst r.
  destruct (classify_symptoms_returns statement history cls Hcls)
    as (severity & recommendation & rf & -> & _ & _).
  assert (Hc : Py.dget report "classification" (Py.VDict []) = Py.VDict
                 [("severity", Py.VStr severity);
                  ("critical_symptoms", detected);
                  ("moderate_symptoms",
                   Triage.strs (Tools.detect Tools.MODERATE_SYMPTOMS
                                  (Py.lower statement)));
                  ("risk_factors", Py.VList rf);
                  ("recommendation", Py.VStr recommendation);
                  ("requires_emergency_protocol",
                   Py.VBool (mentions_critical statement))])
    by (unfold Py.dget; by rewrite Hrep).
  clear Hrep Hcls. revert Hc. generalize detected. clear detected.
  intros detected Hc.
  destruct (mentions_critical statement).
  - rewrite (continue_triage_screening_emergency g sid report _ s Hs Hst Hc
               eq_refl).
    cbv zeta. cbn [Py.store Py.out Py.writes]. rewrite lookup_insert_eq.
    eexists. split; [reflexivity|].
    split; [reflexivity|]. split; [reflexivity|]. split; [reflexivity|].
    split; [reflexivity|]. split; [reflexivity|].
    intros Hd.
    destruct (Py.dget report "medical_history" (Py.VDict []));
      try discriminate.
    cbn [Py.get]. eexists. split; [reflexivity|]. split; reflexivity.
  - rewrite (continue_triage_screening_passed g sid report _ s Hs Hst Hc
               eq_refl).
    cbn [Py.store Py.out Py.writes]. rewrite lookup_insert_eq.
    eexists. split; [reflexivity|].
    split; [reflexivity|]. split; [reflexivity|]. split; [reflexivity|].
    split; [reflexivity|].
    eexists. split; [reflexivity|]. split; reflexivity.
Qed.

Lemma X21_classifier_verdict_witness :
  exists s cls s',
    triage_started !! "a1b2c3d4" = Some s
    /\ Triage.state s = "RED_FLAG_SCREENING"
    /\ Tools.classify_symptoms "Crushing chest pain, radiating to left arm"
         (Tools.check_conditions "chest pain") = Py.Return cls
    /\ Py.store (Triage.continue_triage triage_started "a1b2c3d4"
                   [("classification", Py.VDict cls)]) !! "a1b2c3d4"
       = Some s'.
Proof.
  assert (Hex : exists s, triage_started !! "a1b2c3d4" = Some s
                          /\ Triage.state s = "RED_FLAG_SCREENING")
    by (vm_compute; eauto).
  destruct Hex as (s & E & Hst).
  assert (Hex : exists cls,
            Tools.classify_symptoms
              "Crushing chest pain, radiating to left arm"
              (Tools.check_conditions "chest pain") = Py.Return cls)
    by (vm_compute; eauto).
  destruct Hex as (cls & Hcls).
  destruct (X21_classifier_verdict_decides_the_screening
              triage_started "a1b2c3d4"
              "Crushing chest pain, radiating to left arm"
              (Tools.check_conditions "chest pain") cls
              [("classification", Py.VDict cls)] s E Hst Hcls eq_refl)
    as (s' & Hs' & _).
  exists s, cls, s'.
  split; [exact E|]. split; [exact Hst|]. split; [exact Hcls|exact Hs'].
Defined.

(* ===================================================================== *)
(** * The vitals assessment *)
(* ===================================================================== *)

Lemma assess_vitals_outcome (vitals : Py.dict) :
  if reading_ok vitals "blood_pressure" && reading_ok vitals "heart_rate"
     && reading_ok vitals "oxygen_saturation"
  then exists findings,
         Tools.assess_vitals vitals = Py.Return findings
         /\ Tools.nonempty findings = flagged vitals
         /\ length findings <= 3
  else Tools.assess_vitals vitals = Py.Raise Py.AttributeError.
Proof.
  unfold Tools.assess_vitals, reading_ok, flagged, reading_status.
  cbv zeta.
  generalize (Py.dget vitals "blood_pressure" (Py.VDict [])).
  generalize (Py.dget vitals "heart_rate" (Py.VDict [])).
  generalize (Py.dget vitals "oxygen_saturation" (Py.VDict [])).
  intros o2 hr bp.
  destruct bp as [| | | | |bp]; try reflexivity.
  destruct hr as [| | | | |hr];
    cbn [is_dict andb Py.get Tools.and_then]; try reflexivity.
  destruct o2 as [| | | | |o2];
    cbn [is_dict andb Py.get Tools.and_then]; try reflexivity.
  destruct (Tools.eq_str (Py.dget bp "status" Py.VNone) "CRITICAL"),
    (Tools.eq_str (Py.dget hr "status" Py.VNone) "CRITICAL"),
    (Tools.eq_str (Py.dget o2 "status" Py.VNone) "LOW");
    eexists; (split; [reflexivity|]); split; simpl; (done || lia).
Qed.

(** [X22] [assess_vitals] returns exactly when each of the three readings
    it looks at - blood pressure, heart rate, oxygen saturation - is a dict
    or is absent; a reading of another shape makes it raise
    [AttributeError].  When it returns, there are at most three findings,
    and there is one exactly when a blood pressure or heart rate has status
    CRITICAL or the oxygen saturation has status LOW; respiratory rate and
    temperature are never looked at. *)
Theorem X22_assess_vitals_needs_dict_readings (vitals : Py.dict) :
  if reading_ok vitals "blood_pressure" && reading_ok vitals "heart_rate"
     && reading_ok vitals "oxygen_saturation"
  then exists findings,
         Tools.assess_vitals vitals = Py.Return findings
         /\ (findings <> [] <-> flagged vitals = true)
         /\ length findings <= 3
  else Tools.assess_vitals vitals = Py.Raise Py.AttributeError.
Proof.
  pose proof (assess_vitals_outcome vitals) as Ho.
  destruct (_ && _); [|done].
  destruct Ho as (findings & Hf & Hn & Hl).
  exists findings. split; [done|]. split; [|done].
  rewrite <- Hn. by destruct findings.
Qed.

(** [X23] When the agent reports the findings of [assess_vitals] as the
    [critical_values] of a VITAL_SIGNS report, the call returns its
    instruction and the session moves to SEVERITY_ASSESSMENT; it is marked
    as having critical vitals, and its score is raised by 3, exactly when a
    reading was flagged.  The following call then completes the session,
    and a flagged reading always gives level EMERGENCY, whatever the
    score. *)
Theorem X23_assessed_vitals_set_the_level
    (g : gmap string Triage.TriageSession) (sid : string)
    (vitals_ report next_report : Py.dict) (findings : list string)
    (s : Triage.TriageSession) :
  g !! sid = Some s ->
  Triage.state s = "VITAL_SIGNS" ->
  Tools.assess_vitals vitals_ = Py.Return findings ->
  Py.assoc "critical_values" report = Some (Triage.strs findings) ->
  let r := Triage.continue_triage g sid report in
  let r' := Triage.continue_triage (Py.store r) sid next_report in
  exists payload s' s'',
    Py.out r = Py.Return payload
    /\ Py.field "task" payload = Some (Py.VStr "assess_severity")
    /\ Py.store r !! sid = Some s'
    /\ Triage.state s' = "SEVERITY_ASSESSMENT"
    /\ Triage.vitals_critical s' = flagged vitals_
    /\ Triage.severity_score s'
       = (Triage.severity_score s + (if flagged vitals_ then 3 else 0))%Z
    /\ Py.store r' !! sid = Some s''
    /\ Triage.state s'' = "COMPLETE"
    /\ Triage.triage_level s''
       = Some (assessed_level (Triage.severity_score s') (flagged vitals_))
    /\ (flagged vitals_ = true ->
        Triage.triage_level s'' = Some Triage.EMERGENCY).
Proof.
  intros Hs Hst Hf Hrep r r'. subst r' r.
  pose proof (assess_vitals_outcome vitals_) as Ho.
  destruct (_ && _); [|by rewrite Hf in Ho].
  destruct Ho as (findings' & Hf' & Hn & _).
  assert (findings' = findings) as -> by congruence.
  assert (Hcv : Py.dget report "critical_values" (Py.VList [])
                = Triage.strs findings)
    by (unfold Py.dget; by rewrite Hrep).
  assert (Hlen : Py.len (Py.dget report "critical_values" (Py.VList []))
                 = Py.Return (Z.of_nat (length findings))).
  { rewrite Hcv. unfold Triage.strs. cbn [Py.len]. by rewrite length_map. }
  assert (Hpos : (0 <? Z.of_nat (length findings))%Z = flagged vitals_).
  { rewrite <- Hn. by destruct findings. }
  assert (Htr : Py.truthy (Py.dget report "critical_values" (Py.VList []))
                = flagged vitals_).
  { by rewrite (len_truthy _ _ Hlen). }
  rewrite (continue_triage_vital_signs g sid report s _ Hs Hst Hlen).
  cbv zeta. cbn [Py.out Py.store].
  set (s' := after_vital_signs report (Z.of_nat (length findings)) s).
  assert (Hst' : Triage.state s' = "SEVERITY_ASSESSMENT") by reflexivity.
  assert (Hvc : Triage.vitals_critical s' = flagged vitals_).
  { unfold s', after_vital_signs. cbv zeta. rewrite Htr, Hpos.
    by destruct (flagged vitals_). }
  assert (Hsc : Triage.severity_score s'
                = (Triage.severity_score s
                   + (if flagged vitals_ then 3 else 0))%Z).
  { unfold s', after_vital_signs. cbv zeta. rewrite Htr.
    destruct (flagged vitals_); simpl; lia. }
  rewrite (continue_triage_assessment _ sid next_report s'
             (lookup_insert_eq _ _ _) Hst').
  cbv zeta. cbn [Py.store].
  eexists _, s', (after_assessment s').
  split; [reflexivity|]. split; [reflexivity|].
  rewrite !lookup_insert_eq.
  split; [reflexivity|]. split; [exact Hst'|]. split; [exact Hvc|].
  split; [exact Hsc|]. split; [reflexivity|]. split; [reflexivity|].
  assert (Hl : Triage.triage_level (after_assessment s')
               = Some (assessed_level (Triage.severity_score s')
                         (flagged vitals_))).
  { rewrite <- Hvc. reflexivity. }
  split; [exact Hl|].
  intros Hfl. rewrite Hl, Hfl. unfold assessed_level.
  by rewrite orb_true_r.
Qed.

Lemma X23_assessed_vitals_witness :
  exists s findings payload,
    Triage.continue_many triage_started
      [("a1b2c3d4", calm_report); ("a1b2c3d4", calm_report);
       ("a1b2c3d4", calm_report)] !! "a1b2c3d4" = Some s
    /\ Triage.state s = "VITAL_SIGNS"
    /\ Tools.assess_vitals
         [("blood_pressure", Py.VDict [("status", Py.VStr "CRITICAL")])]
       = Py.Return findings
    /\ Py.out (Triage.continue_triage
                 (Triage.continue_many triage_started
                    [("a1b2c3d4", calm_report); ("a1b2c3d4", calm_report);
                     ("a1b2c3d4", calm_report)])
                 "a1b2c3d4" [("critical_values", Triage.strs findings)])
       = Py.Return payload.
Proof.
  assert (Hex : exists s,
            Triage.continue_many triage_started
              [("a1b2c3d4", calm_report); ("a1b2c3d4", calm_report);
               ("a1b2c3d4", calm_report)] !! "a1b2c3d4" = Some s
            /\ Triage.state s = "VITAL_SIGNS")
    by (vm_compute; eauto).
  destruct Hex as (s & E & Hst).
  assert (Hex : exists findings,
            Tools.assess_vitals
              [("blood_pressure", Py.VDict [("status", Py.VStr "CRITICAL")])]
            = Py.Return findings)
    by (vm_compute; eauto).
  destruct Hex as (findings & Hf).
  destruct (X23_assessed_vitals_set_the_level _ "a1b2c3d4"
              [("blood_pressure", Py.VDict [("status", Py.VStr "CRITICAL")])]
              [("critical_values", Triage.strs findings)] [] findings s
              E Hst Hf eq_refl)
    as (payload & _ & _ & Hout & _).
  exists s, findings, payload.
  split; [exact E|]. split; [exact Hst|]. split; [exact Hf|exact Hout].
Defined.

(* ===================================================================== *)
(** * Saving the record of an escalated session *)
(* ===================================================================== *)

(** [X24] The instruction returned by an escalating screening call carries
    the [triage_data] to save.  [save_triage_record] on that data, whatever
    number it draws and whatever patient id it is given, answers [saved] and
    echoes the data, all of it but the patient id, as [saved_data].
    Reporting its answer back completes the session: the call returns the
    [emergency] instruction, the session is COMPLETE, still marked and at
    level IMMEDIATE, and the last entry of its audit trail holds the record
    id the tool made up and the status [saved]. *)
Theorem X24_saved_emergency_record_closes_the_session
    (g : gmap string Triage.TriageSession) (sid : string) (report : Py.dict)
    (s : Triage.TriageSession) (payload : Py.value)
    (drawn : Z) (patient_id : Py.value) :
  g !! sid = Some s ->
  Triage.state s = "RED_FLAG_SCREENING" ->
  requires_emergency report = true ->
  Py.out (Triage.continue_triage g sid report) = Py.Return payload ->
  exists pid saved_data,
    Py.field "triage_data" payload
    = Some (Py.VDict (("patient_id", pid) :: saved_data))
    /\ let record :=
         Tools.save_triage_record drawn patient_id
           (("patient_id", pid) :: saved_data) in
       let r' :=
         Triage.continue_triage
           (Py.store (Triage.continue_triage g sid report)) sid record in
       Py.assoc "status" record = Some (Py.VStr "saved")
       /\ Py.assoc "patient_id" record = Some patient_id
       /\ Py.assoc "saved_data" record = Some (Py.VDict saved_data)
       /\ exists payload' s',
            Py.out r' = Py.Return payload'
            /\ Py.field "status" payload' = Some (Py.VStr "emergency")
            /\ Py.store r' !! sid = Some s'
            /\ Triage.state s' = "COMPLETE"
            /\ Triage.has_red_flags s' = true
            /\ Triage.triage_level s' = Some Triage.IMMEDIATE
            /\ last (Triage.protocol_steps s')
               = Some (Triage.step_entry "triage_record_saved"
                         (Py.VDict
                            [("record_id",
                              Py.VStr ("TRIAGE-" +:+ pretty drawn));
                             ("status", Py.VStr "saved")])).
Proof.
  intros Hs Hst Hreq Hout. unfold requires_emergency in Hreq.
  destruct (Py.dget report "classification" (Py.VDict []))
    as [| | | | |cls] eqn:Hc; try discriminate.
  cbn [Py.get] in Hreq.
  revert Hout.
  rewrite (continue_triage_screening_emergency g sid report cls s Hs Hst Hc
             Hreq).
  cbv zeta. cbn [Py.out Py.store].
  destruct (Py.get _ "patient_id" _) as [pid|]; [|done].
  intros [= <-].
  eexists pid, _. split; [reflexivity|].
  cbv zeta.
  split; [reflexivity|]. split; [reflexivity|]. split; [reflexivity|].
  rewrite (continue_triage_save_record _ sid _
             (after_escalation_call report cls s)
             (lookup_insert_eq _ _ _) eq_refl).
  cbv zeta. cbn [Py.out Py.store].
  change (Triage.triage_level (after_escalation_call report cls s))
    with (Some Triage.IMMEDIATE).
  eexists _, _. split; [reflexivity|]. split; [reflexivity|].
  rewrite lookup_insert_eq. split; [reflexivity|].
  split; [reflexivity|]. split; [reflexivity|]. split; [reflexivity|].
  unfold after_save_record, Triage.append_step.
  cbn [Triage.protocol_steps Triage.set_state Triage.set_protocol_steps].
  apply last_snoc.
Qed.

Lemma X24_saved_emergency_record_witness :
  exists s payload,
    triage_started !! "a1b2c3d4" = Some s
    /\ Triage.state s = "RED_FLAG_SCREENING"
    /\ requires_emergency emergency_report = true
    /\ Py.out (Triage.continue_triage triage_started "a1b2c3d4"
                 emergency_report) = Py.Return payload
    /\ exists pid saved_data,
         Py.field "triage_data" payload
         = Some (Py.VDict (("patient_id", pid) :: saved_data)).
Proof.
  assert (Hex : exists s, triage_started !! "a1b2c3d4" = Some s
                          /\ Triage.state s = "RED_FLAG_SCREENING")
    by (vm_compute; eauto).
  destruct Hex as (s & E & Hst).
  assert (Hex : exists payload,
            Py.out (Triage.continue_triage triage_started "a1b2c3d4"
                      emergency_report) = Py.Return payload)
    by (vm_compute; eauto).
  destruct Hex as (payload & Hout).
  assert (Hreq : requires_emergency emergency_report = true)
    by (vm_compute; reflexivity).
  destruct (X24_saved_emergency_record_closes_the_session
              triage_started "a1b2c3d4" emergency_report s payload
              4711 (Py.VStr "P001") E Hst Hreq Hout)
    as (pid & saved_data & Htd & _).
  exists s, payload.
  split; [exact E|]. split; [exact Hst|]. split; [exact Hreq|].
  split; [exact Hout|]. exists pid, saved_data. exact Htd.
Defined.

(* ===================================================================== *)
(** * The callers of the pizza guide *)
(* ===================================================================== *)

(** What the caller sees of one answer to an order that is waiting for
    one. *)
Lemma continue_order_answer (g : gmap string Pizza.PizzaOrder)
    (sid resp : string) (o : Pizza.PizzaOrder) :
  g !! sid = Some o -> Pizza.session_id o = sid -> filled o ->
  collecting o ->
  exists payload,
    Py.out (Pizza.continue_order g sid resp) = Py.Return payload
    /\ ((Py.field "status" payload = Some (Py.VStr "in_progress")
         /\ exists o', Py.store (Pizza.continue_order g sid resp)
                       = <[sid := o']> g
                       /\ collecting o')
        \/ (Py.field "status" payload = Some (Py.VStr "complete")
            /\ exists o', Py.store (Pizza.continue_order g sid resp)
                          = <[sid := o']> g
                          /\ Pizza.state o' = "COMPLETE")
        \/ (Py.field "status" payload = Some (Py.VStr "cancelled")
            /\ Py.store (Pizza.continue_order g sid resp) = delete sid g)).
Proof.
  intros Hg Hid Hf (r & Hr & Hle).
  assert (Hstay : Py.field "status" (Pizza.stay_payload o)
                  = Some (Py.VStr "in_progress")
                  /\ exists o', g = <[sid := o']> g /\ collecting o').
  { split; [done|]. exists o. split; [by rewrite insert_id|].
    by exists r. }
  destruct (String.eqb_spec (Pizza.state o) "CHOOSE_CRUST") as [E1|N1].
  { rewrite (continue_order_crust g sid resp o Hg E1). cbv zeta.
    destruct (Pizza.truthy_opt _); cbn [Py.out Py.store];
      (eexists; split; [reflexivity|]); left; [|done].
    split; [done|]. eexists. split; [reflexivity|]. exists 1; split; [reflexivity|lia]. }
  destruct (String.eqb_spec (Pizza.state o) "CHOOSE_CATEGORY") as [E2|N2].
  { rewrite (continue_order_category g sid resp o Hg E2). cbv zeta.
    destruct (Py.contains "veg" _); cbn [Py.out Py.store].
    { eexists; split; [reflexivity|]. left.
      split; [done|]. eexists. split; [reflexivity|]. exists 2; split; [reflexivity|lia]. }
    destruct (Py.contains "meat" _); cbn [Py.out Py.store];
      (eexists; split; [reflexivity|]); left; [|done].
    split; [done|]. eexists. split; [reflexivity|]. exists 2; split; [reflexivity|lia]. }
  destruct (String.eqb_spec (Pizza.state o) "CHOOSE_TOPPINGS") as [E3|N3].
  { rewrite (continue_order_toppings g sid resp o Hg E3). cbv zeta.
    destruct (Pizza.select_toppings _ _); cbn [Py.out Py.store];
      (eexists; split; [reflexivity|]); left; [done|].
    split; [done|]. eexists. split; [reflexivity|]. exists 3; split; [reflexivity|lia]. }
  destruct (String.eqb_spec (Pizza.state o) "CHOOSE_SIZE") as [E4|N4].
  { rewrite (continue_order_size g sid resp o Hg E4). cbv zeta.
    assert (Hcat : exists c, Pizza.category o = Some c).
    { destruct (filled_rank o 3 Hf) as (_ & [->| ->] & _);
        [by rewrite E4|lia|eauto|eauto]. }
    destruct Hcat as (c & ->).
    destruct (Pizza.truthy_opt _); cbn [Py.out Py.store];
      (eexists; split; [reflexivity|]); left; [|done].
    split; [done|]. eexists. split; [reflexivity|]. exists 4; split; [reflexivity|lia]. }
  destruct (String.eqb_spec (Pizza.state o) "CONFIRM") as [E5|N5].
  { rewrite (continue_order_confirm g sid resp o Hg E5 Hid).
    assert (Hcat : exists c, Pizza.category o = Some c).
    { destruct (filled_rank o 4 Hf) as (_ & [->| ->] & _);
        [by rewrite E5|lia|eauto|eauto]. }
    destruct Hcat as (c & ->).
    destruct (Pizza.affirmative _); cbv zeta; cbn [Py.out Py.store];
      (eexists; split; [reflexivity|]); right; [left|right].
    - split; [done|]. eexists. split; reflexivity.
    - split; done. }
  exfalso. revert Hr. unfold pizza_rank.
  rewrite (proj2 (String.eqb_neq _ _) N1), (proj2 (String.eqb_neq _ _) N2),
    (proj2 (String.eqb_neq _ _) N3), (proj2 (String.eqb_neq _ _) N4),
    (proj2 (String.eqb_neq _ _) N5).
  destruct (String.eqb _ _); intros [= <-]. lia.
Qed.

Lemma rstrip_empty (w : string) : Py.rstrip w = "" -> Py.blank w = true.
Proof.
  induction w as [|c w IH]; [done|]. simpl.
  destruct (Py.rstrip w); [|done].
  destruct (Py.isspace c); [|done]. intros _. by apply IH.
Qed.

Lemma blank_lstrip (w : string) :
  Py.blank (Py.lstrip w) = true -> Py.blank w = true.
Proof.
  induction w as [|c w IH]; [done|]. simpl.
  destruct (Py.isspace c) eqn:Hc; [exact IH|].
  simpl. by rewrite Hc.
Qed.

(** The lines that strip to nothing are the blank ones. *)
Lemma strip_empty (w : string) : Py.strip w = "" <-> Py.blank w = true.
Proof.
  split; [|apply strip_blank].
  intros H. by apply blank_lstrip, rstrip_empty.
Qed.

Lemma conversation_unfold (g : gmap string Pizza.PizzaOrder) (sid : string)
    (result : Py.value) (lines : list string) :
  Demo.conversation g sid result lines
  = match Py.field "status" result with
    | None => (Demo.Raised Py.KeyError, g)
    | Some status =>
        if Tools.eq_str status "complete" then (Demo.Complete, g)
        else if Tools.eq_str status "cancelled" then (Demo.Cancelled, g)
        else if Tools.eq_str status "error" then (Demo.Error, g)
        else
          match lines with
          | [] => (Demo.EndOfInput, g)
          | line :: lines' =>
              if String.eqb (Py.strip line) ""
              then Demo.conversation g sid result lines'
              else
                match Py.out (Pizza.continue_order g sid (Py.strip line)) with
                | Py.Return result' =>
                    Demo.conversation
                      (Py.store (Pizza.continue_order g sid (Py.strip line)))
                      sid result' lines'
                | Py.Raise e =>
                    (Demo.Raised e,
                     Py.store (Pizza.continue_order g sid (Py.strip line)))
                end
          end
    end.
Proof. by destruct lines. Qed.

Lemma conversation_ends (lines : list string) :
  forall (sid : string) (result : Py.value) (o : Pizza.PizzaOrder),
    Pizza.session_id o = sid -> filled o ->
    (Py.field "status" result = Some (Py.VStr "in_progress") /\ collecting o
     \/ Py.field "status" result = Some (Py.VStr "complete")
        /\ Pizza.state o = "COMPLETE") ->
    match Demo.conversation {[sid := o]} sid result lines with
    | (Demo.Complete, g) =>
        exists o', g = {[sid := o']} /\ Pizza.state o' = "COMPLETE"
                   /\ filled o'
    | (Demo.Cancelled, g) => g = ∅
    | (Demo.EndOfInput, g) =>
        exists o', g = {[sid := o']} /\ collecting o' /\ filled o'
    | (Demo.Error, _) | (Demo.Raised _, _) => False
    end.
Proof.
  induction lines as [|line lines IH]; intros sid result o Hid Hf Hres;
    rewrite conversation_unfold.
  - destruct Hres as [[-> Hc] | [-> Hst]]; simpl; eauto.
  - destruct Hres as [[Hres Hc] | [-> Hst]]; [|simpl; eauto].
    rewrite Hres. cbn [Tools.eq_str]. 
    change (String.eqb "in_progress" "complete") with false.
    change (String.eqb "in_progress" "cancelled") with false.
    change (String.eqb "in_progress" "error") with false.
    cbv iota.
    destruct (String.eqb (Py.strip line) ""); [by apply IH; auto|].
    assert (Hok : pizza_store_ok {[sid := o]}).
    { split; intros k o' [<- <-]%lookup_singleton_Some; done. }
    pose proof (pizza_call_store_ok _ (Continue_order sid (Py.strip line)) Hok)
      as [Hwk' Hf'].
    cbn [pizza_call_store] in Hwk', Hf'.
    destruct (continue_order_answer {[sid := o]} sid (Py.strip line) o
                (lookup_singleton_eq _ _) Hid Hf Hc)
      as (payload & -> & [(Hp & o' & Hs & Hc') | [(Hp & o' & Hs & Hst')
                                                 | (Hp & Hs)]]).
    + rewrite Hs in *. rewrite insert_singleton_eq in *.
      apply IH; [| |by left].
      * by apply (Hwk' sid), lookup_singleton_eq.
      * by apply (Hf' sid), lookup_singleton_eq.
    + rewrite Hs in *. rewrite insert_singleton_eq in *.
      apply IH; [| |by right].
      * by apply (Hwk' sid), lookup_singleton_eq.
      * by apply (Hf' sid), lookup_singleton_eq.
    + rewrite Hs, delete_singleton_eq.
      rewrite conversation_unfold, Hp. reflexivity.
Qed.

(** [X25] The demo never ends on the [error] branch of its loop and no
    exception of the guide escapes it, whatever id [start_order] draws and
    whatever lines are typed.  It ends on a confirmed order, on a cancelled
    one, or because the input ran out.  A confirmed order is the only entry
    of the guide, is COMPLETE and holds menu values in all its fields; a
    cancelled order leaves the guide empty; when the input runs out the
    order is still waiting for an answer. *)
Theorem X25_demo_never_ends_in_error (uuid8 : string) (lines : list string) :
  match Demo.main uuid8 lines with
  | (Demo.Complete, g) =>
      exists o, g = {[uuid8 := o]} /\ Pizza.state o = "COMPLETE" /\ filled o
  | (Demo.Cancelled, g) => g = ∅
  | (Demo.EndOfInput, g) =>
      exists o, g = {[uuid8 := o]} /\ collecting o /\ filled o
  | (Demo.Error, _) | (Demo.Raised _, _) => False
  end.
Proof.
  unfold Demo.main, Pizza.start_order. cbv zeta.
  cbn [Py.field Py.assoc String.eqb Ascii.eqb Bool.eqb].
  rewrite insert_empty.
  apply conversation_ends; [done|apply new_order_filled|].
  left. split; [done|]. exists 0. split; [done|lia].
Qed.

Lemma conversation_skips_blank_lines (lines : list string) :
  forall (g : gmap string Pizza.PizzaOrder) (sid : string)
         (result : Py.value),
    Demo.conversation g sid result lines
    = Demo.conversation g sid result (spoken lines).
Proof.
  induction lines as [|line lines IH]; intros g sid result; [done|].
  unfold spoken. cbn [List.filter]. fold (spoken lines).
  destruct (Py.blank line) eqn:Hb; cbn [negb].
  - rewrite conversation_unfold, (strip_blank _ Hb).
    rewrite (conversation_unfold g sid result (spoken lines)).
    cbn [String.eqb]. rewrite IH.
    rewrite (conversation_unfold g sid result (spoken lines)).
    destruct (Py.field "status" result) as [status|]; [|done].
    by repeat destruct (Tools.eq_str status _).
  - rewrite !(conversation_unfold g sid result (_ :: _)).
    destruct (Py.field "status" result) as [status|]; [|done].
    repeat (destruct (Tools.eq_str status _); [done|]).
    destruct (String.eqb (Py.strip line) ""); [apply IH|].
    destruct (Py.out _); [apply IH|done].
Qed.

(** [X26] The demo never passes a blank answer to the guide: lines that
    are empty or consist of white space only are skipped, so the demo ends
    the same way, with the same guide, as on the remaining lines alone.
    The default choice the guide makes for a blank answer cannot be
    reached through the demo; an order only advances on a line that has
    something in it. *)
Theorem X26_demo_skips_blank_lines (uuid8 : string) (lines : list string) :
  Demo.main uuid8 lines = Demo.main uuid8 (spoken lines)
  /\ (forall line, In line (spoken lines) -> Py.strip line <> "")
  /\ (spoken lines = [] ->
      Demo.main uuid8 lines
      = (Demo.EndOfInput,
         {[uuid8 := Pizza.new_order uuid8 "CHOOSE_CRUST"]})).
Proof.
  assert (Hmain : Demo.main uuid8 lines = Demo.main uuid8 (spoken lines)).
  { unfold Demo.main. destruct (Pizza.start_order ∅ uuid8) as [result g].
    destruct (Py.field "session_id" result) as [[| | |sid| |]|]; try done.
    apply conversation_skips_blank_lines. }
  split; [exact Hmain|]. split.
  - intros line [_ Hb]%filter_In Hs. apply strip_empty in Hs.
    by rewrite Hs in Hb.
  - intros Hnil. rewrite Hmain, Hnil.
    unfold Demo.main, Pizza.start_order. cbv zeta.
    cbn [Py.field Py.assoc String.eqb Ascii.eqb Bool.eqb].
    by rewrite insert_empty.
Qed.


